(** * AbstractWeb3Object.js: a shallow embedding and its properties

    The file embeds [packages/web3-core-package/src/AbstractWeb3Object.js]:
    the constructor with the [currentProvider] accessor, [isDependencyGiven],
    [setProvider], [clearSubscriptions], [extend] with the method models it
    synthesises, and [proxyHandler].

    JavaScript objects live in a heap of property maps, exceptions are an
    error outcome that keeps the heap reached so far, and every call that
    leaves this file (to a transport, the providers package, the method
    controller, a formatter) is answered by a [Host] and recorded in a log. *)

From Stdlib Require Import ZArith Lia Ascii String.
From stdpp Require Import base option list strings gmap pretty.

Open Scope string_scope.
Open Scope list_scope.
Open Scope nat_scope.

(** ** Values *)

(** Objects are named by their position in the heap. *)
Abbreviation loc := nat.

(** Functions that exist before any object is created: the constructor and
    the five methods of [AbstractWeb3Object.prototype], the method model
    factory of the sibling package, and the functions of collaborators,
    known by a number only. *)
Inductive Native :=
| NAbstractWeb3Object
| NIsDependencyGiven
| NSetProvider
| NClearSubscriptions
| NExtend
| NProxyHandler
| NMethodModelFactory
| NHasMethodModel
| NCreateMethodModel
| NExternal (id : nat).

(** Arrays are kept by value: the arrays of this file ([extendedPackages],
    [arguments], a response) are reached through one reference only. *)
#[warnings="-register-all"]
Inductive Value :=
| VUndefined
| VNull
| VBool (b : bool)
| VNum (n : Z)
| VStr (s : string)
| VArr (xs : list Value)
| VObj (l : loc)
| VProxy (l : loc)          (* new Proxy(target, {get: this.proxyHandler}) *)
| VNative (f : Native).

(** Function objects created while the file runs, with what they close over. *)
Inductive Code :=
| CBatchRequest (batchRequestPackage : Value)        (* line 80 *)
| CExtensionMethodModel (method : Value)             (* line 166 *)
| CBeforeExecution (method : Value)                  (* line 170 *)
| CAfterExecution (method : Value)                   (* line 178 *)
| CAnonymous (target : loc) (methodModel : Value).   (* line 223 *)

Inductive Proto :=
| ProtoNone
| ProtoObject        (* Object.prototype *)
| ProtoFunction      (* Function.prototype *)
| ProtoWeb3Object    (* AbstractWeb3Object.prototype *)
| ProtoFactory       (* the prototype of the method model factory *)
| ProtoAt (l : loc).

(** [slot] is [Some v] once line 65 has run: the object then has the accessor
    property [currentProvider], and [v] is the constructor's local variable
    [currentProvider] that the accessor's two functions close over. *)
Record Obj := mkObj {
  props : gmap string Value;
  slot : option Value;
  proto : Proto;
  code : option Code
}.

Definition plain (ps : gmap string Value) : Obj := mkObj ps None ProtoObject None.
Definition closure (c : Code) : Obj := mkObj ∅ None ProtoFunction (Some c).

(** ** Outcomes, log and state *)

Inductive Error :=
| TypeError
| ReferenceError (name : string)
| ErrorMsg (msg : string)           (* throw Error(msg) *)
| UnknownMethodError
| Thrown (v : Value)                (* raised by a collaborator *)
| NotModelled                       (* outside the fragment modelled here *)
| OutOfFuel.                        (* not a JavaScript error *)

Inductive Outcome (A : Type) :=
| Ret (a : A)
| Throw (e : Error).
Arguments Ret {A} a.
Arguments Throw {A} e.

(** The places of the source where a function value is called. *)
Inductive Site :=
| L52_detect
| L71_clearSubscriptions
| L74_resolve
| L81_createBatchRequest
| L124_setProvider
| L135_hasSubscription
| L136_clearSubscriptions
| L152_new_constructor
| L156_new_factory
| L167_AbstractMethodModel
| L173_formatter
| L182_outputFormatter
| L192_outputFormatter
| L216_hasMethodModel
| L221_createMethodModel
| L226_execute
| Factory_new_model.

Inductive Event :=
| EvCall (site : Site) (f this : Value) (args : list Value)
| EvNew (site : Site) (f : Value) (args : list Value)
| EvSlot (client : loc) (v : Value).   (* line 74 assigns the closure variable *)

Record State := mkState {
  heap : gmap loc Obj;
  next : loc;
  log : list Event
}.

(** What surrounds the file: the global scope in which its free identifiers
    ([self], [_], [AbstractMethodModel], [result]) are looked up, the members
    of the built-in prototypes, and the behaviour of collaborator functions.
    Collaborators read the heap and answer; what they do to their own
    objects is not followed. *)
Record Host := mkHost {
  globals : string → option Value;
  object_prototype : string → option Value;
  function_prototype : string → option Value;
  ext_member : nat → string → Value;
  ext_call : nat → gmap loc Obj → Value → list Value → Outcome Value;
  ext_new : nat → gmap loc Obj → list Value → Outcome Value
}.

(** ** The monad: state that survives an exception *)

Definition M (A : Type) : Type := State → Outcome A * State.

Definition ret {A} (a : A) : M A := λ st, (Ret a, st).
Definition throw {A} (e : Error) : M A := λ st, (Throw e, st).
Definition bind {A B} (k : A → M B) (m : M A) : M B :=
  λ st, match m st with
        | (Ret a, st') => k a st'
        | (Throw e, st') => (Throw e, st')
        end.

#[global] Instance M_ret : MRet M := @ret.
#[global] Instance M_bind : MBind M := @bind.

Definition of_outcome {A} (o : Outcome A) : M A := λ st, (o, st).
Definition get_heap : M (gmap loc Obj) := λ st, (Ret (heap st), st).
Definition emit (e : Event) : M unit :=
  λ st, (Ret tt, mkState (heap st) (next st) (log st ++ [e])).
Definition alloc (o : Obj) : M loc :=
  λ st, (Ret (next st), mkState (<[next st := o]> (heap st)) (S (next st)) (log st)).
Definition read_obj (l : loc) : M Obj :=
  λ st, match heap st !! l with
        | Some o => (Ret o, st)
        | None => (Throw NotModelled, st)     (* no dangling reference in JavaScript *)
        end.
Definition write_obj (l : loc) (o : Obj) : M unit :=
  λ st, (Ret tt, mkState (<[l := o]> (heap st)) (next st) (log st)).

Fixpoint mapM {A B} (f : A → M B) (xs : list A) : M (list B) :=
  match xs with
  | [] => ret []
  | x :: xs' => y ← f x; ys ← mapM f xs'; ret (y :: ys)
  end.

Fixpoint forEach {A} (f : A → M unit) (xs : list A) : M unit :=
  match xs with
  | [] => ret tt
  | x :: xs' => f x;; forEach f xs'
  end.

(** ** Operators of the language *)

Definition arg (i : nat) (args : list Value) : Value := nth i args VUndefined.

(** typeof v === 'undefined' *)
Definition is_undefined (v : Value) : bool :=
  match v with VUndefined => true | _ => false end.

Definition is_null (v : Value) : bool :=
  match v with VNull => true | _ => false end.

(** ToBoolean *)
Definition truthy (v : Value) : bool :=
  match v with
  | VUndefined | VNull => false
  | VBool b => b
  | VNum n => negb (n =? 0)%Z
  | VStr s => negb (String.eqb s "")
  | _ => true
  end.

(** [v > 0]; a non-empty string or an object would be converted to a number
    first, which is not modelled. *)
Definition gt0 (v : Value) : M bool :=
  match v with
  | VNum n => ret (0 <? n)%Z
  | VBool b => ret b
  | VUndefined | VNull => ret false
  | VStr s => if String.eqb s "" then ret false else throw NotModelled
  | VArr [] => ret false
  | _ => throw NotModelled
  end.

(** ToPropertyKey, for the primitive values. A number is an integer here, and
    Number::toString prints it digit by digit as long as it is a safe integer
    (below 2^53 in absolute value); beyond that it prints the shortest digits
    that identify the double, and exponent notation from 1e21 on, which is
    not modelled. *)
Definition to_key (v : Value) : M string :=
  match v with
  | VStr s => ret s
  | VNum n => if (Z.abs n <? 2 ^ 53)%Z then ret (pretty n) else throw NotModelled
  | VBool true => ret "true"
  | VBool false => ret "false"
  | VUndefined => ret "undefined"
  | VNull => ret "null"
  | _ => throw NotModelled
  end.

(** ** Property access *)

Fixpoint assoc (name : string) (table : list (string * Value)) : option Value :=
  match table with
  | [] => None
  | (k, v) :: rest => if String.eqb name k then Some v else assoc name rest
  end.

(** The members that line 106 to 215 put on [AbstractWeb3Object.prototype]. *)
Definition web3_prototype : list (string * Value) :=
  [ ("constructor", VNative NAbstractWeb3Object);
    ("isDependencyGiven", VNative NIsDependencyGiven);
    ("setProvider", VNative NSetProvider);
    ("clearSubscriptions", VNative NClearSubscriptions);
    ("extend", VNative NExtend);
    ("proxyHandler", VNative NProxyHandler) ].

(** Modelled from the spec: the Method Model Factory of section 4.2 is not
    in this file. Its prototype carries the lookup, the creation of a model
    and the constructor that [extend] calls at line 156. *)
Definition factory_prototype : list (string * Value) :=
  [ ("constructor", VNative NMethodModelFactory);
    ("hasMethodModel", VNative NHasMethodModel);
    ("createMethodModel", VNative NCreateMethodModel) ].

(** An own property: the accessor defined at line 65 answers for
    [currentProvider] with the closure variable (the getter of line 66). *)
Definition own_get (o : Obj) (name : string) : option Value :=
  match slot o with
  | Some v => if String.eqb name "currentProvider" then Some v else props o !! name
  | None => props o !! name
  end.

Section Program.

Variable host : Host.

Definition lookup_global (name : string) : M Value :=
  match globals host name with
  | Some v => ret v
  | None => throw (ReferenceError name)
  end.

Definition builtin_get (table : list (string * Value)) (name : string) : Value :=
  match assoc name table with
  | Some v => v
  | None => default VUndefined (object_prototype host name)
  end.

(** The walk along the prototype chain; a chain has no cycle, so it is not
    longer than the heap. *)
Fixpoint proto_get (n : nat) (h : gmap loc Obj) (p : Proto) (name : string) : Value :=
  match p with
  | ProtoNone => VUndefined
  | ProtoObject => default VUndefined (object_prototype host name)
  | ProtoFunction =>
      match function_prototype host name with
      | Some v => v
      | None => default VUndefined (object_prototype host name)
      end
  | ProtoWeb3Object => builtin_get web3_prototype name
  | ProtoFactory => builtin_get factory_prototype name
  | ProtoAt l =>
      match n with
      | 0 => VUndefined
      | S n' =>
          match h !! l with
          | Some o =>
              match own_get o name with
              | Some v => v
              | None => proto_get n' h (proto o) name
              end
          | None => VUndefined
          end
      end
  end.

(** [target[name]] on an ordinary object. *)
Definition raw_get (h : gmap loc Obj) (o : Obj) (name : string) : Value :=
  match own_get o name with
  | Some v => v
  | None => proto_get (size h) h (proto o) name
  end.

(** [v.name] where [v] is not one of the proxies of line 89. *)
Definition member (v : Value) (name : string) : M Value :=
  match v with
  | VUndefined | VNull => throw TypeError
  | VObj l => o ← read_obj l; h ← get_heap; ret (raw_get h o name)
  | VArr xs =>
      if String.eqb name "length" then ret (VNum (Z.of_nat (length xs))) else throw NotModelled
  | VStr s =>
      if String.eqb name "length" then ret (VNum (Z.of_nat (String.length s))) else throw NotModelled
  | VNative (NExternal id) => ret (ext_member host id name)
  | _ => throw NotModelled
  end.

Definition set_prop (l : loc) (name : string) (v : Value) : M unit :=
  o ← read_obj l;
  write_obj l (mkObj (<[name := v]> (props o)) (slot o) (proto o) (code o)).

Definition own_entry (v : Value) (key : string) : M (option Value) :=
  match v with
  | VObj l => o ← read_obj l; ret (own_get o key)
  | VUndefined | VNull => throw TypeError
  | _ => throw NotModelled
  end.

(** The prototype that [new] gives an instance, from the [prototype] member
    of the constructor: Object.prototype when that member is not an object. *)
Definition proto_of (v : Value) : M Proto :=
  match v with
  | VObj l => ret (ProtoAt l)
  | VUndefined | VNull | VBool _ | VNum _ | VStr _ => ret ProtoObject
  | _ => throw NotModelled
  end.

(** ** Calls that leave the file *)

(** A function of a collaborator is answered by the host. A function of this
    file standing where a collaborator's function is expected is outside
    the model. *)
Definition call_external (f this : Value) (args : list Value) : M Value :=
  match f with
  | VNative (NExternal id) => h ← get_heap; of_outcome (ext_call host id h this args)
  | VNative _ => throw NotModelled
  | VObj l =>
      o ← read_obj l;
      match code o with Some _ => throw NotModelled | None => throw TypeError end
  | _ => throw TypeError
  end.

Definition call_collab (site : Site) (f this : Value) (args : list Value) : M Value :=
  emit (EvCall site f this args);; call_external f this args.

(** ** The method model factory *)

(** new ExtensionMethodModel(utils, formatters), lines 166 to 168. The call
    [AbstractMethodModel.call(this, ...)] runs the function bound to the free
    identifier [AbstractMethodModel] with the new object as [this]. *)
Definition ExtensionMethodModel (c : loc) (method : Value) (args : list Value) : M Value :=
  p ← member (VObj c) "prototype";
  pr ← proto_of p;
  this ← alloc (mkObj ∅ None pr None);
  amm ← lookup_global "AbstractMethodModel";
  mc ← member method "call";
  mp ← member method "params";
  call_collab L167_AbstractMethodModel amm (VObj this) [mc; mp; arg 0 args; arg 1 args];;
  ret (VObj this).

Definition new_model (cls : Value) (args : list Value) : M Value :=
  emit (EvNew Factory_new_model cls args);;
  match cls with
  | VObj c =>
      o ← read_obj c;
      match code o with
      | Some (CExtensionMethodModel method) => ExtensionMethodModel c method args
      | Some _ => throw NotModelled
      | None => throw TypeError
      end
  | VNative (NExternal id) => h ← get_heap; of_outcome (ext_new host id h args)
  | VNative _ => throw NotModelled
  | _ => throw TypeError
  end.

(** Modelled from the spec: [hasModel(name)] of section 4.2, a pure lookup in
    the factory's table of registered models (the object that line 200
    writes to as [methodModels]). *)
Definition hasMethodModel (this name : Value) : M Value :=
  mm ← member this "methodModels";
  key ← to_key name;
  e ← own_entry mm key;
  ret (VBool (bool_decide (is_Some e))).

(** Modelled from the spec: [createModel(name)] of section 4.2 fails with
    UnknownMethodError when no model is registered and otherwise returns a
    fresh instance of the registered model, built with the factory's shared
    utilities (the two parameters of the constructor of line 166). *)
Definition createMethodModel (this name : Value) : M Value :=
  mm ← member this "methodModels";
  key ← to_key name;
  e ← own_entry mm key;
  match e with
  | None => throw UnknownMethodError
  | Some cls =>
      utils ← member this "utils";
      formatters ← member this "formatters";
      new_model cls [utils; formatters]
  end.

(** Modelled from the spec: a new factory gets the shared utilities it is
    given and a table of registered models of its own (section 4.4: "its OWN
    Method Model Factory (seeded by cloning the parent's shared utilities, not
    its registered models)"). *)
Definition MethodModelFactory (args : list Value) : M Value :=
  mm ← alloc (plain ∅);
  f ← alloc (mkObj (<["methodModels" := VObj mm]>
                    (<["utils" := arg 0 args]>
                    (<["formatters" := arg 1 args]> ∅))) None ProtoFactory None);
  ret (VObj f).

Definition call_factory (site : Site) (f this : Value) (args : list Value) : M Value :=
  emit (EvCall site f this args);;
  match f with
  | VNative NHasMethodModel => hasMethodModel this (arg 0 args)
  | VNative NCreateMethodModel => createMethodModel this (arg 0 args)
  | _ => call_external f this args
  end.

(** ** proxyHandler, lines 215 to 236 *)

Definition duplicated (name : string) : string :=
  "Duplicated method " +:+ name +:+ ". This method is defined as RPC call and as Object method.".

Definition proxyHandler (target : loc) (name : string) : M Value :=
  factory ← member (VObj target) "methodModelFactory";
  has ← member factory "hasMethodModel";
  b ← call_factory L216_hasMethodModel has factory [VStr name];
  if truthy b then
    t ← member (VObj target) name;
    if negb (is_undefined t) then throw (ErrorMsg (duplicated name))
    else
      factory' ← member (VObj target) "methodModelFactory";
      create ← member factory' "createMethodModel";
      methodModel ← call_factory L221_createMethodModel create factory' [VStr name];
      anonymousFunction ← alloc (closure (CAnonymous target methodModel));
      set_prop anonymousFunction "methodModel" methodModel;;
      request ← member methodModel "request";
      set_prop anonymousFunction "request" request;;
      ret (VObj anonymousFunction)
  else member (VObj target) name.

(** [v.name] for a value that may be a client behind its proxy. *)
Definition get_member (v : Value) (name : string) : M Value :=
  match v with
  | VProxy l => proxyHandler l name
  | _ => member v name
  end.

(** ** The accessor of lines 65 to 77 *)

Definition read_slot (l : loc) : M Value :=
  o ← read_obj l;
  match slot o with
  | Some v => ret v
  | None => throw NotModelled
  end.

Definition write_slot (l : loc) (v : Value) : M unit :=
  o ← read_obj l;
  write_obj l (mkObj (props o) (Some v) (proto o) (code o));;
  emit (EvSlot l v).

Definition currentProvider_get (l : loc) : M Value := read_slot l.

(** [l] is the object the accessor was defined on, [this] the receiver of the
    assignment (the proxy, when the client is assigned to through it). *)
Definition currentProvider_set (l : loc) (this provider : Value) : M unit :=
  cur ← read_slot l;
  cs ← member cur "clearSubscriptions";
  b ← (if is_undefined cs then ret false
       else subs ← member cur "subscriptions"; len ← member subs "length"; gt0 len);
  (if b : bool then
     f ← member cur "clearSubscriptions";
     call_collab L71_clearSubscriptions f cur [];; ret tt
   else ret tt);;
  pp ← get_member this "providersPackage";
  resolve ← member pp "resolve";
  v ← call_collab L74_resolve resolve pp [provider];
  write_slot l v.

(** [v[name] = x] in strict mode. *)
Definition set_member (v : Value) (name : string) (x : Value) : M unit :=
  match v with
  | VObj l | VProxy l =>
      o ← read_obj l;
      match slot o with
      | Some _ =>
          if String.eqb name "currentProvider" then currentProvider_set l v x
          else set_prop l name x
      | None => set_prop l name x
      end
  | VUndefined | VNull | VBool _ | VNum _ | VStr _ => throw TypeError
  | _ => throw NotModelled
  end.

(** ** isDependencyGiven, lines 106 to 108 *)

(** object !== null || typeof object !== 'undefined' *)
Definition isDependencyGiven (object : Value) : bool :=
  negb (is_null object) || negb (is_undefined object).

(** ** The constructor, lines 34 to 95 *)

Definition define_currentProvider (l : loc) : M unit :=
  o ← read_obj l;
  write_obj l (mkObj (delete "currentProvider" (props o)) (Some VNull) (proto o) (code o)).

Definition AbstractWeb3Object (args : list Value) : M Value :=
  let provider := arg 0 args in
  let providersPackage := arg 1 args in
  let methodController := arg 2 args in
  let methodModelFactory := arg 3 args in
  let batchRequestPackage := arg 4 args in
  this ← alloc (mkObj ∅ None ProtoWeb3Object None);
  if negb (isDependencyGiven provider) then throw (ErrorMsg "Provider not found!")
  else if negb (isDependencyGiven providersPackage) then throw (ErrorMsg "ProviderPackage not found!")
  else
    set_prop this "extendedPackages" (VArr []);;
    set_prop this "providersPackage" providersPackage;;
    set_prop this "currentProvider" provider;;
    pp ← member (VObj this) "providersPackage";
    detect ← member pp "detect";
    given ← call_collab L52_detect detect pp [];
    set_prop this "givenProvider" given;;
    pp1 ← member (VObj this) "providersPackage";
    http ← member pp1 "HttpProvider";
    pp2 ← member (VObj this) "providersPackage";
    ipc ← member pp2 "IpcProvider";
    pp3 ← member (VObj this) "providersPackage";
    ws ← member pp3 "WebsocketProvider";
    providers ← alloc (plain (<["HttpProvider" := http]>
                             (<["IpcProvider" := ipc]>
                             (<["WebsocketProvider" := ws]> ∅))));
    set_prop this "providers" (VObj providers);;
    (* var currentProvider = null; Object.defineProperty(this, 'currentProvider', ...) *)
    define_currentProvider this;;
    (if isDependencyGiven batchRequestPackage then
       BatchRequest ← alloc (closure (CBatchRequest batchRequestPackage));
       set_prop this "BatchRequest" (VObj BatchRequest)
     else ret tt);;
    if isDependencyGiven methodModelFactory && isDependencyGiven methodController then
      set_prop this "methodModelFactory" methodModelFactory;;
      set_prop this "methodController" methodController;;
      ret (VProxy this)
    else ret (VObj this).

(** The function of line 80; [self] is not declared in the constructor. *)
Definition BatchRequest (batchRequestPackage : Value) : M Value :=
  create ← member batchRequestPackage "createBatchRequest";
  self ← lookup_global "self";
  provider ← get_member self "currentProvider";
  call_collab L81_createBatchRequest create batchRequestPackage [provider].

(** ** The function returned by proxyHandler, lines 223 to 227 *)

Definition anonymousFunction (target : loc) (methodModel : Value) (arguments : list Value)
  : M Value :=
  set_member methodModel "methodArguments" (VArr arguments);;
  controller ← member (VObj target) "methodController";
  execute ← member controller "execute";
  provider ← member (VObj target) "currentProvider";
  accounts ← member (VObj target) "accounts";
  call_collab L226_execute execute controller [methodModel; provider; accounts; VObj target].

(** ** clearSubscriptions, lines 134 to 138 *)

Definition clearSubscriptions (this : Value) : M Value :=
  p ← get_member this "currentProvider";
  cs ← member p "clearSubscriptions";
  b ← (if is_undefined cs then ret false
       else p' ← get_member this "currentProvider";
            has ← member p' "hasSubscription";
            r ← call_collab L135_hasSubscription has p' [];
            ret (truthy r));
  (if b : bool then
     p'' ← get_member this "currentProvider";
     f ← member p'' "clearSubscriptions";
     call_collab L136_clearSubscriptions f p'' [];; ret VUndefined
   else ret VUndefined).

(** ** The hooks of a synthesised method model, lines 178 to 196 *)

(** The function that line 180 maps over a sequence. *)
Definition format_item (method responseItem : Value) : M Value :=
  fmt ← member method "outputFormatter";
  if truthy fmt && truthy responseItem then
    f ← member method "outputFormatter";
    call_collab L182_outputFormatter f method [responseItem]
  else ret responseItem.

(** [_.isArray] is lodash's test once the free identifier [_] is bound;
    [result] at line 191 is a free identifier too. *)
Definition afterExecution (method response : Value) : M Value :=
  lookup_global "_";;
  match response with
  | VArr items =>
      items' ← mapM (format_item method) items;
      ret (VArr items')
  | _ =>
      fmt ← member method "outputFormatter";
      b ← (if truthy fmt then result ← lookup_global "result"; ret (truthy result)
           else ret false);
      if b : bool then
        f ← member method "outputFormatter";
        call_collab L192_outputFormatter f method [response]
      else ret response
  end.

(** ** extend, lines 147 to 203 *)

(** new f(args) at lines 152 and 156. *)
Definition construct (site : Site) (f : Value) (args : list Value) : M Value :=
  emit (EvNew site f args);;
  match f with
  | VNative NAbstractWeb3Object => AbstractWeb3Object args
  | VNative NMethodModelFactory => MethodModelFactory args
  | VNative (NExternal id) => h ← get_heap; of_outcome (ext_new host id h args)
  | VNative _ => throw NotModelled
  | VObj l =>
      o ← read_obj l;
      match code o with Some _ => throw NotModelled | None => throw TypeError end
  | _ => throw TypeError
  end.

(** Lines 166 to 198 for one method descriptor: the constructor function
    [ExtensionMethodModel], the two hooks put on its first prototype object,
    and the replacement of that prototype at line 198. *)
Definition declare_ExtensionMethodModel (method : Value) : M loc :=
  prototype ← alloc (plain ∅);
  cls ← alloc (mkObj {["prototype" := VObj prototype]} None ProtoFunction
                 (Some (CExtensionMethodModel method)));
  (* line 170: ExtensionMethodModel.prototype is still the first prototype *)
  before ← alloc (closure (CBeforeExecution method));
  set_prop prototype "beforeExecution" (VObj before);;
  (* line 178 *)
  after ← alloc (closure (CAfterExecution method));
  set_prop prototype "afterExecution" (VObj after);;
  (* line 198: the prototype that carries the two hooks is replaced *)
  amm ← lookup_global "AbstractMethodModel";
  parent ← member amm "prototype";
  pr ← match parent with
       | VObj l => ret (ProtoAt l)
       | VNull => ret ProtoNone
       | VUndefined | VBool _ | VNum _ | VStr _ => throw TypeError
       | _ => throw NotModelled
       end;
  created ← alloc (mkObj ∅ None pr None);
  set_prop cls "prototype" (VObj created);;
  ret cls.

(** The body of the loop of lines 165 to 201 for one method descriptor. *)
Definition register_method (object method : Value) : M unit :=
  cls ← declare_ExtensionMethodModel method;
  (* line 200 *)
  factory ← get_member object "methodModelFactory";
  models ← member factory "methodModels";
  name ← member method "name";
  key ← to_key name;
  set_member models key (VObj cls).

(** Lines 152 to 159: the child, stored under the namespace and pushed on
    [extendedPackages]. *)
Definition new_namespace (this namespace : Value) : M Value :=
  ctor ← get_member this "constructor";
  provider ← get_member this "provider";
  providersPackage ← get_member this "providersPackage";
  methodController ← get_member this "methodController";
  f1 ← get_member this "methodModelFactory";
  fctor ← member f1 "constructor";
  f2 ← get_member this "methodModelFactory";
  utils ← member f2 "utils";
  f3 ← get_member this "methodModelFactory";
  formatters ← member f3 "formatters";
  factory ← construct L156_new_factory fctor [utils; formatters];
  child ← construct L152_new_constructor ctor
            [provider; providersPackage; methodController; factory];
  key ← to_key namespace;
  set_member this key child;;
  (* this.extendedPackages.push(object) *)
  packages ← get_member this "extendedPackages";
  match packages, this with
  | VArr xs, (VObj l | VProxy l) =>
      set_prop l "extendedPackages" (VArr (xs ++ [child]));; ret child
  | (VUndefined | VNull), _ => throw TypeError
  | _, _ => throw NotModelled
  end.

Definition extend (this extension : Value) : M Value :=
  property ← member extension "property";
  let namespace := if truthy property then property else VBool false in
  object ← (if truthy namespace then new_namespace this namespace else ret this);
  methods ← member extension "methods";
  (if truthy methods then
     methods' ← member extension "methods";
     match methods' with
     | VArr ms => forEach (register_method object) ms
     | VObj _ | VProxy _ | VNative _ => throw NotModelled
     | _ => throw TypeError
     end
   else ret tt);;
  ret VUndefined.

(** ** setProvider, lines 117 to 127, and the call of a function value *)

Definition setProvider_body (call : Value → Value → list Value → M Value)
    (this provider : Value) : M Value :=
  let self := this in
  set_member this "currentProvider" provider;;
  packages ← get_member this "extendedPackages";
  len ← member packages "length";
  b ← gt0 len;
  (if b : bool then
     packages' ← get_member this "extendedPackages";
     match packages' with
     | VArr xs =>
         forEach (λ extendedPackage,
             f ← get_member extendedPackage "setProvider";
             p ← get_member self "currentProvider";
             emit (EvCall L124_setProvider f extendedPackage [p]);;
             call f extendedPackage [p];; ret tt) xs
     | VUndefined | VNull => throw TypeError
     | _ => throw NotModelled
     end
   else ret tt);;
  ret VUndefined.

(** [f.call(this, ...args)] for any function value; the fuel bounds the depth
    of the calls of setProvider on extended packages. *)
Fixpoint apply (fuel : nat) (f this : Value) (args : list Value) : M Value :=
  match fuel with
  | 0 => throw OutOfFuel
  | S n =>
      match f with
      | VNative NSetProvider => setProvider_body (apply n) this (arg 0 args)
      | VNative NIsDependencyGiven => ret (VBool (isDependencyGiven (arg 0 args)))
      | VNative NClearSubscriptions => clearSubscriptions this
      | VNative NExtend => extend this (arg 0 args)
      | VNative NProxyHandler =>
          match arg 0 args with
          | VObj target => key ← to_key (arg 1 args); proxyHandler target key
          | VUndefined | VNull => throw TypeError
          | _ => throw NotModelled
          end
      | VNative NHasMethodModel => hasMethodModel this (arg 0 args)
      | VNative NCreateMethodModel => createMethodModel this (arg 0 args)
      | VNative (NExternal id) => h ← get_heap; of_outcome (ext_call host id h this args)
      | VNative _ => throw NotModelled        (* a constructor called without new *)
      | VObj l =>
          o ← read_obj l;
          match code o with
          | Some (CBatchRequest batchRequestPackage) => BatchRequest batchRequestPackage
          | Some (CAnonymous target methodModel) => anonymousFunction target methodModel args
          | Some (CAfterExecution method) => afterExecution method (arg 0 args)
          | Some _ => throw NotModelled
          | None => throw TypeError
          end
      | _ => throw TypeError
      end
  end.

Definition setProvider (fuel : nat) (this provider : Value) : M Value :=
  apply (S fuel) (VNative NSetProvider) this [provider].

(** [recv.name(args)] *)
Definition call_method (fuel : nat) (recv : Value) (name : string) (args : list Value)
  : M Value :=
  f ← get_member recv name;
  apply fuel f recv args.

End Program.

(** ** The before-execution hook, lines 170 to 176 *)

(** [parameters[key] = v] on an array: an array written past its end grows,
    and the positions in between read as undefined. *)
Definition store (key : nat) (v : Value) (ps : list Value) : list Value :=
  if decide (key < length ps) then <[key := v]> ps
  else ps ++ replicate (key - length ps) VUndefined ++ [v].

(** [xs.forEach(function (x, key) {...})] for a function that changes a value
    it closes over: the value is passed along. *)
Fixpoint forEach_key {A} (f : A → nat → Value → M A) (key : nat) (xs : list Value) (acc : A)
  : M A :=
  match xs with
  | [] => ret acc
  | x :: xs' => acc' ← f acc key x; forEach_key f (S key) xs' acc'
  end.

Section InputFormatters.

Variable host : Host.

(** The function that line 171 gives to forEach, for the formatter at index
    [key]. The array [parameters] is changed in place: the function takes
    the value [parameters] holds and returns the value it holds afterwards.
    The formatter is called as a plain function, so its [this] is undefined. *)
Definition format_parameter (web3Package parameters : Value) (key : nat) (formatter : Value)
  : M Value :=
  if truthy formatter then
    match parameters with
    | VArr ps =>
        v ← call_collab host L173_formatter formatter VUndefined
              [nth key ps VUndefined; web3Package];
        ret (VArr (store key v ps))
    | VUndefined | VNull => throw TypeError
    | _ => throw NotModelled
    end
  else ret parameters.

(** [beforeExecution(parameters, web3Package)] returns nothing; what is
    returned here is what [parameters] holds when it is done. No call in this
    file reaches the function (line 198 takes it off the prototype of the
    class), so [apply] does not dispatch to it. *)
Definition beforeExecution (method parameters web3Package : Value) : M Value :=
  formatters ← member host method "inputFormatters";
  match formatters with
  | VArr fs => forEach_key (format_parameter web3Package) 0 fs parameters
  | VObj _ | VProxy _ | VNative _ => throw NotModelled
  | _ => throw TypeError
  end.

End InputFormatters.

(** ** A concrete world for the scenarios *)

Module Scenario.

(** Collaborator functions, by number. *)
Definition detect := 1.
Definition resolve := 2.
Definition clearSubs := 3.
Definition execute := 4.
Definition createBatchRequest := 5.
Definition hexToInt := 6.
Definition hasSubscription := 7.
Definition AbstractMethodModel := 8.
Definition lodash := 9.
Definition inheritedAfter := 21.    (* AbstractMethodModel.prototype.afterExecution *)
Definition inheritedRequest := 23.  (* AbstractMethodModel.prototype.request *)
Definition VersionModel := 30.      (* a model class the factory is shipped with *)
Definition isHex := 31.             (* a formatter: is the value a 0x string? *)

(** Objects that exist before the client is constructed. *)
Definition T1 : loc := 0.          (* a transport with one live subscription *)
Definition T2 : loc := 1.          (* a second transport *)
Definition registry : loc := 2.    (* the providers package *)
Definition controller : loc := 3.
Definition models : loc := 4.      (* the factory's table of registered models *)
Definition factory : loc := 5.
Definition utils : loc := 6.
Definition formatters : loc := 7.
Definition batchPackage : loc := 8.
Definition modelProto : loc := 9.  (* AbstractMethodModel.prototype *)
Definition window : loc := 10.     (* a global object without currentProvider *)
Definition gasPrice : loc := 11.   (* a method descriptor with an output formatter *)
Definition blockNumber : loc := 12.  (* a method descriptor without formatters *)
Definition extA : loc := 13.       (* {property: 'a'} *)
Definition extB : loc := 14.       (* {property: 'b'} *)
Definition extX : loc := 15.       (* {property: 'x', methods: [gasPrice]} *)
Definition extPlain : loc := 16.   (* {methods: [blockNumber]} *)
Definition versionInstance : loc := 17.  (* what new VersionModel(...) returns *)
Definition syncing : loc := 18.    (* a method descriptor whose formatter accepts null *)

Definition transport (subs : list Value) : Obj :=
  plain (<["clearSubscriptions" := VNative (NExternal clearSubs)]>
        (<["hasSubscription" := VNative (NExternal hasSubscription)]>
        (<["subscriptions" := VArr subs]> ∅))).

Definition descriptor (name call : string) (fmt : option Value) : Obj :=
  let base := <["name" := VStr name]>
              (<["call" := VStr call]>
              (<["params" := VNum 0]>
              (<["inputFormatters" := VArr []]> ∅))) in
  plain (match fmt with Some f => <["outputFormatter" := f]> base | None => base end).

Definition heap0 : gmap loc Obj :=
  <[T1 := transport [VStr "sub1"]]>
  (<[T2 := transport []]>
  (<[registry := plain (<["detect" := VNative (NExternal detect)]>
                       (<["resolve" := VNative (NExternal resolve)]>
                       (<["HttpProvider" := VNative (NExternal 10)]>
                       (<["IpcProvider" := VNative (NExternal 11)]>
                       (<["WebsocketProvider" := VNative (NExternal 12)]> ∅)))))]>
  (<[controller := plain {["execute" := VNative (NExternal execute)]}]>
  (<[models := plain {["net_version" := VNative (NExternal VersionModel)]}]>
  (<[factory := mkObj (<["methodModels" := VObj models]>
                      (<["utils" := VObj utils]>
                      (<["formatters" := VObj formatters]> ∅))) None ProtoFactory None]>
  (<[utils := plain ∅]>
  (<[formatters := plain ∅]>
  (<[batchPackage := plain {["createBatchRequest" := VNative (NExternal createBatchRequest)]}]>
  (<[modelProto := plain (<["afterExecution" := VNative (NExternal inheritedAfter)]>
                         (<["request" := VNative (NExternal inheritedRequest)]> ∅))]>
  (<[window := plain ∅]>
  (<[gasPrice := descriptor "eth_gasPrice" "eth_gasPrice" (Some (VNative (NExternal hexToInt)))]>
  (<[blockNumber := descriptor "eth_blockNumber" "eth_blockNumber" None]>
  (<[extA := plain {["property" := VStr "a"]}]>
  (<[extB := plain {["property" := VStr "b"]}]>
  (<[extX := plain (<["property" := VStr "x"]> {["methods" := VArr [VObj gasPrice]]})]>
  (<[extPlain := plain {["methods" := VArr [VObj blockNumber]]}]>
  (<[versionInstance := mkObj ∅ None (ProtoAt modelProto) None]>
  (<[syncing := descriptor "eth_syncing" "eth_syncing" (Some (VNative (NExternal isHex)))]>
   ∅)))))))))))))))))).

Definition first_free : loc := 19.
Definition st0 : State := mkState heap0 first_free [].

Definition hex_digit (c : Ascii.ascii) : option Z :=
  let n := Z.of_nat (Ascii.nat_of_ascii c) in
  if (48 <=? n)%Z && (n <=? 57)%Z then Some (n - 48)%Z
  else if (97 <=? n)%Z && (n <=? 102)%Z then Some (n - 87)%Z
  else None.

Fixpoint hex_value (acc : Z) (s : string) : option Z :=
  match s with
  | EmptyString => Some acc
  | String c s' =>
      match hex_digit c with
      | Some d => hex_value (16 * acc + d)%Z s'
      | None => None
      end
  end.

Definition hex_to_int (v : Value) : Outcome Value :=
  match v with
  | VStr (String "0"%char (String "x"%char digits)) =>
      match hex_value 0 digits with
      | Some n => Ret (VNum n)
      | None => Throw (Thrown v)
      end
  | _ => Throw (Thrown v)
  end.

Definition answer (id : nat) (h : gmap loc Obj) (this : Value) (args : list Value)
  : Outcome Value :=
  if Nat.eqb id detect then Ret VNull
  else if Nat.eqb id resolve then Ret (arg 0 args)
  else if Nat.eqb id clearSubs then Ret VUndefined
  else if Nat.eqb id execute then Ret (VStr "0x10")
  else if Nat.eqb id createBatchRequest then Ret (VArr [VStr "batch"; arg 0 args])
  else if Nat.eqb id hexToInt then hex_to_int (arg 0 args)
  else if Nat.eqb id hasSubscription then Ret (VBool true)
  else if Nat.eqb id isHex then
    Ret (VBool (match arg 0 args with
                | VStr (String "0"%char (String "x"%char _)) => true
                | _ => false
                end))
  else Ret VUndefined.

Definition function_member (id : nat) (name : string) : Value :=
  if (Nat.eqb id AbstractMethodModel) && String.eqb name "prototype" then VObj modelProto
  else VUndefined.

Definition instantiate (id : nat) (h : gmap loc Obj) (args : list Value) : Outcome Value :=
  if Nat.eqb id VersionModel then Ret (VObj versionInstance) else Throw TypeError.

Definition builtins (name : string) : option Value :=
  assoc name [ ("constructor", VNative (NExternal 900));
               ("toString", VNative (NExternal 901));
               ("hasOwnProperty", VNative (NExternal 902)) ].

(** The module as it is written: it requires nothing and declares none of
    [self], [_], [AbstractMethodModel] and [result] (Node.js). *)
Definition module_scope : Host :=
  mkHost (λ _, None) builtins (λ _, None) function_member answer instantiate.

(** The same with [_] and [AbstractMethodModel] supplied as globals. *)
Definition patched_scope : Host :=
  mkHost (λ name, assoc name [ ("_", VNative (NExternal lodash));
                               ("AbstractMethodModel", VNative (NExternal AbstractMethodModel)) ])
         builtins (λ _, None) function_member answer instantiate.

(** A browser: [self] is the global object. *)
Definition browser_scope : Host :=
  mkHost (λ name, assoc name [ ("self", VObj window);
                               ("_", VNative (NExternal lodash));
                               ("AbstractMethodModel", VNative (NExternal AbstractMethodModel)) ])
         builtins (λ _, None) function_member answer instantiate.

(** new AbstractWeb3Object(T1, registry, controller, factory, batchPackage) *)
Definition full_args : list Value :=
  [VObj T1; VObj registry; VObj controller; VObj factory; VObj batchPackage].

End Scenario.

(** ** Observations used in the statements *)

(** [target.methodModelFactory.hasMethodModel(name)], the test of line 216. *)
Definition hasModel (host : Host) (target : loc) (name : string) : M bool :=
  factory ← member host (VObj target) "methodModelFactory";
  has ← member host factory "hasMethodModel";
  b ← call_factory host L216_hasMethodModel has factory [VStr name];
  ret (truthy b).

(** [target.methodModelFactory.createMethodModel(name)], line 221. *)
Definition createModel (host : Host) (target : loc) (name : string) : M Value :=
  factory ← member host (VObj target) "methodModelFactory";
  create ← member host factory "createMethodModel";
  call_factory host L221_createMethodModel create factory [VStr name].

(** The closure variable behind [currentProvider] of the object at [l]. *)
Definition slot_of (st : State) (l : loc) : option Value :=
  o ← heap st !! l; slot o.

Definition own_member (st : State) (l : loc) (name : string) : option Value :=
  o ← heap st !! l; own_get o name.

Definition is_clear (e : Event) : bool :=
  match e with
  | EvCall L71_clearSubscriptions _ _ _ => true
  | _ => false
  end.

Definition is_slot_write (e : Event) : bool :=
  match e with
  | EvSlot _ _ => true
  | _ => false
  end.

Definition is_propagation (e : Event) : bool :=
  match e with
  | EvCall L124_setProvider _ _ _ => true
  | _ => false
  end.

Definition is_child_construction (e : Event) : bool :=
  match e with
  | EvNew L152_new_constructor _ _ => true
  | _ => false
  end.

Definition is_batch_creation (e : Event) : bool :=
  match e with
  | EvCall L81_createBatchRequest _ _ _ => true
  | _ => false
  end.

(** Every object of the heap was allocated. *)
Definition wf (st : State) : Prop := map_Forall (λ l _, (l < next st)%nat) (heap st).

#[global] Instance wf_dec (st : State) : Decision (wf st) :=
  map_Forall_dec (H7 := λ l _, decide (l < next st)%nat)
    (λ l _, (l < next st)%nat) (heap st).

(** [m] adds to the log only events that satisfy [Q]. *)
Definition logs {A} (Q : Event → Prop) (m : M A) : Prop :=
  ∀ st out st', m st = (out, st') → ∃ evs, log st' = (log st ++ evs)%list ∧ Forall Q evs.

Definition quiet (e : Event) : Prop := is_clear e = false ∧ is_slot_write e = false.

(** The state after [methodModel.methodArguments = arguments] (line 224). *)
Definition with_arguments (m : loc) (arguments : list Value) (st : State) : State :=
  match heap st !! m with
  | Some o =>
      mkState (<[m := mkObj (<["methodArguments" := VArr arguments]> (props o))
                         (slot o) (proto o) (code o)]> (heap st))
              (next st) (log st)
  | None => st
  end.

(** The function object that lines 223 to 230 build. *)
Definition function_object (target : loc) (methodModel request : Value) : Obj :=
  mkObj (<["request" := request]> {["methodModel" := methodModel]}) None ProtoFunction
        (Some (CAnonymous target methodModel)).

Definition allocated (o : Obj) (st : State) : State :=
  mkState (<[next st := o]> (heap st)) (S (next st)) (log st).

Definition logged (e : Event) (st : State) : State :=
  mkState (heap st) (next st) (log st ++ [e]).

(** From [st] to [st'] every object below [N] is left alone, those in [P]
    excepted, and no object disappears. *)
Definition preserved (N : loc) (P : loc → Prop) (st st' : State) : Prop :=
  next st ≤ next st' ∧ wf st' ∧
  (∀ x, x < N → ¬ P x → heap st' !! x = heap st !! x) ∧
  (∀ x, is_Some (heap st !! x) → is_Some (heap st' !! x)).

Definition frame {A} (N : loc) (P : loc → Prop) (m : M A) : Prop :=
  ∀ st out st', m st = (out, st') → N ≤ next st → wf st → preserved N P st st'.

(** The same state with another log. *)
Definition relog (lg : list Event) (st : State) : State := mkState (heap st) (next st) lg.

(** [m] does not read the log: from a state with another log it does the
    same and adds the same events. *)
Definition steady {A} (m : M A) : Prop :=
  ∀ st out st', m st = (out, st') →
    ∃ evs, log st' = log st ++ evs ∧ ∀ lg, m (relog lg st) = (out, relog (lg ++ evs) st').

(** Neither a write of a closure variable nor a call of line 124. *)
Definition aside (e : Event) : Prop := is_slot_write e = false ∧ is_propagation e = false.

(** From [st] to [s] nothing that existed was changed, and what was logged
    is aside. *)
Definition trail (st s : State) : Prop :=
  preserved (next st) (λ _, False) st s
  ∧ ∃ evs, log s = log st ++ evs ∧ Forall aside evs.

(** A client without extended packages that inherits [setProvider]. *)
Definition leaf_client (st : State) (c : loc) : Prop :=
  ∃ oc, heap st !! c = Some oc ∧ is_Some (slot oc) ∧ proto oc = ProtoWeb3Object
        ∧ props oc !! "extendedPackages" = Some (VArr [])
        ∧ props oc !! "setProvider" = None.

(** What the log shows of [setProvider] on a parent and its children: the
    parent's closure variable is written, then each child is called with the
    parent's provider and writes its own. *)
Definition propagation (l : loc) (v : Value) (cs : list loc) (vs : list Value) : list Event :=
  EvSlot l v
  :: concat (zip_with (λ c vc, [EvCall L124_setProvider (VNative NSetProvider) (VProxy c) [v];
                                EvSlot c vc]) cs vs).

(** The calls of line 182 for the truthy elements of a sequence, in order. *)
Definition formatter_calls (f method : Value) (items : list Value) : list Event :=
  map (λ x, EvCall L182_outputFormatter f method [x]) (filter (λ x, truthy x) items).

(** In [table], as [st'] has it, [key] holds a class that was synthesised
    after [st] for a descriptor of [ms] whose name is [key]. *)
Definition registered_by (st st' : State) (ms : list Value) (table : Obj) (key : string)
  : Prop :=
  ∃ cls ocls d od,
    props table !! key = Some (VObj cls)
    ∧ next st ≤ cls ∧ heap st' !! cls = Some ocls
    ∧ code ocls = Some (CExtensionMethodModel (VObj d))
    ∧ VObj d ∈ ms ∧ heap st !! d = Some od ∧ own_get od "name" = Some (VStr key).

(** [m] is a descriptor object (not the table [MM]) with a string as name. *)
Definition descriptor_in (st : State) (MM : loc) (m : Value) : Prop :=
  ∃ d od n, m = VObj d ∧ d ≠ MM ∧ heap st !! d = Some od ∧ own_get od "name" = Some (VStr n).

(** One more than the index of the last truthy formatter, 0 without one:
    the length an array of parameters needs. *)
Fixpoint reach (fs : list Value) : nat :=
  match fs with
  | [] => 0
  | f :: fs' =>
      match reach fs' with
      | 0 => if truthy f then 1 else 0
      | S n => S (S n)
      end
  end.

Module Runs.
Import Scenario.

(** Where the objects of the runs below are allocated. *)
Definition parent : loc := first_free.
Definition factoryA : loc := first_free + 4.
Definition childA : loc := first_free + 5.
Definition childB : loc := first_free + 10.

(** const parent = new AbstractWeb3Object(T1, registry, controller, factory, batchPackage);
    parent.extend({property: 'a'}); parent.extend({property: 'b'}); *)
Definition parent_with_A_B (host : Host) : M Value :=
  parent ← AbstractWeb3Object host full_args;
  call_method host 1 parent "extend" [VObj extA];;
  call_method host 1 parent "extend" [VObj extB];;
  ret parent.

(** const parent = new AbstractWeb3Object(...); parent.extend({property: 'a'}); *)
Definition parent_with_A (host : Host) : M Value :=
  parent ← AbstractWeb3Object host full_args;
  call_method host 1 parent "extend" [VObj extA];;
  ret parent.

(** The factory is shipped with a model for [net_version]; the application
    gives the client a member of that name that holds undefined:
    client.net_version = undefined; *)
Definition client_with_undefined_member (host : Host) : M Value :=
  client ← AbstractWeb3Object host full_args;
  set_member host client "net_version" VUndefined;;
  ret client.

(** client.net_version = 7; *)
Definition client_with_member (host : Host) : M Value :=
  client ← AbstractWeb3Object host full_args;
  set_member host client "net_version" (VNum 7);;
  ret client.

(** A client whose closure variable holds the transport T1, as a successful
    assignment would leave it. *)
Definition holding (l : loc) (v : Value) (st : State) : State :=
  match heap st !! l with
  | Some o => mkState (<[l := mkObj (props o) (Some v) (proto o) (code o)]> (heap st))
                      (next st) (log st)
  | None => st
  end.


(** const client = new AbstractWeb3Object(...); client.extend({property: 'x',
    methods: [gasPrice]}), in a scope that binds AbstractWeb3Object's free
    identifiers. *)
Definition extended_with_x (host : Host) : M Value :=
  client ← AbstractWeb3Object host full_args;
  call_method host 1 client "extend" [VObj extX];;
  ret client.

(** The model that client.x.eth_gasPrice is built around. *)
Definition model_of_gasPrice (host : Host) : M Value :=
  f ← proxyHandler host childA "eth_gasPrice";
  member host f "methodModel".

End Runs.

(** More cases for the properties below. *)
Module Cases.
Import Scenario Runs.

(** new AbstractWeb3Object(T1, registry, controller): neither a factory nor
    a batch package is given. *)
Definition bare_args : list Value := [VObj T1; VObj registry; VObj controller].

(** The state in which new AbstractWeb3Object(T1, registry, controller,
    factory, batchPackage) leaves the world. *)
Definition constructed (host : Host) : State := (AbstractWeb3Object host full_args st0).2.

(** {name: 'eth_call', inputFormatters: [hexToInt, null, isHex]} *)
Definition ethCall : loc := first_free.
Definition st_call : State :=
  mkState (<[ethCall := plain (<["name" := VStr "eth_call"]>
                              {["inputFormatters" :=
                                  VArr [VNative (NExternal hexToInt); VNull;
                                        VNative (NExternal isHex)]]})]> heap0)
          (S first_free) [].

(** The factory is given a model under the name of a method of the class:
    factory.methodModels.extend = VersionModel. *)
Definition with_model_named_extend (host : Host) : State :=
  (set_member host (VObj models) "extend" (VNative (NExternal VersionModel))
     (constructed host)).2.

End Cases.

(** * Properties *)

(** ** Running a computation *)

(** * Running a computation *)

Lemma run_bind {A B} (m : M A) (k : A → M B) st :
  (m ≫= k) st = match m st with
                | (Ret a, st') => k a st'
                | (Throw e, st') => (Throw e, st')
                end.
Proof. reflexivity. Qed.

Lemma run_bind_ret {A B} (m : M A) (k : A → M B) st a st1 :
  m st = (Ret a, st1) → (m ≫= k) st = k a st1.
Proof. intros H. rewrite run_bind, H. reflexivity. Qed.

Lemma run_bind_throw {A B} (m : M A) (k : A → M B) st e st1 :
  m st = (Throw e, st1) → (m ≫= k) st = (Throw e, st1).
Proof. intros H. rewrite run_bind, H. reflexivity. Qed.

Lemma run_bind_assoc {A B C} (m : M A) (k1 : A → M B) (k2 : B → M C) st :
  ((m ≫= k1) ≫= k2) st = (m ≫= λ a, k1 a ≫= k2) st.
Proof. rewrite !run_bind. by destruct (m st) as [[a|e] st1]. Qed.

Lemma bind_inv {A B} (m : M A) (k : A → M B) st out st' :
  (m ≫= k) st = (out, st') →
  (∃ a st1, m st = (Ret a, st1) ∧ k a st1 = (out, st'))
  ∨ (∃ e, m st = (Throw e, st') ∧ out = Throw e).
Proof.
  rewrite run_bind. destruct (m st) as [[a|e] st1]; intros H.
  - left. eauto.
  - right. inversion H; subst. eauto.
Qed.

(** * Frames *)

Lemma wf_lookup st l : wf st → is_Some (heap st !! l) → (l < next st)%nat.
Proof. intros Hwf [o Ho]. exact (Hwf l o Ho). Qed.

Lemma wf_insert st l o n lg :
  wf st → (l < n)%nat → (next st ≤ n)%nat →
  wf (mkState (<[l := o]> (heap st)) n lg).
Proof.
  intros Hwf Hl Hn x ox. cbn. rewrite lookup_insert.
  case_decide; [intros _; subst; lia|]. intros Hx. apply Hwf in Hx. lia.
Qed.

Lemma preserved_refl N P st : wf st → preserved N P st st.
Proof. intros Hwf. unfold preserved. auto. Qed.

Lemma preserved_trans N P st1 st2 st3 :
  preserved N P st1 st2 → preserved N P st2 st3 → preserved N P st1 st3.
Proof.
  intros (Hn1 & Hwf1 & Hh1 & Hs1) (Hn2 & Hwf2 & Hh2 & Hs2).
  split_and!; [lia|done| |by auto].
  intros x Hx HP. rewrite Hh2, Hh1 by done. done.
Qed.

Lemma preserved_mono N P Q st st' :
  (∀ x, P x → Q x) → preserved N P st st' → preserved N Q st st'.
Proof.
  intros HPQ (Hn & Hwf & Hh & Hs). split_and!; [done..| |done].
  intros x Hx HQ. apply Hh; [done|]. intros HP. by apply HQ, HPQ.
Qed.

Section Frames.
Context (N : loc) (P : loc → Prop).

Lemma frame_ret {A} (a : A) : frame N P (ret a).
Proof. intros st out st' H _ Hwf. inversion H; subst. by apply preserved_refl. Qed.

Lemma frame_throw {A} e : frame N P (@throw A e).
Proof. intros st out st' H _ Hwf. inversion H; subst. by apply preserved_refl. Qed.

Lemma frame_bind {A B} (m : M A) (k : A → M B) :
  frame N P m → (∀ a, frame N P (k a)) → frame N P (m ≫= k).
Proof.
  intros Hm Hk st out st' H HN Hwf.
  apply bind_inv in H as [(a & st1 & H1 & H2)|(e & H1 & ->)].
  - pose proof (Hm _ _ _ H1 HN Hwf) as Hp1.
    eapply preserved_trans; [exact Hp1|].
    destruct Hp1 as (Hn1 & Hwf1 & _). apply (Hk a _ _ _ H2); [lia|done].
  - eapply Hm; eauto.
Qed.

Lemma frame_alloc_bind {B} o (k : loc → M B) :
  (∀ a, (N ≤ a)%nat → frame N P (k a)) → frame N P (alloc o ≫= k).
Proof.
  intros Hk st out st' H HN Hwf.
  rewrite run_bind in H. cbn in H.
  assert (Hwf1 : wf (mkState (<[next st := o]> (heap st)) (S (next st)) (log st))).
  { apply wf_insert; [done|lia|lia]. }
  destruct (Hk (next st) HN _ _ _ H ltac:(cbn; lia) Hwf1) as (Hn2 & Hwf2 & Hh2 & Hs2).
  cbn in *. unfold preserved. split_and!; [lia|done| |].
  - intros x Hx HP. rewrite Hh2 by done. apply lookup_insert_ne. lia.
  - intros x Hx. apply Hs2. rewrite lookup_insert. case_decide; [by eexists|done].
Qed.

Lemma frame_alloc o : frame N P (alloc o).
Proof.
  intros st out st' H HN Hwf. inversion H; subst; clear H. unfold preserved. cbn.
  split_and!; [lia| | |].
  - apply wf_insert; [done|lia|lia].
  - intros x Hx HP. apply lookup_insert_ne. lia.
  - intros x Hx. rewrite lookup_insert. case_decide; [by eexists|done].
Qed.

Lemma frame_pure {A} (m : M A) :
  (∀ st out st', m st = (out, st') → heap st' = heap st ∧ next st' = next st) →
  frame N P m.
Proof.
  intros Hm st out st' H HN Hwf. destruct (Hm _ _ _ H) as [Hh Hn].
  unfold preserved. split_and!; [lia| | |].
  - unfold wf. rewrite Hh, Hn. apply Hwf.
  - intros. by rewrite Hh.
  - intros x. by rewrite Hh.
Qed.

Lemma frame_emit e : frame N P (emit e).
Proof. apply frame_pure. intros st out st' H. by inversion H. Qed.

Lemma frame_get_heap : frame N P get_heap.
Proof. apply frame_pure. intros st out st' H. by inversion H. Qed.

Lemma frame_of_outcome {A} (o : Outcome A) : frame N P (of_outcome o).
Proof. apply frame_pure. intros st out st' H. by inversion H. Qed.

Lemma frame_read_obj l : frame N P (read_obj l).
Proof.
  apply frame_pure. intros st out st' H. unfold read_obj in H.
  destruct (heap st !! l); by inversion H.
Qed.

End Frames.

Section FrameSetProp.
Context (N : loc) (P : loc → Prop).

Lemma frame_set_prop l name v :
  (N ≤ l)%nat ∨ P l → frame N P (set_prop l name v).
Proof.
  intros Hl st out st' H HN Hwf. unfold set_prop in H.
  rewrite run_bind in H. unfold read_obj in H. cbv beta in H.
  destruct (heap st !! l) as [o|] eqn:Ho.
  - cbn in H. inversion H; subst; clear H. unfold preserved. cbn. split_and!; [lia| | |].
    + apply wf_insert; [done| |lia]. apply wf_lookup; [done|by eexists].
    + intros x Hx HP. apply lookup_insert_ne. intros ->. destruct Hl; [lia|done].
    + intros x Hx. rewrite lookup_insert. case_decide; [by eexists|done].
  - inversion H; subst. by apply preserved_refl.
Qed.

End FrameSetProp.

Create HintDb frame.

Ltac frame_go :=
  repeat first
    [ apply frame_ret | apply frame_throw | apply frame_emit | apply frame_get_heap
    | apply frame_of_outcome | apply frame_read_obj | apply frame_alloc
    | solve [auto with frame]
    | apply frame_set_prop; solve [auto]
    | apply frame_alloc_bind; intros ? ?
    | apply frame_bind; [|intros ?]
    | match goal with
      | |- frame _ _ (match ?x with _ => _ end) => destruct x
      | |- frame _ _ (if ?b then _ else _) => destruct b
      end ].

Section FramesOfTheProgram.
Context (host : Host) (N : loc) (P : loc → Prop).

Lemma frame_lookup_global name : frame N P (lookup_global host name).
Proof. unfold lookup_global. frame_go. Qed.

Lemma frame_member v name : frame N P (member host v name).
Proof. unfold member. frame_go. Qed.

Lemma frame_own_entry v key : frame N P (own_entry v key).
Proof. unfold own_entry. frame_go. Qed.

Lemma frame_proto_of v : frame N P (proto_of v).
Proof. unfold proto_of. frame_go. Qed.

Lemma frame_to_key v : frame N P (to_key v).
Proof. unfold to_key. frame_go. Qed.

Lemma frame_gt0 v : frame N P (gt0 v).
Proof. unfold gt0. frame_go. Qed.

Lemma frame_call_external f this args : frame N P (call_external host f this args).
Proof. unfold call_external. frame_go. Qed.

Hint Resolve frame_lookup_global frame_member frame_own_entry frame_proto_of frame_to_key
  frame_gt0 frame_call_external : frame.

Lemma frame_call_collab site f this args : frame N P (call_collab host site f this args).
Proof. unfold call_collab. frame_go. Qed.

Hint Resolve frame_call_collab : frame.

Lemma frame_ExtensionMethodModel c method args :
  frame N P (ExtensionMethodModel host c method args).
Proof. unfold ExtensionMethodModel. frame_go. Qed.

Hint Resolve frame_ExtensionMethodModel : frame.

Lemma frame_new_model cls args : frame N P (new_model host cls args).
Proof. unfold new_model. frame_go. Qed.

Lemma frame_hasMethodModel this name : frame N P (hasMethodModel host this name).
Proof. unfold hasMethodModel. frame_go. Qed.

Hint Resolve frame_new_model frame_hasMethodModel : frame.

Lemma frame_createMethodModel this name : frame N P (createMethodModel host this name).
Proof. unfold createMethodModel. frame_go. Qed.

Lemma frame_MethodModelFactory args : frame N P (MethodModelFactory args).
Proof. unfold MethodModelFactory. frame_go. Qed.

Hint Resolve frame_createMethodModel frame_MethodModelFactory : frame.

Lemma frame_call_factory site f this args : frame N P (call_factory host site f this args).
Proof. unfold call_factory. frame_go. Qed.

Hint Resolve frame_call_factory : frame.

Lemma frame_proxyHandler target name : frame N P (proxyHandler host target name).
Proof.
  unfold proxyHandler. frame_go.
Qed.

Hint Resolve frame_proxyHandler : frame.

Lemma frame_get_member v name : frame N P (get_member host v name).
Proof. unfold get_member. frame_go. Qed.

Lemma frame_read_slot l : frame N P (read_slot l).
Proof. unfold read_slot. frame_go. Qed.

Hint Resolve frame_get_member frame_read_slot : frame.

End FramesOfTheProgram.

#[global] Hint Resolve frame_lookup_global frame_member frame_own_entry frame_proto_of
  frame_to_key frame_gt0 frame_call_external frame_call_collab frame_ExtensionMethodModel
  frame_new_model frame_hasMethodModel frame_createMethodModel frame_MethodModelFactory
  frame_call_factory frame_proxyHandler frame_get_member frame_read_slot : frame.


(** ** More frames: the accessor, the constructor *)

Lemma preserved_weaken N N' P P' st st' :
  N ≤ N' → (∀ x, x < N → P' x → P x) →
  preserved N' P' st st' → preserved N P st st'.
Proof.
  intros HN HP (Hn & Hwf & Hh & Hs). split_and!; [done..| |done].
  intros x Hx HPx. apply Hh; [lia|]. intros HP'. by apply HPx, HP.
Qed.

Lemma preserved_insert N P st l o lg :
  wf st → is_Some (heap st !! l) → N ≤ l ∨ P l →
  preserved N P st (mkState (<[l := o]> (heap st)) (next st) lg).
Proof.
  intros Hwf Hl HP. unfold preserved. cbn. split_and!; [lia| | |].
  - apply (wf_insert st l o (next st)); [done| |lia]. by apply wf_lookup.
  - intros x Hx HPx. apply lookup_insert_ne. intros ->. destruct HP; [lia|done].
  - intros x Hx. rewrite lookup_insert. case_decide; [by eexists|done].
Qed.

Section MoreFrames.
Context (host : Host) (N : loc) (P : loc → Prop).

Lemma frame_define_currentProvider l :
  N ≤ l ∨ P l → frame N P (define_currentProvider l).
Proof.
  intros Hl st out st' H HN Hwf. unfold define_currentProvider in H.
  rewrite run_bind in H. unfold read_obj in H. cbv beta in H.
  destruct (heap st !! l) as [o|] eqn:Ho; cbn in H; inversion H; subst; clear H.
  - apply preserved_insert; [done|by eexists|done].
  - by apply preserved_refl.
Qed.

Lemma frame_write_slot l v : N ≤ l ∨ P l → frame N P (write_slot l v).
Proof.
  intros Hl st out st' H HN Hwf. unfold write_slot in H.
  rewrite run_bind in H. unfold read_obj in H. cbv beta in H.
  destruct (heap st !! l) as [o|] eqn:Ho; cbn in H; inversion H; subst; clear H.
  - apply preserved_insert; [done|by eexists|done].
  - by apply preserved_refl.
Qed.

Hint Resolve frame_write_slot frame_define_currentProvider : frame.

Lemma frame_currentProvider_set l this x :
  N ≤ l ∨ P l → frame N P (currentProvider_set host l this x).
Proof. intros. unfold currentProvider_set. frame_go. Qed.

Hint Resolve frame_currentProvider_set : frame.

Lemma frame_set_member v name x :
  (∀ l, v = VObj l ∨ v = VProxy l → N ≤ l ∨ P l) →
  frame N P (set_member host v name x).
Proof.
  intros Hv. unfold set_member.
  destruct v as [| | | | | |l|l|]; try apply frame_throw.
  - specialize (Hv l (or_introl eq_refl)). frame_go.
  - specialize (Hv l (or_intror eq_refl)). frame_go.
Qed.

Lemma frame_AbstractWeb3Object args : frame N P (AbstractWeb3Object host args).
Proof. unfold AbstractWeb3Object. cbv zeta. frame_go. Qed.

Hint Resolve frame_AbstractWeb3Object : frame.

Lemma frame_construct site f args : frame N P (construct host site f args).
Proof. unfold construct. frame_go. Qed.

End MoreFrames.

#[global] Hint Resolve frame_write_slot frame_define_currentProvider
  frame_currentProvider_set frame_AbstractWeb3Object frame_construct : frame.


(** ** What a computation adds to the log *)

Section Logs.
Context (Q : Event → Prop).

Lemma logs_same {A} (m : M A) :
  (∀ st out st', m st = (out, st') → log st' = log st) → logs Q m.
Proof.
  intros Hm st out st' H. exists []. rewrite (Hm _ _ _ H), app_nil_r. auto.
Qed.

Lemma logs_ret {A} (a : A) : logs Q (ret a).
Proof. apply logs_same. intros st out st' H. by inversion H. Qed.

Lemma logs_throw {A} e : logs Q (@throw A e).
Proof. apply logs_same. intros st out st' H. by inversion H. Qed.

Lemma logs_get_heap : logs Q get_heap.
Proof. apply logs_same. intros st out st' H. by inversion H. Qed.

Lemma logs_of_outcome {A} (o : Outcome A) : logs Q (of_outcome o).
Proof. apply logs_same. intros st out st' H. by inversion H. Qed.

Lemma logs_alloc o : logs Q (alloc o).
Proof. apply logs_same. intros st out st' H. by inversion H. Qed.

Lemma logs_read_obj l : logs Q (read_obj l).
Proof.
  apply logs_same. intros st out st' H. unfold read_obj in H.
  destruct (heap st !! l); by inversion H.
Qed.

Lemma logs_write_obj l o : logs Q (write_obj l o).
Proof. apply logs_same. intros st out st' H. by inversion H. Qed.

Lemma logs_emit e : Q e → logs Q (emit e).
Proof.
  intros He st out st' H. inversion H; subst; clear H. exists [e]. cbn. auto.
Qed.

Lemma logs_bind {A B} (m : M A) (k : A → M B) :
  logs Q m → (∀ a, logs Q (k a)) → logs Q (m ≫= k).
Proof.
  intros Hm Hk st out st' H.
  apply bind_inv in H as [(a & st1 & H1 & H2)|(e & H1 & ->)].
  - destruct (Hm _ _ _ H1) as (ev1 & E1 & F1).
    destruct (Hk a _ _ _ H2) as (ev2 & E2 & F2).
    exists (ev1 ++ ev2). rewrite E2, E1, app_assoc. split; [done|by apply Forall_app].
  - eapply Hm; eauto.
Qed.

End Logs.

Create HintDb logs.

Ltac logs_go :=
  repeat first
    [ apply logs_ret | apply logs_throw | apply logs_get_heap | apply logs_of_outcome
    | apply logs_alloc | apply logs_read_obj | apply logs_write_obj
    | apply logs_emit; solve [auto | split; reflexivity]
    | solve [auto with logs]
    | apply logs_bind; [|intros ?]
    | match goal with
      | |- logs _ (match ?x with _ => _ end) => destruct x
      | |- logs _ (if ?b then _ else _) => destruct b
      end ].

Section LogsOfTheProgram.
Context (host : Host) (Q : Event → Prop).

Lemma logs_set_prop l name v : logs Q (set_prop l name v).
Proof. unfold set_prop. logs_go. Qed.

Lemma logs_lookup_global name : logs Q (lookup_global host name).
Proof. unfold lookup_global. logs_go. Qed.

Lemma logs_member v name : logs Q (member host v name).
Proof. unfold member. logs_go. Qed.

Lemma logs_own_entry v key : logs Q (own_entry v key).
Proof. unfold own_entry. logs_go. Qed.

Lemma logs_proto_of v : logs Q (proto_of v).
Proof. unfold proto_of. logs_go. Qed.

Lemma logs_to_key v : logs Q (to_key v).
Proof. unfold to_key. logs_go. Qed.

Lemma logs_gt0 v : logs Q (gt0 v).
Proof. unfold gt0. logs_go. Qed.

Lemma logs_call_external f this args : logs Q (call_external host f this args).
Proof. unfold call_external. logs_go. Qed.

End LogsOfTheProgram.

#[global] Hint Resolve logs_set_prop logs_lookup_global logs_member logs_own_entry
  logs_proto_of logs_to_key logs_gt0 logs_call_external : logs.

Section QuietParts.
Context (host : Host).

Lemma logs_call_collab site f this args :
  quiet (EvCall site f this args) → logs quiet (call_collab host site f this args).
Proof. intros. unfold call_collab. logs_go. Qed.

Lemma logs_ExtensionMethodModel c method args :
  logs quiet (ExtensionMethodModel host c method args).
Proof. unfold ExtensionMethodModel. logs_go. Qed.

Hint Resolve logs_ExtensionMethodModel : logs.

Lemma logs_new_model cls args : logs quiet (new_model host cls args).
Proof. unfold new_model. logs_go. Qed.

Lemma logs_hasMethodModel this name : logs quiet (hasMethodModel host this name).
Proof. unfold hasMethodModel. logs_go. Qed.

Hint Resolve logs_new_model logs_hasMethodModel : logs.

Lemma logs_createMethodModel this name : logs quiet (createMethodModel host this name).
Proof. unfold createMethodModel. logs_go. Qed.

Hint Resolve logs_createMethodModel : logs.

Lemma logs_call_factory site f this args :
  quiet (EvCall site f this args) → logs quiet (call_factory host site f this args).
Proof. intros. unfold call_factory. logs_go. Qed.

Lemma logs_proxyHandler target name : logs quiet (proxyHandler host target name).
Proof. unfold proxyHandler. logs_go. Qed.

Hint Resolve logs_proxyHandler : logs.

Lemma logs_get_member v name : logs quiet (get_member host v name).
Proof. unfold get_member. logs_go. Qed.

End QuietParts.


(** ** The dispatcher *)

Section Dispatcher.
Context (host : Host).

Lemma member_state v name st out st' :
  member host v name st = (out, st') → st' = st.
Proof.
  unfold member. destruct v as [| | | |s|xs|l|l|[]]; cbn; try (intros [= _ <-]; done).
  - destruct (String.eqb name "length"); cbn; intros [= _ <-]; done.
  - destruct (String.eqb name "length"); cbn; intros [= _ <-]; done.
  - rewrite run_bind. unfold read_obj. destruct (heap st !! l); cbn; intros [= _ <-]; done.
Qed.

Lemma member_obj l o name st :
  heap st !! l = Some o →
  member host (VObj l) name st = (Ret (raw_get host (heap st) o name), st).
Proof. intros Ho. unfold member. rewrite run_bind. unfold read_obj. rewrite Ho. reflexivity. Qed.

Lemma raw_get_own h o name v : own_get o name = Some v → raw_get host h o name = v.
Proof. unfold raw_get. by intros ->. Qed.

(** The handler consults the factory and then takes one of three ways. *)
Lemma proxyHandler_split target name st :
  proxyHandler host target name st =
  match hasModel host target name st with
  | (Ret true, st1) =>
      (t ← member host (VObj target) name;
       if negb (is_undefined t) then throw (ErrorMsg (duplicated name))
       else
         methodModel ← createModel host target name;
         anonymousFunction ← alloc (closure (CAnonymous target methodModel));
         set_prop anonymousFunction "methodModel" methodModel;;
         request ← member host methodModel "request";
         set_prop anonymousFunction "request" request;;
         ret (VObj anonymousFunction)) st1
  | (Ret false, st1) => member host (VObj target) name st1
  | (Throw e, st1) => (Throw e, st1)
  end.
Proof.
  unfold proxyHandler, hasModel, createModel. rewrite !run_bind.
  destruct (member host (VObj target) "methodModelFactory" st) as [[f|e] st1]; [|reflexivity].
  rewrite !run_bind.
  destruct (member host f "hasMethodModel" st1) as [[h|e] st2]; [|reflexivity].
  rewrite !run_bind.
  destruct (call_factory host L216_hasMethodModel h f [VStr name] st2) as [[b|e] st3]; [|reflexivity].
  change (ret (truthy b) st3) with (Ret (truthy b), st3).
  destruct (truthy b); [|reflexivity]. cbv beta iota.
  rewrite !run_bind.
  destruct (member host (VObj target) name st3) as [[t|e] st4]; [|reflexivity].
  destruct (negb (is_undefined t)); [reflexivity|].
  rewrite !run_bind.
  destruct (member host (VObj target) "methodModelFactory" st4) as [[f'|e] st5]; [|reflexivity].
  rewrite !run_bind.
  destruct (member host f' "createMethodModel" st5) as [[c|e] st6]; [|reflexivity].
  rewrite !run_bind.
  destruct (call_factory host L221_createMethodModel c f' [VStr name] st6) as [[m|e] st7]; reflexivity.
Qed.

Lemma frame_hasModel N P target name : frame N P (hasModel host target name).
Proof. unfold hasModel. frame_go. Qed.

Lemma frame_createModel N P target name : frame N P (createModel host target name).
Proof. unfold createModel. frame_go. Qed.

Lemma untouched {A} (m : M A) st out st' x :
  frame (next st) (λ _, False) m → wf st → m st = (out, st') →
  is_Some (heap st !! x) → heap st' !! x = heap st !! x.
Proof.
  intros Hf Hwf H Hx. destruct (Hf _ _ _ H ltac:(lia) Hwf) as (_ & _ & Hh & _).
  apply Hh; [by apply wf_lookup|tauto].
Qed.

(** C4, amended. For a property name requested on the client: when the
    factory has no model for the name, the handler returns [target[name]]
    unchanged; when it has one and the target has an own member of that name
    whose value is not undefined, the access fails with the "Duplicated
    method" error and every object that existed before the access is as it
    was. *)
Theorem C4_plain_member_or_duplicate st target o name b st1 :
  wf st →
  heap st !! target = Some o →
  hasModel host target name st = (Ret b, st1) →
  (b = false →
     proxyHandler host target name st = (Ret (raw_get host (heap st1) o name), st1))
  ∧ (b = true → ∀ v, own_get o name = Some v → v ≠ VUndefined →
       proxyHandler host target name st = (Throw (ErrorMsg (duplicated name)), st1)
       ∧ ∀ x, is_Some (heap st !! x) → heap st1 !! x = heap st !! x).
Proof.
  intros Hwf Ho Hhas.
  assert (Ho1 : heap st1 !! target = Some o).
  { rewrite <- Ho. eapply untouched; [apply frame_hasModel|done|done|by eexists]. }
  split.
  - intros ->. rewrite proxyHandler_split, Hhas. by apply member_obj.
  - intros -> v Hv Hne. split.
    + rewrite proxyHandler_split, Hhas, run_bind, (member_obj _ _ _ _ Ho1).
      rewrite (raw_get_own _ _ _ _ Hv). by destruct v.
    + intros x Hx. eapply untouched; [apply frame_hasModel|done|done|done].
Qed.

Lemma read_obj_some l o st : heap st !! l = Some o → read_obj l st = (Ret o, st).
Proof. intros H. unfold read_obj. by rewrite H. Qed.

Lemma set_prop_some l o name v st :
  heap st !! l = Some o →
  set_prop l name v st
  = (Ret tt, mkState (<[l := mkObj (<[name := v]> (props o)) (slot o) (proto o) (code o)]> (heap st))
                     (next st) (log st)).
Proof.
  intros H. unfold set_prop. rewrite (run_bind_ret _ _ _ _ _ (read_obj_some _ _ _ H)).
  reflexivity.
Qed.

Lemma set_member_methodArguments m o arguments st :
  heap st !! m = Some o →
  set_member host (VObj m) "methodArguments" (VArr arguments) st
  = (Ret tt, with_arguments m arguments st).
Proof.
  intros H. unfold set_member, with_arguments.
  rewrite (run_bind_ret _ _ _ _ _ (read_obj_some _ _ _ H)).
  rewrite H. destruct (slot o) eqn:Hs; cbn [String.eqb Ascii.eqb Bool.eqb];
    rewrite (set_prop_some _ _ _ _ _ H), ?Hs; reflexivity.
Qed.

(** C5. For a name with a model and no colliding member, the access yields a
    function object [f] that carries the model as [methodModel] and the
    model's [request] as [request]; calling [f] with arguments stores them as
    the model's [methodArguments], calls the controller's [execute] with the
    model, the current provider, the accounts and the client object, and
    returns what [execute] returns. *)
Theorem C5_synthesized_function st target name st1 m st2 :
  wf st →
  hasModel host target name st = (Ret true, st1) →
  member host (VObj target) name st1 = (Ret VUndefined, st1) →
  createModel host target name st1 = (Ret (VObj m), st2) →
  is_Some (heap st2 !! m) →
  let f := next st2 in
  (∃ request,
     member host (VObj m) "request"
       (allocated (mkObj {["methodModel" := VObj m]} None ProtoFunction
                         (Some (CAnonymous target (VObj m)))) st2)
     = (Ret request,
        allocated (mkObj {["methodModel" := VObj m]} None ProtoFunction
                         (Some (CAnonymous target (VObj m)))) st2)
     ∧ proxyHandler host target name st
       = (Ret (VObj f), allocated (function_object target (VObj m) request) st2))
  ∧ (∀ n this arguments st4 fo mo o id,
       heap st4 !! f = Some fo → code fo = Some (CAnonymous target (VObj m)) →
       heap st4 !! m = Some mo →
       let st5 := with_arguments m arguments st4 in
       heap st5 !! target = Some o →
       let controller := raw_get host (heap st5) o "methodController" in
       let provider := raw_get host (heap st5) o "currentProvider" in
       let accounts := raw_get host (heap st5) o "accounts" in
       member host controller "execute" st5 = (Ret (VNative (NExternal id)), st5) →
       own_member st5 m "methodArguments" = Some (VArr arguments)
       ∧ apply host (S n) (VObj f) this arguments st4
         = (ext_call host id (heap st5) controller [VObj m; provider; accounts; VObj target],
            logged (EvCall L226_execute (VNative (NExternal id)) controller
                      [VObj m; provider; accounts; VObj target]) st5)).
Proof.
  intros Hwf Hhas Hno Hcreate [mo0 Hm] f. split.
  - assert (Hwf1 : wf st1).
    { by destruct (frame_hasModel 0 (λ _, False) target name _ _ _ Hhas ltac:(lia) Hwf) as (_ & ? & _). }
    assert (Hwf2 : wf st2).
    { by destruct (frame_createModel 0 (λ _, False) target name _ _ _ Hcreate ltac:(lia) Hwf1)
        as (_ & ? & _). }
    assert (Hmf : m ≠ next st2).
    { intros ->. pose proof (wf_lookup _ _ Hwf2 (mk_is_Some _ _ Hm)). lia. }
    set (sta := allocated _ st2).
    assert (Hma : heap sta !! m = Some mo0).
    { unfold sta, allocated. cbn. by rewrite lookup_insert_ne. }
    exists (raw_get host (heap sta) mo0 "request"). split; [by apply member_obj|].
    rewrite proxyHandler_split, Hhas, run_bind, Hno. cbn [negb is_undefined].
    rewrite (run_bind_ret _ _ _ _ _ Hcreate).
    rewrite run_bind. cbn [alloc].
    erewrite run_bind_ret; last first.
    { apply set_prop_some. cbn. apply lookup_insert_eq. }
    cbn [props slot proto code closure heap next log]. rewrite insert_insert_eq, insert_empty.
    fold (allocated (mkObj {["methodModel" := VObj m]} None ProtoFunction
                           (Some (CAnonymous target (VObj m)))) st2). fold sta.
    rewrite (run_bind_ret _ _ _ _ _ (member_obj _ _ _ _ Hma)).
    erewrite run_bind_ret; last first.
    { apply set_prop_some. unfold sta, allocated. cbn. apply lookup_insert_eq. }
    unfold sta, allocated, function_object. cbn. rewrite insert_insert_eq. reflexivity.
  - intros n this arguments st4 fo mo o id Hf Hcode Hmo st5 Ho controller provider accounts Hex.
    split.
    { unfold own_member, st5, with_arguments. rewrite Hmo. cbn. rewrite lookup_insert_eq. cbn.
      unfold own_get. cbn. destruct (slot mo); cbn; by rewrite lookup_insert_eq. }
    cbn [apply]. rewrite (run_bind_ret _ _ _ _ _ (read_obj_some _ _ _ Hf)), Hcode.
    unfold anonymousFunction.
    rewrite (run_bind_ret _ _ _ _ _ (set_member_methodArguments _ _ _ _ Hmo)). fold st5.
    rewrite (run_bind_ret _ _ _ _ _ (member_obj _ _ _ _ Ho)). fold controller.
    rewrite (run_bind_ret _ _ _ _ _ Hex).
    rewrite (run_bind_ret _ _ _ _ _ (member_obj _ _ _ _ Ho)). fold provider.
    rewrite (run_bind_ret _ _ _ _ _ (member_obj _ _ _ _ Ho)). fold accounts.
    reflexivity.
Qed.

End Dispatcher.


(** ** The accessor *)

(** Takes the first step of a computation that returned. *)
Ltac step H a st1 H1 :=
  apply bind_inv in H as [(a & st1 & H1 & H)|(? & _ & ?)]; [|discriminate].

Section Accessor.
Context (host : Host).

Lemma call_external_state f this args st out st' :
  call_external host f this args st = (out, st') → st' = st.
Proof.
  unfold call_external. destruct f as [| | | | | |l|l|[]]; cbn; try (intros [= _ <-]; done).
  rewrite run_bind. unfold read_obj. destruct (heap st !! l) as [o|]; cbn.
  - destruct (code o); cbn; intros [= _ <-]; done.
  - intros [= _ <-]; done.
Qed.

Lemma read_slot_some l o v st :
  heap st !! l = Some o → slot o = Some v → read_slot l st = (Ret v, st).
Proof.
  intros Ho Hs. unfold read_slot. rewrite (run_bind_ret _ _ _ _ _ (read_obj_some _ _ _ Ho)).
  by rewrite Hs.
Qed.

Lemma call_collab_inv site f this args st v st' :
  call_collab host site f this args st = (Ret v, st') →
  st' = logged (EvCall site f this args) st
  ∧ call_external host f this args st' = (Ret v, st').
Proof.
  unfold call_collab. rewrite run_bind. cbn [emit]. intros H.
  pose proof (call_external_state _ _ _ _ _ _ H) as Hst. subst st'.
  split; [reflexivity|exact H].
Qed.

Lemma filter_clear_quiet mid : Forall quiet mid → filter (λ e, is_clear e) mid = [].
Proof.
  induction 1 as [|e mid [He _] _ IH]; [done|].
  rewrite filter_cons_False; [done|]. rewrite He. intros [].
Qed.

(** The setter of lines 69 to 75, run where the closure variable holds a
    transport and the assignment returns, whatever the candidate is (the
    transport held included): when the transport held exposes
    [clearSubscriptions] and has at least one subscription, the call of line 71
    on that transport is the first thing the assignment does, it happens once,
    and the closure variable is written afterwards with what the registry
    resolved the candidate to. Nothing but the setter writes the closure
    variable, and it starts as null (line 60), so no client the constructor
    returns is in such a state: see [assignment_on_null_throws]. *)
Lemma setter_clears_once_then_swaps l this candidate st st' cur cs subs len :
  slot_of st l = Some cur →
  member host cur "clearSubscriptions" st = (Ret cs, st) →
  is_undefined cs = false →
  member host cur "subscriptions" st = (Ret subs, st) →
  member host subs "length" st = (Ret len, st) →
  gt0 len st = (Ret true, st) →
  currentProvider_set host l this candidate st = (Ret tt, st') →
  ∃ mid registry resolve v stm,
    log st' = log st ++ [EvCall L71_clearSubscriptions cs cur []] ++ mid
                     ++ [EvCall L74_resolve resolve registry [candidate]; EvSlot l v]
    ∧ Forall quiet mid
    ∧ filter (λ e, is_clear e) (drop (length (log st)) (log st'))
      = [EvCall L71_clearSubscriptions cs cur []]
    ∧ call_external host resolve registry [candidate] stm = (Ret v, stm)
    ∧ slot_of st' l = Some v.
Proof.
  intros Hslot Hcs Hdef Hsubs Hlen Hgt Hset.
  unfold slot_of in Hslot. destruct (heap st !! l) as [o|] eqn:Ho; [|done]. cbn in Hslot.
  unfold currentProvider_set in Hset.
  rewrite (run_bind_ret _ _ _ _ _ (read_slot_some _ _ _ _ Ho Hslot)) in Hset.
  rewrite (run_bind_ret _ _ _ _ _ Hcs), Hdef in Hset.
  rewrite run_bind, (run_bind_ret _ _ _ _ _ Hsubs), (run_bind_ret _ _ _ _ _ Hlen), Hgt in Hset.
  cbv beta iota in Hset.
  rewrite run_bind, (run_bind_ret _ _ _ _ _ Hcs), run_bind in Hset.
  destruct (call_collab host L71_clearSubscriptions cs cur [] st) as [[r|e] sta] eqn:Hclear;
    [|discriminate].
  apply call_collab_inv in Hclear as [-> _].
  change ((ret () (logged (EvCall L71_clearSubscriptions cs cur []) st)))
    with (Ret (), logged (EvCall L71_clearSubscriptions cs cur []) st) in Hset.
  cbv beta iota in Hset.
  step Hset pp stb Hpp. step Hset resolve stc Hres. step Hset v std Hcall.
  apply member_state in Hres as ->.
  apply call_collab_inv in Hcall as [-> Hcall].
  destruct (logs_get_member host _ _ _ _ _ Hpp) as (mid & Hmid & Hquiet).
  unfold write_slot in Hset.
  step Hset o' ste Ho'. unfold read_obj in Ho'. cbn [heap logged] in Ho'.
  destruct (heap stb !! l) as [ob|] eqn:Hob; [|discriminate]. injection Ho' as <- <-.
  rewrite !run_bind in Hset. cbn in Hset. injection Hset as <-.
  exists mid, pp, resolve, v, (logged (EvCall L74_resolve resolve pp [candidate]) stb).
  assert (Hlog : log {| heap := <[l:={| props := props ob; slot := Some v; proto := proto ob;
                                       code := code ob |}]> (heap stb);
                        next := next stb;
                        log := (log stb ++ [EvCall L74_resolve resolve pp [candidate]])
                               ++ [EvSlot l v] |}
                 = log st ++ [EvCall L71_clearSubscriptions cs cur []] ++ mid
                          ++ [EvCall L74_resolve resolve pp [candidate]; EvSlot l v]).
  { cbn. rewrite Hmid. cbn. rewrite <- !app_assoc. reflexivity. }
  split_and!; [exact Hlog|done| |done|].
  - rewrite Hlog, drop_app_length. cbn [app].
    rewrite filter_cons_True by done. f_equal.
    rewrite filter_app. cbn.
    by rewrite filter_clear_quiet.
  - unfold slot_of. cbn. by rewrite lookup_insert_eq.
Qed.

End Accessor.


(** ** The after-execution hook *)

Section Hooks.
Context (host : Host).

Lemma member_heap_only v name st r st1 :
  member host v name st = (Ret r, st) → heap st1 = heap st →
  member host v name st1 = (Ret r, st1).
Proof.
  unfold member. destruct v as [| | | |s|xs|l|l|[]]; cbn; try done.
  - destruct (String.eqb name "length"); cbn; [|done]. by intros [= <-].
  - destruct (String.eqb name "length"); cbn; [|done]. by intros [= <-].
  - rewrite !run_bind. unfold read_obj. cbv beta. intros H Hh.
    assert (E : heap st1 !! l = heap st !! l) by (by rewrite Hh).
    destruct (heap st1 !! l) as [o|]; destruct (heap st !! l) as [o'|]; try done.
    injection E as <-. cbn in *. injection H as <-.
    unfold mbind, M_bind, bind, get_heap, ret. by rewrite Hh.
  - by intros [= <-].
Qed.




End Hooks.


(** ** The constructor *)

Lemma isDependencyGiven_always v : isDependencyGiven v = true.
Proof. by destruct v. Qed.

Lemma alloc_run o st : alloc o st = (Ret (next st), allocated o st).
Proof. reflexivity. Qed.

Lemma define_currentProvider_some l o st :
  heap st !! l = Some o →
  define_currentProvider l st
  = (Ret tt, mkState (<[l := mkObj (delete "currentProvider" (props o)) (Some VNull)
                                   (proto o) (code o)]> (heap st)) (next st) (log st)).
Proof.
  intros H. unfold define_currentProvider.
  rewrite (run_bind_ret _ _ _ _ _ (read_obj_some _ _ _ H)). reflexivity.
Qed.

Ltac look :=
  cbn [heap next log allocated logged];
  repeat (rewrite lookup_insert_ne by lia);
  first [apply lookup_insert_eq | eassumption].

Ltac run_alloc H :=
  rewrite (run_bind_ret _ _ _ _ _ (alloc_run _ _)) in H.

Ltac run_set_prop H :=
  lazymatch type of H with
  | (set_prop ?l ?n ?v ≫= ?k) ?s = _ =>
      let o := fresh "o" in
      let Ho := fresh "Ho" in
      evar (o : Obj);
      assert (Ho : heap s !! l = Some o) by (subst o; look);
      rewrite (run_bind_ret _ _ _ _ _ (set_prop_some l o n v s Ho)) in H;
      subst o; clear Ho; cbn [props slot proto code heap next log allocated logged] in H
  end.

Ltac run_define H :=
  lazymatch type of H with
  | (define_currentProvider ?l ≫= ?k) ?s = _ =>
      let o := fresh "o" in
      let Ho := fresh "Ho" in
      evar (o : Obj);
      assert (Ho : heap s !! l = Some o) by (subst o; look);
      rewrite (run_bind_ret _ _ _ _ _ (define_currentProvider_some l o s Ho)) in H;
      subst o; clear Ho; cbn [props slot proto code heap next log allocated logged] in H
  end.

Ltac run_member H r :=
  let s := fresh "s" in
  let Hr := fresh "Hm" in
  apply bind_inv in H as [(r & s & Hr & H)|(? & _ & ?)]; [|discriminate];
  apply member_state in Hr as ->.

Section Constructor.
Context (host : Host).

Lemma AbstractWeb3Object_post args st v st' :
  AbstractWeb3Object host args st = (Ret v, st') →
  ∃ oc, v = VProxy (next st)
      ∧ heap st' !! next st = Some oc
      ∧ slot oc = Some VNull
      ∧ proto oc = ProtoWeb3Object
      ∧ props oc !! "methodModelFactory" = Some (arg 3 args)
      ∧ props oc !! "methodController" = Some (arg 2 args)
      ∧ props oc !! "providersPackage" = Some (arg 1 args)
      ∧ props oc !! "extendedPackages" = Some (VArr [])
      ∧ props oc !! "constructor" = None.
Proof.
  intros H. unfold AbstractWeb3Object in H. cbv zeta in H.
  rewrite !isDependencyGiven_always in H. cbn [negb andb] in H.
  run_alloc H. unfold allocated in H.
  run_set_prop H. run_set_prop H. run_set_prop H.
  run_member H pp. run_member H detect.
  apply bind_inv in H as [(given & s & Hd & H)|(? & _ & ?)]; [|discriminate].
  apply call_collab_inv in Hd as [-> _]. unfold logged in H. cbn [heap next log] in H.
  run_set_prop H.
  run_member H pp1. run_member H http. run_member H pp2. run_member H ipc.
  run_member H pp3. run_member H ws.
  run_alloc H. unfold allocated in H. cbn [heap next log] in H.
  run_set_prop H.
  run_define H.
  cbv beta iota in H.
  rewrite run_bind_assoc in H. run_alloc H. unfold allocated in H. cbn [heap next log] in H.
  run_set_prop H.
  cbv beta iota in H.
  run_set_prop H. run_set_prop H.
  injection H as <- <-. eexists. split; [reflexivity|]. split; [look|].
  cbn [props slot proto code]. split_and!; reflexivity.
Qed.

(** An assignment through the accessor while the closure variable is null
    stops at line 70 and changes nothing. *)
Lemma assignment_on_null_throws l o this x st :
  heap st !! l = Some o → slot o = Some VNull →
  currentProvider_set host l this x st = (Throw TypeError, st).
Proof.
  intros Ho Hs. unfold currentProvider_set.
  by rewrite (run_bind_ret _ _ _ _ _ (read_slot_some _ _ _ _ Ho Hs)).
Qed.

Lemma setProvider_on_null_throws fuel l o p st :
  heap st !! l = Some o → slot o = Some VNull →
  setProvider host fuel (VProxy l) p st = (Throw TypeError, st).
Proof.
  intros Ho Hs. unfold setProvider. cbn [apply arg nth]. unfold setProvider_body.
  cbv zeta. unfold set_member.
  rewrite run_bind, (run_bind_ret _ _ _ _ _ (read_obj_some _ _ _ Ho)), Hs.
  cbn [String.eqb Ascii.eqb Bool.eqb].
  by rewrite (assignment_on_null_throws _ _ _ _ _ Ho Hs).
Qed.

(** So [setProvider] throws on every client the constructor returns, in every
    scope. *)
Lemma setProvider_after_construction fuel args p st client st' :
  AbstractWeb3Object host args st = (Ret client, st') →
  setProvider host fuel client p st' = (Throw TypeError, st').
Proof.
  intros H. destruct (AbstractWeb3Object_post _ _ _ _ H) as (oc & -> & Hc & Hs & _).
  by apply (setProvider_on_null_throws fuel _ oc).
Qed.

(** Where [self] is not bound, [BatchRequest] throws whatever the client
    holds. *)
Lemma BatchRequest_without_self batchRequestPackage create st :
  globals host "self" = None →
  member host batchRequestPackage "createBatchRequest" st = (Ret create, st) →
  BatchRequest host batchRequestPackage st = (Throw (ReferenceError "self"), st).
Proof.
  intros Hself Hcreate. unfold BatchRequest.
  rewrite (run_bind_ret _ _ _ _ _ Hcreate). unfold lookup_global. by rewrite Hself.
Qed.

End Constructor.


(** ** extend *)

(** [adv H Hp v s Hv] takes one step of the run [H] whose frame is known;
    [Hp] relates the first state to the current one. *)
Ltac get_frame Hv N P Hf :=
  match type of Hv with
  | ?m ?s0 = _ =>
      assert (Hf : frame N P m) by (first [solve [auto with frame] | frame_go])
  end.

Ltac adv H Hp v s Hv :=
  match type of Hp with
  | preserved ?N ?P ?s0 ?s1 =>
      let Hf := fresh "Hf" in
      let Hs := fresh "Hs" in
      let Hp' := fresh "Hp" in
      apply bind_inv in H as [(v & s & Hv & H)|(? & Hv & ->)];
      [ get_frame Hv N P Hf;
        pose proof (Hf _ _ _ Hv (proj1 Hp) (proj1 (proj2 Hp))) as Hs;
        pose proof (preserved_trans _ _ _ _ _ Hp Hs) as Hp';
        clear Hf Hs Hp; rename Hp' into Hp
      | get_frame Hv N P Hf;
        pose proof (Hf _ _ _ Hv (proj1 Hp) (proj1 (proj2 Hp))) as Hs;
        pose proof (preserved_trans _ _ _ _ _ Hp Hs) as Hp' ]
  end.

Section Extend.
Context (host : Host).

Lemma proto_get_web3 n h name :
  proto_get host n h ProtoWeb3Object name = builtin_get host web3_prototype name.
Proof. by destruct n. Qed.

Lemma proto_get_factory n h name :
  proto_get host n h ProtoFactory name = builtin_get host factory_prototype name.
Proof. by destruct n. Qed.

Lemma kept N P st st' x o :
  preserved N P st st' → heap st !! x = Some o → x < N → ¬ P x → heap st' !! x = Some o.
Proof. intros (_ & _ & Hh & _) Hx HN HP. by rewrite Hh. Qed.

(** Reading through the proxy a member that is there gives that member
    (or the duplicate error). *)
Lemma get_member_defined this l o name t st v st1 :
  this = VObj l ∨ this = VProxy l →
  wf st → heap st !! l = Some o →
  (∀ h, raw_get host h o name = t) → is_undefined t = false →
  get_member host this name st = (Ret v, st1) → v = t.
Proof.
  intros [->| ->] Hwf Ho Hraw Hdef H.
  - cbn [get_member] in H. rewrite (member_obj _ _ _ _ _ Ho) in H. injection H as <- _.
    apply Hraw.
  - cbn [get_member] in H. rewrite proxyHandler_split in H.
    destruct (hasModel host l name st) as [[[|]|e] sh] eqn:Hh; [| |discriminate].
    + assert (Ho1 : heap sh !! l = Some o).
      { rewrite <- Ho. eapply untouched; [apply frame_hasModel|done|done|by eexists]. }
      rewrite run_bind, (member_obj _ _ _ _ _ Ho1), Hraw in H.
      destruct t; discriminate.
    + assert (Ho1 : heap sh !! l = Some o).
      { rewrite <- Ho. eapply untouched; [apply frame_hasModel|done|done|by eexists]. }
      rewrite (member_obj _ _ _ _ _ Ho1), Hraw in H. by injection H as <- _.
Qed.

Lemma lookup_global_state name st out st' :
  lookup_global host name st = (out, st') → st' = st.
Proof. unfold lookup_global. destruct (globals host name); by intros [= _ <-]. Qed.

Lemma to_key_state v st out st' : to_key v st = (out, st') → st' = st.
Proof.
  destruct v as [| |[]|n| | | | |]; cbn [to_key]; try destruct (Z.abs n <? 2 ^ 53)%Z;
    by intros [= _ <-].
Qed.

Lemma frame_declare N P method : frame N P (declare_ExtensionMethodModel host method).
Proof. unfold declare_ExtensionMethodModel. frame_go. Qed.

Lemma set_member_plain l o name x st :
  heap st !! l = Some o → slot o = None →
  set_member host (VObj l) name x st
  = (Ret tt, mkState (<[l := mkObj (<[name := x]> (props o)) None (proto o) (code o)]>
                       (heap st)) (next st) (log st)).
Proof.
  intros Ho Hs. unfold set_member.
  rewrite (run_bind_ret _ _ _ _ _ (read_obj_some _ _ _ Ho)), Hs.
  rewrite (set_prop_some _ _ _ _ _ Ho), Hs. reflexivity.
Qed.

(** One turn of the loop of line 165 writes to the child's table only. *)
Lemma register_method_inv c f' mm' oc of' method st out st' :
  wf st →
  heap st !! c = Some oc → own_get oc "methodModelFactory" = Some (VObj f') →
  heap st !! f' = Some of' → own_get of' "methodModels" = Some (VObj mm') →
  (∃ om, heap st !! mm' = Some om ∧ slot om = None) →
  mm' ≠ c → mm' ≠ f' →
  register_method host (VProxy c) method st = (out, st') →
  preserved (next st) (λ x, x = mm') st st'
  ∧ ∃ om', heap st' !! mm' = Some om' ∧ slot om' = None.
Proof.
  intros Hwf Hc Hcf Hf Hfm (om & Hm & Hms) Hmc Hmf H.
  pose proof (wf_lookup _ _ Hwf (mk_is_Some _ _ Hc)) as Hc_lt.
  pose proof (wf_lookup _ _ Hwf (mk_is_Some _ _ Hf)) as Hf_lt.
  pose proof (wf_lookup _ _ Hwf (mk_is_Some _ _ Hm)) as Hm_lt.
  pose proof (preserved_refl (next st) (λ _, False) st Hwf) as Hp.
  assert (Hfin : ∀ s, preserved (next st) (λ _ : loc, False) st s →
                 preserved (next st) (λ x, x = mm') st s
                 ∧ ∃ om', heap s !! mm' = Some om' ∧ slot om' = None).
  { intros s Hs. split; [by eapply preserved_mono; [|exact Hs]|].
    exists om. split; [|done]. eapply kept; eauto. }
  unfold register_method in H.
  adv H Hp cls s1 Hcls; [|by apply Hfin].
  adv H Hp factory s2 Hfac; [|by apply Hfin].
  assert (factory = VObj f') as ->.
  { eapply (get_member_defined (VProxy c) c oc "methodModelFactory" (VObj f'));
      [by right| | | | |exact Hfac]; [| |by intros; apply raw_get_own|done].
    - clear Hfac. by destruct (frame_declare (next st) (λ _, False) method _ _ _ Hcls
                              ltac:(lia) Hwf) as (_ & ? & _).
    - clear Hfac. eapply kept; [apply (frame_declare (next st) (λ _, False) method _ _ _ Hcls
                              ltac:(lia) Hwf)|done|done|tauto]. }
  assert (Hf2 : heap s2 !! f' = Some of') by (eapply kept; eauto).
  rewrite (run_bind_ret _ _ _ _ _ (member_obj _ _ _ _ _ Hf2)) in H.
  rewrite (raw_get_own _ _ _ _ _ Hfm) in H.
  apply bind_inv in H as [(name & sx & Hn & H)|(? & Hn & ->)];
    apply member_state in Hn as ->; [|by apply Hfin].
  apply bind_inv in H as [(key & s3 & Hk & H)|(? & Hk & ->)];
    apply to_key_state in Hk as ->; [|by apply Hfin].
  assert (Hm2 : heap s2 !! mm' = Some om) by (eapply kept; eauto).
  rewrite (set_member_plain _ _ _ _ _ Hm2 Hms) in H. injection H as <- <-.
  split.
  - eapply preserved_trans; [by eapply preserved_mono; [|exact Hp]|].
    apply preserved_insert; [by destruct Hp as (_ & ? & _)|by eexists|by right].
  - eexists. cbn. split; [apply lookup_insert_eq|done].
Qed.

Lemma register_methods_inv c f' mm' oc of' ms st out st' :
  wf st →
  heap st !! c = Some oc → own_get oc "methodModelFactory" = Some (VObj f') →
  heap st !! f' = Some of' → own_get of' "methodModels" = Some (VObj mm') →
  (∃ om, heap st !! mm' = Some om ∧ slot om = None) →
  mm' ≠ c → mm' ≠ f' →
  forEach (register_method host (VProxy c)) ms st = (out, st') →
  preserved (next st) (λ x, x = mm') st st'.
Proof.
  revert st. induction ms as [|method ms IH]; intros st Hwf Hc Hcf Hf Hfm Hm Hmc Hmf H.
  - injection H as _ <-. by apply preserved_refl.
  - cbn [forEach] in H.
    apply bind_inv in H as [([] & s1 & H1 & H)|(? & H1 & ->)].
    + destruct (register_method_inv c f' mm' oc of' method st _ _ Hwf Hc Hcf Hf Hfm Hm Hmc Hmf H1)
        as [Hp Hm1].
      pose proof (wf_lookup _ _ Hwf (mk_is_Some _ _ Hc)) as Hc_lt.
      pose proof (wf_lookup _ _ Hwf (mk_is_Some _ _ Hf)) as Hf_lt.
      eapply preserved_trans; [exact Hp|].
      eapply preserved_weaken; [| |eapply (IH s1)]; try done.
      * by destruct Hp as (? & _).
      * by destruct Hp as (_ & ? & _).
      * eapply kept; eauto.
      * eapply kept; eauto.
    + by destruct (register_method_inv c f' mm' oc of' method st _ _ Hwf Hc Hcf Hf Hfm Hm Hmc Hmf H1).
Qed.

End Extend.

(** The same step for a run that is known to return. *)
Ltac advr H Hp v s Hv :=
  match type of Hp with
  | preserved ?N ?P ?s0 ?s1 =>
      let Hf := fresh "Hf" in
      let Hs := fresh "Hs" in
      let Hp' := fresh "Hp" in
      apply bind_inv in H as [(v & s & Hv & H)|(? & _ & ?)]; [|discriminate];
      get_frame Hv N P Hf;
      pose proof (Hf _ _ _ Hv (proj1 Hp) (proj1 (proj2 Hp))) as Hs;
      pose proof (preserved_trans _ _ _ _ _ Hp Hs) as Hp';
      clear Hf Hs; rename Hp into Hs; rename Hp' into Hp
  end.

Section Namespace.
Context (host : Host).

Lemma frame_new_namespace N P this l ns :
  this = VObj l ∨ this = VProxy l → P l →
  frame N P (new_namespace host this ns).
Proof.
  intros Hthis HP. unfold new_namespace.
  assert (Hset : ∀ key child, frame N P (set_member host this key child)).
  { intros. apply frame_set_member. intros l0 Hl0. right.
    destruct Hthis as [->| ->], Hl0 as [?|?]; congruence. }
  destruct Hthis as [->| ->]; frame_go.
Qed.

Lemma construct_factory_run site args st :
  construct host site (VNative NMethodModelFactory) args st
  = (Ret (VObj (S (next st))),
     mkState (<[S (next st) := mkObj (<["methodModels" := VObj (next st)]>
                                      (<["utils" := arg 0 args]>
                                      (<["formatters" := arg 1 args]> ∅)))
                                     None ProtoFactory None]>
              (<[next st := plain ∅]> (heap st)))
             (S (S (next st)))
             (log st ++ [EvNew site (VNative NMethodModelFactory) args])).
Proof. reflexivity. Qed.

Lemma construct_client_inv site args st v st' :
  construct host site (VNative NAbstractWeb3Object) args st = (Ret v, st') →
  AbstractWeb3Object host args (logged (EvNew site (VNative NAbstractWeb3Object) args) st)
  = (Ret v, st').
Proof. unfold construct. rewrite run_bind. cbn [emit]. done. Qed.

Lemma own_get_props o name :
  String.eqb name "currentProvider" = false → own_get o name = props o !! name.
Proof. intros H. unfold own_get. destruct (slot o); by rewrite ?H. Qed.

Lemma new_namespace_post this l o F fo ns st object st' :
  this = VObj l ∨ this = VProxy l →
  wf st → heap st !! l = Some o →
  proto o = ProtoWeb3Object → own_get o "constructor" = None →
  own_get o "methodModelFactory" = Some (VObj F) →
  heap st !! F = Some fo → proto fo = ProtoFactory → own_get fo "constructor" = None →
  new_namespace host this ns st = (Ret object, st') →
  ∃ c f' mm' oc of' om,
    object = VProxy c ∧ next st ≤ mm' ∧ mm' < f' ∧ f' < c
    ∧ heap st' !! c = Some oc ∧ own_get oc "methodModelFactory" = Some (VObj f')
    ∧ heap st' !! f' = Some of' ∧ own_get of' "methodModels" = Some (VObj mm')
    ∧ heap st' !! mm' = Some om ∧ slot om = None
    ∧ slot oc = Some VNull.
Proof.
  intros Hthis Hwf Hl Hproto Hctor Hfac HF HFproto HFctor H.
  pose proof (wf_lookup _ _ Hwf (mk_is_Some _ _ Hl)) as Hl_lt.
  pose proof (wf_lookup _ _ Hwf (mk_is_Some _ _ HF)) as HF_lt.
  assert (Hrawc : ∀ h, raw_get host h o "constructor" = VNative NAbstractWeb3Object).
  { intros h. unfold raw_get. by rewrite Hctor, Hproto, proto_get_web3. }
  assert (Hrawf : ∀ h, raw_get host h o "methodModelFactory" = VObj F).
  { intros h. by apply raw_get_own. }
  pose proof (preserved_refl (next st) (λ _, False) st Hwf) as Hp.
  unfold new_namespace in H.
  advr H Hp ctor s1 Hc.
  assert (ctor = VNative NAbstractWeb3Object) as ->.
  { by eapply (get_member_defined host this l o "constructor" _ st _ _ Hthis Hwf Hl Hrawc). }
  clear Hs. advr H Hp provider s2 Hv2. clear Hs.
  advr H Hp providersPackage s3 Hv3. clear Hs.
  advr H Hp methodController s4 Hv4. clear Hs.
  advr H Hp f1 s5 Hv5.
  assert (f1 = VObj F) as ->.
  { eapply (get_member_defined host this l o "methodModelFactory" _ s4 _ _ Hthis);
      [by destruct Hs as (_ & ? & _)|eapply kept; eauto|exact Hrawf|done|exact Hv5]. }
  clear Hs.
  assert (HF5 : heap s5 !! F = Some fo) by (eapply kept; eauto).
  rewrite (run_bind_ret _ _ _ _ _ (member_obj _ _ _ _ _ HF5)) in H.
  assert (E : raw_get host (heap s5) fo "constructor" = VNative NMethodModelFactory).
  { unfold raw_get. by rewrite HFctor, HFproto, proto_get_factory. }
  rewrite E in H. clear E.
  advr H Hp f2 s6 Hv6. clear Hs. run_member H utils.
  advr H Hp f3 s7 Hv7. clear Hs. run_member H formatters.
  rewrite (run_bind_ret _ _ _ _ _ (construct_factory_run _ _ _)) in H.
  set (mm' := next s7) in *. set (f' := S mm') in *.
  set (of' := mkObj _ None ProtoFactory None) in H.
  set (s8 := mkState _ _ _) in H.
  assert (Hwf7 : wf s7) by (by destruct Hp as (_ & ? & _)).
  assert (Hn7 : next st ≤ next s7) by (by destruct Hp as (? & _)).
  assert (Hwf8 : wf s8).
  { pose proof (wf_insert s7 mm' (plain ∅) (S mm') (log s7) Hwf7 ltac:(lia)
                  ltac:(unfold mm'; lia)) as Hw1.
    exact (wf_insert _ f' of' (S f') _ Hw1 ltac:(lia) ltac:(cbn; lia)). }
  apply bind_inv in H as [(child & s9 & Hchild & H)|(? & _ & ?)]; [|discriminate].
  apply construct_client_inv in Hchild.
  set (s8' := logged _ s8) in Hchild.
  assert (Hwf8' : wf s8') by done.
  destruct (AbstractWeb3Object_post host _ _ _ _ Hchild)
    as (oc & -> & Hc9 & Hslot & _ & Hmf & _).
  pose proof (frame_AbstractWeb3Object host (next s8') (λ _, False) _ _ _ _ Hchild
                ltac:(lia) Hwf8') as Hp9.
  change (next s8') with (S f') in *. cbn [arg nth] in Hmf.
  set (c := S f') in *.
  assert (Hf9 : heap s9 !! f' = Some of').
  { eapply kept; [exact Hp9| |unfold c; lia|tauto]. cbn. apply lookup_insert_eq. }
  assert (Hm9 : heap s9 !! mm' = Some (plain ∅)).
  { eapply kept; [exact Hp9| |unfold c, f'; lia|tauto]. cbn.
    rewrite lookup_insert_ne by (unfold f'; lia). apply lookup_insert_eq. }
  (* the rest writes to the parent only *)
  match type of H with
  | ?m s9 = _ =>
      assert (Hf : frame (next s9) (λ x, x = l) m)
  end.
  { assert (Hset : ∀ key child, frame (next s9) (λ x, x = l) (set_member host this key child)).
    { intros. apply frame_set_member. intros l0 Hl0. right.
      destruct Hthis as [->| ->], Hl0 as [?|?]; congruence. }
    destruct Hthis as [->| ->]; frame_go. }
  pose proof (Hf _ _ _ H ltac:(lia) ltac:(by destruct Hp9 as (_ & ? & _))) as Hp10.
  assert (Hc_lt : c < next s9).
  { apply wf_lookup; [by destruct Hp9 as (_ & ? & _)|by eexists]. }
  assert (Hne : ∀ x, next st ≤ x → x ≠ l) by (intros; lia).
  (* what is returned is the child *)
  assert (object = VProxy c) as ->.
  { clear Hf Hp10.
    apply bind_inv in H as [(key & sa & _ & H)|(? & _ & ?)]; [|discriminate].
    apply bind_inv in H as [(? & sb & _ & H)|(? & _ & ?)]; [|discriminate].
    apply bind_inv in H as [(packages & sc & _ & H)|(? & _ & ?)]; [|discriminate].
    destruct packages; try discriminate; destruct Hthis as [->| ->];
      (apply bind_inv in H as [(? & sd & _ & H)|(? & _ & ?)]; [|discriminate]);
      by injection H as <- _. }
  assert (Hge : next st ≤ mm' ∧ mm' < f' ∧ f' < c) by (unfold c, f', mm'; lia).
  exists c, f', mm', oc, of', (plain ∅).
  split_and!; try done; try lia.
  - eapply kept; [exact Hp10|done|done|]. apply Hne. lia.
  - rewrite own_get_props by done. exact Hmf.
  - eapply kept; [exact Hp10|done|lia|]. apply Hne. lia.
  - eapply kept; [exact Hp10|done|lia|]. apply Hne. lia.
Qed.

End Namespace.

Section Isolation.
Context (host : Host).

Lemma to_key_outcome v st st1 : (to_key v st).1 = (to_key v st1).1.
Proof.
  destruct v as [| |[]|n| | | | |]; cbn [to_key]; try destruct (Z.abs n <? 2 ^ 53)%Z; done.
Qed.

Lemma hasMethodModel_same F fo MM name st st' :
  heap st !! F = Some fo → own_get fo "methodModels" = Some (VObj MM) →
  heap st' !! F = heap st !! F → heap st' !! MM = heap st !! MM →
  (hasMethodModel host (VObj F) name st').1 = (hasMethodModel host (VObj F) name st).1.
Proof.
  intros HF Hmm HF' HMM. unfold hasMethodModel.
  rewrite (run_bind_ret _ _ _ _ _ (member_obj host _ _ _ st HF)).
  rewrite HF in HF'.
  rewrite (run_bind_ret _ _ _ _ _ (member_obj host _ _ _ st' HF')).
  rewrite !(raw_get_own _ _ _ _ _ Hmm). rewrite !run_bind.
  pose proof (to_key_outcome name st st') as Hk.
  destruct (to_key name st) as [[k|e] sa] eqn:Ha; destruct (to_key name st') as [[k'|e'] sb] eqn:Hb;
    cbn in Hk; try discriminate.
  - injection Hk as ->. apply to_key_state in Ha as ->. apply to_key_state in Hb as ->.
    rewrite !run_bind. unfold own_entry. rewrite !run_bind. unfold read_obj. rewrite HMM.
    by destruct (heap st !! MM).
  - by injection Hk as ->.
Qed.

(** C8. For every call of [extend] that supplies a namespace, on a client of
    this class whose factory is a Method Model Factory: whatever the outcome,
    the parent's factory and its table of registered models are as they were,
    so [hasMethodModel] on the parent's factory answers every name as before
    (a name that was not registered stays unregistered); when the call returns,
    the child has a factory and a table of its own, both created by the call. *)
Theorem C8_parent_factory_is_untouched this l o F fo MM extension property st out st' :
  wf st →
  this = VObj l ∨ this = VProxy l →
  heap st !! l = Some o →
  proto o = ProtoWeb3Object → own_get o "constructor" = None →
  own_get o "methodModelFactory" = Some (VObj F) →
  heap st !! F = Some fo →
  proto fo = ProtoFactory → own_get fo "constructor" = None →
  own_get fo "methodModels" = Some (VObj MM) →
  is_Some (heap st !! MM) →
  l ≠ F → l ≠ MM →
  member host extension "property" st = (Ret property, st) → truthy property = true →
  extend host this extension st = (out, st') →
  heap st' !! F = heap st !! F
  ∧ heap st' !! MM = heap st !! MM
  ∧ (∀ name, (hasMethodModel host (VObj F) name st').1
             = (hasMethodModel host (VObj F) name st).1)
  ∧ (∀ v, out = Ret v →
       ∃ c f' mm' oc of',
         next st ≤ mm' ∧ next st ≤ f' ∧ next st ≤ c
         ∧ heap st' !! c = Some oc ∧ own_get oc "methodModelFactory" = Some (VObj f')
         ∧ heap st' !! f' = Some of' ∧ own_get of' "methodModels" = Some (VObj mm')
         ∧ is_Some (heap st' !! mm')).
Proof.
  intros Hwf Hthis Hl Hproto Hctor Hfac HF HFproto HFctor HFmm HMM HlF HlMM Hprop Htruthy H.
  pose proof (wf_lookup _ _ Hwf (mk_is_Some _ _ Hl)) as Hl_lt.
  pose proof (wf_lookup _ _ Hwf (mk_is_Some _ _ HF)) as HF_lt.
  pose proof (wf_lookup _ _ Hwf HMM) as HMM_lt.
  assert (Hmain : preserved (next st) (λ x, x = l) st st'
          ∧ (∀ v, out = Ret v →
             ∃ c f' mm' oc of',
               next st ≤ mm' ∧ next st ≤ f' ∧ next st ≤ c
               ∧ heap st' !! c = Some oc ∧ own_get oc "methodModelFactory" = Some (VObj f')
               ∧ heap st' !! f' = Some of' ∧ own_get of' "methodModels" = Some (VObj mm')
               ∧ is_Some (heap st' !! mm'))).
  { unfold extend in H. rewrite (run_bind_ret _ _ _ _ _ Hprop) in H.
    cbv zeta in H. rewrite Htruthy in H. rewrite Htruthy in H.
    apply bind_inv in H as [(object & s1 & Hns & H)|(e & Hns & ->)].
    - pose proof (frame_new_namespace host (next st) (λ x, x = l) this l property Hthis eq_refl
                    _ _ _ Hns ltac:(lia) Hwf) as Hp1.
      destruct (new_namespace_post host this l o F fo property st object s1 Hthis Hwf Hl Hproto
                  Hctor Hfac HF HFproto HFctor Hns)
        as (c & f' & mm' & oc & of' & om & -> & Hge & Hmf & Hfc & Hc & Hcf & Hf' & Hfm & Hm & Hms
            & _).
      assert (Hwf1 : wf s1) by (by destruct Hp1 as (_ & ? & _)).
      assert (Hn1 : next st ≤ next s1) by (by destruct Hp1 as (? & _)).
      pose proof (wf_lookup _ _ Hwf1 (mk_is_Some _ _ Hc)) as Hc_lt.
      pose proof (wf_lookup _ _ Hwf1 (mk_is_Some _ _ Hf')) as Hf_lt.
      pose proof (wf_lookup _ _ Hwf1 (mk_is_Some _ _ Hm)) as Hm_lt.
      assert (Hloop : ∀ s2, preserved (next s1) (λ x, x = mm') s1 s2 →
                preserved (next st) (λ x, x = l) st s2
                ∧ ∃ c f' mm' oc of',
                    next st ≤ mm' ∧ next st ≤ f' ∧ next st ≤ c
                    ∧ heap s2 !! c = Some oc ∧ own_get oc "methodModelFactory" = Some (VObj f')
                    ∧ heap s2 !! f' = Some of' ∧ own_get of' "methodModels" = Some (VObj mm')
                    ∧ is_Some (heap s2 !! mm')).
      { intros s2 Hp2. split.
        - eapply preserved_trans; [exact Hp1|].
          eapply preserved_weaken; [| |exact Hp2]; [done|].
          intros x Hx ->. lia.
        - exists c, f', mm', oc, of'. split_and!; try done; try lia.
          + eapply kept; [exact Hp2|done|done|cbv beta; lia].
          + eapply kept; [exact Hp2|done|done|cbv beta; lia].
          + destruct Hp2 as (_ & _ & _ & Hs). apply Hs. by eexists. }
      apply bind_inv in H as [(methods & sx & Hmeth & H)|(e & Hmeth & ->)];
        apply member_state in Hmeth as ->.
      + assert (Hreg' : ∀ o2 s2,
                  (if truthy methods
                   then methods' ← member host extension "methods";
                        match methods' with
                        | VArr ms => forEach (register_method host (VProxy c)) ms
                        | VObj _ | VProxy _ | VNative _ => throw NotModelled
                        | _ => throw TypeError
                        end
                   else ret ()) s1 = (o2, s2) →
                  preserved (next s1) (λ x, x = mm') s1 s2).
        { intros o2 s2 Hreg. destruct (truthy methods);
            [|injection Hreg as _ <-; by apply preserved_refl].
          apply bind_inv in Hreg as [(methods' & sy & Hm' & Hreg)|(e & Hm' & ->)];
            apply member_state in Hm' as ->; [|by apply preserved_refl].
          destruct methods' as [| | | | |ms| | |];
            try (injection Hreg as _ <-; by apply preserved_refl).
          exact (register_methods_inv host c f' mm' oc of' ms s1 _ _ Hwf1 Hc Hcf Hf' Hfm
                   (ex_intro _ om (conj Hm Hms)) ltac:(lia) ltac:(lia) Hreg). }
        apply bind_inv in H as [([] & s2 & Hreg & H)|(e & Hreg & ->)].
        * injection H as <- <-.
          destruct (Hloop s2 (Hreg' _ _ Hreg)) as [? ?]. split; [done|]. by intros v _.
        * destruct (Hloop st' (Hreg' _ _ Hreg)) as [? _]. split; [done|].
          intros v. discriminate.
      + split; [done|]. intros v. discriminate.
    - split; [|intros v; discriminate].
      exact (frame_new_namespace host (next st) (λ x, x = l) this l property Hthis eq_refl
               _ _ _ Hns ltac:(lia) Hwf). }
  destruct Hmain as [(_ & _ & Hh & _) Hchild].
  assert (EF : heap st' !! F = heap st !! F) by (apply Hh; [done|congruence]).
  assert (EM : heap st' !! MM = heap st !! MM) by (apply Hh; [done|congruence]).
  split_and!; [done|done| |done].
  intros name. by eapply hasMethodModel_same.
Qed.

End Isolation.

(** ** The scenarios *)

Section Scenarios.
Import Scenario Runs.

(** C1. A client constructed with the transport T1 reads null as its
    [currentProvider]: line 51 assigns the transport to a data property that
    line 65 replaces by the accessor, whose closure variable starts as null
    (line 60) and is never given the transport. *)
Theorem C1_constructed_client_reads_null :
  let r := AbstractWeb3Object module_scope full_args st0 in
  arg 0 full_args = VObj T1
  ∧ r.1 = Ret (VProxy parent)
  ∧ slot_of r.2 parent = Some VNull
  ∧ (currentProvider_get parent r.2).1 = Ret VNull
  ∧ (get_member module_scope (VProxy parent) "currentProvider" r.2).1 = Ret VNull.
Proof. split_and!; vm_compute; reflexivity. Qed.

(** The same for every construction that succeeds, in every scope. *)
Lemma constructed_slot_is_null host args st v st' :
  AbstractWeb3Object host args st = (Ret v, st') →
  v = VProxy (next st) ∧ slot_of st' (next st) = Some VNull.
Proof.
  intros H. destruct (AbstractWeb3Object_post host _ _ _ _ H) as (oc & -> & Hc & Hs & _).
  split; [done|]. unfold slot_of. by rewrite Hc.
Qed.

(** C2. [isDependencyGiven] answers true for every value, so a null or
    undefined provider is accepted and the construction succeeds; with a null
    providers package the construction stops at line 52 with a TypeError, not
    with the error of line 46. *)
Theorem C2_null_provider_is_accepted :
  (∀ v, isDependencyGiven v = true)
  ∧ (AbstractWeb3Object module_scope
       [VNull; VObj registry; VObj controller; VObj factory; VObj batchPackage] st0).1
    = Ret (VProxy parent)
  ∧ (AbstractWeb3Object module_scope
       [VUndefined; VObj registry; VObj controller; VObj factory; VObj batchPackage] st0).1
    = Ret (VProxy parent)
  ∧ (AbstractWeb3Object module_scope
       [VObj T1; VNull; VObj controller; VObj factory; VObj batchPackage] st0).1
    = Throw TypeError.
Proof. split; [apply isDependencyGiven_always|]. split_and!; vm_compute; reflexivity. Qed.

(** C3. A client is constructed with T1, a transport that exposes
    [clearSubscriptions] and has one live subscription, and [setProvider(T1)]
    is called on it twice in a row. Both calls throw a TypeError at line 70,
    on the null that the closure variable holds, and so does the plain
    assignment afterwards: [clearSubscriptions] is never called on T1, the
    registry is not asked to resolve, the closure variable is not written and
    [currentProvider] still reads null. All that the two calls do is the
    proxy's test of line 216 for the name [setProvider]. *)
Theorem C3_set_of_the_given_transport_throws_twice :
  let st := (AbstractWeb3Object module_scope full_args st0).2 in
  let r1 := call_method module_scope 3 (VProxy parent) "setProvider" [VObj T1] st in
  let r2 := call_method module_scope 3 (VProxy parent) "setProvider" [VObj T1] r1.2 in
  let r3 := set_member module_scope (VProxy parent) "currentProvider" (VObj T1) r2.2 in
  arg 0 full_args = VObj T1
  ∧ (member module_scope (VObj T1) "clearSubscriptions" st).1
    = Ret (VNative (NExternal clearSubs))
  ∧ (member module_scope (VObj T1) "subscriptions" st).1 = Ret (VArr [VStr "sub1"])
  ∧ r1.1 = Throw TypeError
  ∧ r2.1 = Throw TypeError
  ∧ r3.1 = Throw TypeError
  ∧ log r3.2
    = log st ++ [EvCall L216_hasMethodModel (VNative NHasMethodModel) (VObj factory)
                   [VStr "setProvider"];
                 EvCall L216_hasMethodModel (VNative NHasMethodModel) (VObj factory)
                   [VStr "setProvider"]]
  ∧ filter (λ e, is_clear e || is_slot_write e) (log r3.2) = []
  ∧ heap r3.2 = heap st
  ∧ slot_of r3.2 parent = Some VNull
  ∧ (get_member module_scope (VProxy parent) "currentProvider" r3.2).1 = Ret VNull.
Proof. split_and!; vm_compute; reflexivity. Qed.

(** What the setter does at a client that holds T1 (one live subscription)
    and is assigned T1 again; the closure variable is set from outside. *)
Lemma setter_clears_once_at_a_client_that_holds :
  let st := holding parent (VObj T1) (AbstractWeb3Object module_scope full_args st0).2 in
  let r := currentProvider_set module_scope parent (VProxy parent) (VObj T1) st in
  slot_of st parent = Some (VObj T1)
  ∧ r.1 = Ret tt
  ∧ filter (λ e, is_clear e) (drop (length (log st)) (log r.2))
    = [EvCall L71_clearSubscriptions (VNative (NExternal clearSubs)) (VObj T1) []]
  ∧ ∃ v, slot_of r.2 parent = Some v.
Proof.
  intros st r.
  destruct (setter_clears_once_then_swaps module_scope parent (VProxy parent) (VObj T1)
              st r.2 (VObj T1) (VNative (NExternal clearSubs)) (VArr [VStr "sub1"]) (VNum 1))
    as (mid & registry & resolve & v & stm & _ & _ & Hcount & _ & Hslot);
    [vm_compute; reflexivity..|].
  split_and!; [vm_compute; reflexivity|vm_compute; reflexivity|exact Hcount|by exists v].
Qed.

(** From the state the constructor leaves, the first assignment fails at
    line 70 and the closure variable stays null. *)
Lemma first_assignment_throws :
  let st := (AbstractWeb3Object module_scope full_args st0).2 in
  let r := set_member module_scope (VProxy parent) "currentProvider" (VObj T2) st in
  r.1 = Throw TypeError ∧ slot_of r.2 parent = Some VNull ∧ log r.2 = log st.
Proof. split_and!; vm_compute; reflexivity. Qed.

(** C4, as stated, fails: the client has an own member [net_version] (holding
    undefined), the factory has a model of that name, and the access returns
    the synthesised function instead of failing. *)
Lemma C4_own_member_holding_undefined :
  let r := client_with_undefined_member module_scope st0 in
  r.1 = Ret (VProxy parent)
  ∧ own_member r.2 parent "net_version" = Some VUndefined
  ∧ (hasModel module_scope parent "net_version" r.2).1 = Ret true
  ∧ (proxyHandler module_scope parent "net_version" r.2).1 = Ret (VObj (next r.2)).
Proof. split_and!; vm_compute; reflexivity. Qed.

(** C4, amended, at a client whose own member [net_version] holds 7. *)
Lemma C4_witness :
  let st := (client_with_member module_scope st0).2 in
  let st1 := (hasModel module_scope parent "net_version" st).2 in
  own_member st parent "net_version" = Some (VNum 7)
  ∧ proxyHandler module_scope parent "net_version" st
    = (Throw (ErrorMsg (duplicated "net_version")), st1).
Proof.
  intros st st1.
  assert (Hwf : wf st) by (apply (bool_decide_unpack (wf st)); vm_compute; exact I).
  set (o := default (plain ∅) (heap st !! parent)).
  assert (Ho : heap st !! parent = Some o) by (vm_compute; reflexivity).
  assert (Hhas : hasModel module_scope parent "net_version" st = (Ret true, st1))
    by (vm_compute; reflexivity).
  split; [vm_compute; reflexivity|].
  destruct (C4_plain_member_or_duplicate module_scope st parent o "net_version" true st1
              Hwf Ho Hhas) as [_ H].
  apply (H eq_refl (VNum 7)); [vm_compute; reflexivity|discriminate].
Defined.

(** C5, at [client.net_version(1, 2)]. *)
Lemma C5_witness :
  let st := (AbstractWeb3Object module_scope full_args st0).2 in
  let st1 := (hasModel module_scope parent "net_version" st).2 in
  let st2 := (createModel module_scope parent "net_version" st1).2 in
  let r := proxyHandler module_scope parent "net_version" st in
  r.1 = Ret (VObj (next st2))
  ∧ (apply module_scope 1 (VObj (next st2)) (VProxy parent) [VNum 1; VNum 2] r.2).1
    = ext_call module_scope execute (heap (with_arguments versionInstance [VNum 1; VNum 2] r.2))
        (VObj controller) [VObj versionInstance; VNull; VUndefined; VObj parent].
Proof.
  intros st st1 st2 r.
  assert (Hwf : wf st) by (apply (bool_decide_unpack (wf st)); vm_compute; exact I).
  assert (Hhas : hasModel module_scope parent "net_version" st = (Ret true, st1))
    by (vm_compute; reflexivity).
  assert (Hno : member module_scope (VObj parent) "net_version" st1 = (Ret VUndefined, st1))
    by (vm_compute; reflexivity).
  assert (Hcreate : createModel module_scope parent "net_version" st1
                    = (Ret (VObj versionInstance), st2)) by (vm_compute; reflexivity).
  assert (Hm : is_Some (heap st2 !! versionInstance)) by (vm_compute; eauto).
  destruct (C5_synthesized_function module_scope st parent "net_version" st1
              versionInstance st2 Hwf Hhas Hno Hcreate Hm) as [(request & _ & Hacc) Hinv].
  fold r in Hacc. split; [by rewrite Hacc|].
  set (fo := default (plain ∅) (heap r.2 !! next st2)).
  set (mo := default (plain ∅) (heap r.2 !! versionInstance)).
  set (o := default (plain ∅)
              (heap (with_arguments versionInstance [VNum 1; VNum 2] r.2) !! parent)).
  destruct (Hinv 0 (VProxy parent) [VNum 1; VNum 2] r.2 fo mo o execute) as [_ Happ];
    [vm_compute; reflexivity..|].
  rewrite Happ. reflexivity.
Defined.

(** C6. On a parent with the extended packages A and B, [setProvider(T2)]
    throws a TypeError at line 70, on the null that the closure variable
    holds: no closure variable is written and [setProvider] is called on
    neither child. *)
Theorem C6_setProvider_throws_before_any_update :
  let r1 := parent_with_A_B module_scope st0 in
  let r2 := call_method module_scope 3 (VProxy parent) "setProvider" [VObj T2] r1.2 in
  r1.1 = Ret (VProxy parent)
  ∧ own_member r1.2 parent "extendedPackages" = Some (VArr [VProxy childA; VProxy childB])
  ∧ r2.1 = Throw TypeError
  ∧ heap r2.2 = heap r1.2
  ∧ slot_of r2.2 parent = Some VNull
  ∧ slot_of r2.2 childA = Some VNull
  ∧ slot_of r2.2 childB = Some VNull
  ∧ filter (λ e, is_slot_write e || is_propagation e) (log r2.2) = [].
Proof. split_and!; vm_compute; reflexivity. Qed.

(** With closure variables that hold transports, [setProvider(T2)] goes
    through the parent, then A, then B: each clears T1's subscriptions and
    then takes T2. This is what the constructor's null prevents (C6). *)
Lemma propagation_between_clients_that_hold_transports :
  let st := holding childB (VObj T1) (holding childA (VObj T1) (holding parent (VObj T1)
              (parent_with_A_B module_scope st0).2)) in
  let r := call_method module_scope 2 (VProxy parent) "setProvider" [VObj T2] st in
  r.1 = Ret VUndefined
  ∧ filter (λ e, is_slot_write e || is_propagation e) (drop (length (log st)) (log r.2))
    = [EvSlot parent (VObj T2);
       EvCall L124_setProvider (VNative NSetProvider) (VProxy childA) [VObj T2];
       EvSlot childA (VObj T2);
       EvCall L124_setProvider (VNative NSetProvider) (VProxy childB) [VObj T2];
       EvSlot childB (VObj T2)].
Proof. split_and!; vm_compute; reflexivity. Qed.



(** As the module is written [_] is not bound, and line 198 replaces the
    prototype that carries the hook: the model of a registered method inherits
    its [afterExecution] from [AbstractMethodModel.prototype]. *)
Lemma hook_is_not_installed :
  let r := extended_with_x patched_scope st0 in
  let m := model_of_gasPrice patched_scope r.2 in
  (afterExecution module_scope (VObj gasPrice) (VArr [VStr "0x1"; VStr "0x2"]) st0).1
  = Throw (ReferenceError "_")
  ∧ r.1 = Ret (VProxy parent)
  ∧ ((mm ← of_outcome m.1; member patched_scope mm "afterExecution") m.2).1
    = Ret (VNative (NExternal inheritedAfter)).
Proof. split_and!; vm_compute; reflexivity. Qed.

(** C8, at [client.extend({property: 'x', methods: [gasPrice]})]. *)
Lemma C8_witness :
  let st := (AbstractWeb3Object patched_scope full_args st0).2 in
  let r := extend patched_scope (VProxy parent) (VObj extX) st in
  r.1 = Ret VUndefined
  ∧ heap r.2 !! models = heap st !! models
  ∧ (hasMethodModel patched_scope (VObj factory) (VStr "eth_gasPrice") r.2).1
    = Ret (VBool false).
Proof.
  intros st r.
  set (o := default (plain ∅) (heap st !! parent)).
  set (fo := default (plain ∅) (heap st !! factory)).
  destruct (C8_parent_factory_is_untouched patched_scope (VProxy parent) parent o factory fo
              models (VObj extX) (VStr "x") st r.1 r.2)
    as (_ & Hmodels & Hhas & _).
  - apply (bool_decide_unpack (wf st)). vm_compute. exact I.
  - by right.
  - vm_compute. reflexivity.
  - vm_compute. reflexivity.
  - vm_compute. reflexivity.
  - vm_compute. reflexivity.
  - vm_compute. reflexivity.
  - vm_compute. reflexivity.
  - vm_compute. reflexivity.
  - vm_compute. reflexivity.
  - vm_compute. eauto.
  - vm_compute. lia.
  - vm_compute. lia.
  - vm_compute. reflexivity.
  - reflexivity.
  - by destruct (extend patched_scope (VProxy parent) (VObj extX) st).
  - split_and!; [vm_compute; reflexivity|exact Hmodels|].
    rewrite Hhas. vm_compute. reflexivity.
Defined.

(** The model went to the child's factory. *)
Lemma child_has_the_model :
  let r := extended_with_x patched_scope st0 in
  r.1 = Ret (VProxy parent)
  ∧ own_member r.2 parent "x" = Some (VProxy childA)
  ∧ own_member r.2 childA "methodModelFactory" = Some (VObj factoryA)
  ∧ (hasMethodModel patched_scope (VObj factoryA) (VStr "eth_gasPrice") r.2).1
    = Ret (VBool true)
  ∧ (hasMethodModel patched_scope (VObj factory) (VStr "eth_gasPrice") r.2).1
    = Ret (VBool false).
Proof. split_and!; vm_compute; reflexivity. Qed.

(** C9. The child of [extend({property: 'a'})] is constructed from
    [this.provider], a member the parent does not have: the provider handed to
    the child's constructor is undefined, not the transport T1 the parent was
    given, and the child reads null. The providers package and the method
    controller are the parent's, and the child is pushed once. *)
Theorem C9_child_is_built_from_undefined :
  let r := parent_with_A module_scope st0 in
  r.1 = Ret (VProxy parent)
  ∧ arg 0 full_args = VObj T1
  ∧ own_member r.2 parent "provider" = None
  ∧ filter (λ e, is_child_construction e) (log r.2)
    = [EvNew L152_new_constructor (VNative NAbstractWeb3Object)
         [VUndefined; VObj registry; VObj controller; VObj factoryA]]
  ∧ own_member r.2 parent "a" = Some (VProxy childA)
  ∧ slot_of r.2 childA = Some VNull
  ∧ own_member r.2 childA "providersPackage" = own_member r.2 parent "providersPackage"
  ∧ own_member r.2 childA "methodController" = own_member r.2 parent "methodController"
  ∧ own_member r.2 parent "extendedPackages" = Some (VArr [VProxy childA]).
Proof. split_and!; vm_compute; reflexivity. Qed.

(** With a parent that held a transport, the child would still read null. *)
Lemma child_of_a_parent_that_holds_T1 :
  let st := holding parent (VObj T1) (AbstractWeb3Object module_scope full_args st0).2 in
  let r := call_method module_scope 1 (VProxy parent) "extend" [VObj extA] st in
  r.1 = Ret VUndefined
  ∧ slot_of r.2 parent = Some (VObj T1)
  ∧ own_member r.2 parent "a" = Some (VProxy childA)
  ∧ slot_of r.2 childA = Some VNull.
Proof. split_and!; vm_compute; reflexivity. Qed.

(** C10. [BatchRequest] reads the provider from the free identifier [self],
    not from the client: where [self] is not bound the call throws a
    ReferenceError, and where it is the global object the batch is created from
    that object's [currentProvider] (undefined here). *)
Theorem C10_batch_request_does_not_read_the_client :
  let node := AbstractWeb3Object module_scope full_args st0 in
  let browser := AbstractWeb3Object browser_scope full_args st0 in
  let batch := call_method browser_scope 1 (VProxy parent) "BatchRequest" [] browser.2 in
  node.1 = Ret (VProxy parent)
  ∧ (call_method module_scope 1 (VProxy parent) "BatchRequest" [] node.2).1
    = Throw (ReferenceError "self")
  ∧ browser.1 = Ret (VProxy parent)
  ∧ slot_of browser.2 parent = Some VNull
  ∧ batch.1 = Ret (VArr [VStr "batch"; VUndefined])
  ∧ filter (λ e, is_batch_creation e) (log batch.2)
    = [EvCall L81_createBatchRequest (VNative (NExternal createBatchRequest))
         (VObj batchPackage) [VUndefined]].
Proof. split_and!; vm_compute; reflexivity. Qed.

End Scenarios.


(** * Further properties *)

(** ** The constructor *)

Section Construction.
Context (host : Host).

(** What lines 41 to 94 leave behind when they return. *)
Lemma AbstractWeb3Object_members args st v st' :
  AbstractWeb3Object host args st = (Ret v, st') →
  ∃ oc detect given http ipc ws s1 s2,
    v = VProxy (next st)
    ∧ next st' = S (S (S (next st)))
    ∧ log st' = log st ++ [EvCall L52_detect detect (arg 1 args) []]
    ∧ heap st' !! next st = Some oc
    ∧ slot oc = Some VNull ∧ proto oc = ProtoWeb3Object ∧ code oc = None
    ∧ props oc = <["extendedPackages" := VArr []]>
                 (<["providersPackage" := arg 1 args]>
                 (<["givenProvider" := given]>
                 (<["providers" := VObj (S (next st))]>
                 (<["BatchRequest" := VObj (S (S (next st)))]>
                 (<["methodModelFactory" := arg 3 args]>
                 (<["methodController" := arg 2 args]> ∅))))))
    ∧ heap st' !! S (next st)
      = Some (plain (<["HttpProvider" := http]>
                    (<["IpcProvider" := ipc]>
                    (<["WebsocketProvider" := ws]> ∅))))
    ∧ heap st' !! S (S (next st)) = Some (closure (CBatchRequest (arg 4 args)))
    ∧ member host (arg 1 args) "detect" s1 = (Ret detect, s1)
    ∧ call_external host detect (arg 1 args) [] (logged (EvCall L52_detect detect (arg 1 args) []) s1)
      = (Ret given, logged (EvCall L52_detect detect (arg 1 args) []) s1)
    ∧ member host (arg 1 args) "HttpProvider" s2 = (Ret http, s2)
    ∧ member host (arg 1 args) "IpcProvider" s2 = (Ret ipc, s2)
    ∧ member host (arg 1 args) "WebsocketProvider" s2 = (Ret ws, s2)
    ∧ (∀ x, x ≠ next st → heap s1 !! x = heap st !! x)
    ∧ (∀ x, x ≠ next st → heap s2 !! x = heap st !! x).
Proof.
  intros H. unfold AbstractWeb3Object in H. cbv zeta in H.
  rewrite !isDependencyGiven_always in H. cbn [negb andb] in H.
  run_alloc H. unfold allocated in H.
  run_set_prop H. rewrite insert_insert_eq in H.
  run_set_prop H. rewrite insert_insert_eq in H.
  run_set_prop H. rewrite insert_insert_eq in H.
  set (sa := mkState _ _ _) in H.
  assert (Hpp : ∀ s o, heap s !! next st = Some o → props o !! "providersPackage" = Some (arg 1 args) →
                slot o = None →
                member host (VObj (next st)) "providersPackage" s = (Ret (arg 1 args), s)).
  { intros s o Ho Hp Hs. rewrite (member_obj _ _ _ _ _ Ho).
    by rewrite (raw_get_own host _ _ _ (arg 1 args)) by (unfold own_get; by rewrite Hs). }
  erewrite run_bind_ret in H; [|eapply Hpp; [subst sa; look|reflexivity|reflexivity]].
  apply bind_inv in H as [(detect & s & Hdet & H)|(? & _ & ?)]; [|discriminate].
  pose proof (member_state _ _ _ _ _ _ Hdet) as ->.
  apply bind_inv in H as [(given & s & Hd & H)|(? & _ & ?)]; [|discriminate].
  apply call_collab_inv in Hd as [-> Hgiven].
  unfold logged in H. subst sa. cbn [heap next log] in H.
  run_set_prop H. rewrite insert_insert_eq in H.
  erewrite run_bind_ret in H; [|eapply Hpp; [look|reflexivity|reflexivity]].
  apply bind_inv in H as [(http & s & Hhttp & H)|(? & _ & ?)]; [|discriminate].
  pose proof (member_state _ _ _ _ _ _ Hhttp) as ->.
  erewrite run_bind_ret in H; [|eapply Hpp; [look|reflexivity|reflexivity]].
  apply bind_inv in H as [(ipc & s & Hipc & H)|(? & _ & ?)]; [|discriminate].
  pose proof (member_state _ _ _ _ _ _ Hipc) as ->.
  erewrite run_bind_ret in H; [|eapply Hpp; [look|reflexivity|reflexivity]].
  apply bind_inv in H as [(ws & s & Hws & H)|(? & _ & ?)]; [|discriminate].
  pose proof (member_state _ _ _ _ _ _ Hws) as ->.
  run_alloc H. unfold allocated in H. cbn [heap next log] in H.
  run_set_prop H.
  run_define H.
  cbv beta iota in H.
  rewrite run_bind_assoc in H. run_alloc H. unfold allocated in H. cbn [heap next log] in H.
  run_set_prop H.
  cbv beta iota in H.
  run_set_prop H. run_set_prop H.
  injection H as <- <-.
  eexists _, detect, given, http, ipc, ws, _, _.
  split_and!.
  1: reflexivity. 1: reflexivity. 1: reflexivity.
  1: look.
  1-3: reflexivity.
  - cbn [props]. vm_compute. reflexivity.
  - look.
  - look.
  - exact Hdet.
  - exact Hgiven.
  - exact Hhttp.
  - exact Hipc.
  - exact Hws.
  - intros x Hx. cbn [heap]. by rewrite lookup_insert_ne.
  - intros x Hx. cbn [heap]. by rewrite lookup_insert_ne.
Qed.

(** X1. Every construction that returns yields a proxy of a new object, calls
    [detect()] on the providers package once and nothing else, keeps what
    [detect] answered as [givenProvider], and leaves every object that existed
    as it was. *)
Theorem construction_asks_detect_once args st client st' :
  wf st →
  AbstractWeb3Object host args st = (Ret client, st') →
  ∃ detect given s,
    client = VProxy (next st)
    ∧ heap st !! next st = None
    ∧ log st' = log st ++ [EvCall L52_detect detect (arg 1 args) []]
    ∧ call_external host detect (arg 1 args) [] s = (Ret given, s)
    ∧ own_member st' (next st) "givenProvider" = Some given
    ∧ (∀ x, is_Some (heap st !! x) → heap st' !! x = heap st !! x).
Proof.
  intros Hwf H.
  destruct (AbstractWeb3Object_members _ _ _ _ H)
    as (oc & detect & given & http & ipc & ws & s1 & s2 & -> & _ & Hlog & Hc & Hs & _ & _ & Hprops
        & _ & _ & _ & Hgiven & _).
  exists detect, given, (logged (EvCall L52_detect detect (arg 1 args) []) s1).
  split_and!; [done| |done|done| |].
  - destruct (heap st !! next st) as [o|] eqn:Ho; [|done].
    pose proof (wf_lookup _ _ Hwf (mk_is_Some _ _ Ho)). lia.
  - unfold own_member. rewrite Hc. cbn. unfold own_get. rewrite Hs, Hprops. reflexivity.
  - intros x Hx. eapply untouched; [apply frame_AbstractWeb3Object|done|exact H|done].
Qed.

(** X2. What a constructed client holds: an empty list of extended packages,
    the providers package, a new [providers] table with the three provider
    classes of the package, a [BatchRequest] function that closes over the
    fifth argument (whatever that argument is), the factory and the controller
    as they were given, and an accessor [currentProvider] that reads null. *)
Theorem constructed_client_members args st client st' q oq a b c :
  AbstractWeb3Object host args st = (Ret client, st') →
  arg 1 args = VObj q → q ≠ next st → heap st !! q = Some oq →
  own_get oq "HttpProvider" = Some a →
  own_get oq "IpcProvider" = Some b →
  own_get oq "WebsocketProvider" = Some c →
  let this := next st in
  own_member st' this "extendedPackages" = Some (VArr [])
  ∧ own_member st' this "providersPackage" = Some (VObj q)
  ∧ own_member st' this "providers" = Some (VObj (S this))
  ∧ heap st' !! S this
    = Some (plain (<["HttpProvider" := a]> (<["IpcProvider" := b]> (<["WebsocketProvider" := c]> ∅))))
  ∧ own_member st' this "BatchRequest" = Some (VObj (S (S this)))
  ∧ heap st' !! S (S this) = Some (closure (CBatchRequest (arg 4 args)))
  ∧ own_member st' this "methodModelFactory" = Some (arg 3 args)
  ∧ own_member st' this "methodController" = Some (arg 2 args)
  ∧ own_member st' this "currentProvider" = Some VNull.
Proof.
  intros H Hq Hne Hoq Ha Hb Hc this.
  destruct (AbstractWeb3Object_members _ _ _ _ H)
    as (oc & detect & given & http & ipc & ws & s1 & s2 & _ & _ & _ & Hoc & Hs & _ & _ & Hprops
        & Hprov & Hbatch & _ & _ & Hhttp & Hipc & Hws & _ & H2).
  rewrite Hq in Hhttp, Hipc, Hws.
  assert (Hq2 : heap s2 !! q = Some oq) by (by rewrite H2).
  rewrite (member_obj _ _ _ _ _ Hq2) in Hhttp. rewrite (member_obj _ _ _ _ _ Hq2) in Hipc.
  rewrite (member_obj _ _ _ _ _ Hq2) in Hws.
  rewrite (raw_get_own _ _ _ _ _ Ha) in Hhttp. rewrite (raw_get_own _ _ _ _ _ Hb) in Hipc.
  rewrite (raw_get_own _ _ _ _ _ Hc) in Hws.
  injection Hhttp as <-. injection Hipc as <-. injection Hws as <-.
  unfold own_member, this. rewrite Hoc. cbn [mbind option_bind]. unfold own_get.
  rewrite Hs, Hprops, Hq. split_and!; try reflexivity; done.
Qed.

(** X3. Without a providers package the construction stops at line 52 with a
    TypeError, before anything is called: the check of line 45 does not reject
    the missing package. *)
Theorem construction_without_providers_package args st :
  is_null (arg 1 args) || is_undefined (arg 1 args) = true →
  (AbstractWeb3Object host args st).1 = Throw TypeError
  ∧ log (AbstractWeb3Object host args st).2 = log st.
Proof.
  intros Hpp. destruct (AbstractWeb3Object host args st) as [out st'] eqn:H.
  unfold AbstractWeb3Object in H. cbv zeta in H.
  rewrite !isDependencyGiven_always in H. cbn [negb andb] in H.
  run_alloc H. unfold allocated in H.
  run_set_prop H. rewrite insert_insert_eq in H.
  run_set_prop H. rewrite insert_insert_eq in H.
  run_set_prop H. rewrite insert_insert_eq in H.
  erewrite run_bind_ret in H; last first.
  { erewrite member_obj by look. rewrite (raw_get_own host _ _ _ (arg 1 args)) by reflexivity.
    reflexivity. }
  destruct (arg 1 args); try discriminate; by injection H as <- <-.
Qed.

(** X4. A client constructed without a method model factory cannot be read:
    the constructor wraps it in the proxy all the same, and the handler of
    line 216 dereferences the missing factory at every property access. *)
Theorem client_without_factory_is_unusable args st client st' :
  AbstractWeb3Object host args st = (Ret client, st') →
  is_null (arg 3 args) || is_undefined (arg 3 args) = true →
  ∀ name, get_member host client name st' = (Throw TypeError, st').
Proof.
  intros H Hf name.
  destruct (AbstractWeb3Object_members _ _ _ _ H)
    as (oc & detect & given & http & ipc & ws & s1 & s2 & -> & _ & _ & Hoc & Hs & _ & _ & Hprops & _).
  cbn [get_member]. unfold proxyHandler.
  rewrite (run_bind_ret _ _ _ _ _ (member_obj host _ _ "methodModelFactory" _ Hoc)).
  rewrite (raw_get_own host _ _ _ (arg 3 args)); last first.
  { unfold own_get. rewrite Hs, Hprops. reflexivity. }
  destruct (arg 3 args); try discriminate; reflexivity.
Qed.

(** X5. No client the constructor returns accepts a provider: the closure
    variable behind [currentProvider] is null, so the assignment, directly or
    through [setProvider], throws a TypeError at line 70 and leaves everything
    as it was. *)
Theorem constructed_client_rejects_every_provider args st client st' :
  AbstractWeb3Object host args st = (Ret client, st') →
  ∀ fuel provider,
    set_member host client "currentProvider" provider st' = (Throw TypeError, st')
    ∧ setProvider host fuel client provider st' = (Throw TypeError, st').
Proof.
  intros H fuel provider.
  destruct (AbstractWeb3Object_members _ _ _ _ H)
    as (oc & detect & given & http & ipc & ws & s1 & s2 & -> & _ & _ & Hoc & Hs & _).
  split; [|by apply (setProvider_on_null_throws host fuel _ oc)].
  unfold set_member. rewrite (run_bind_ret _ _ _ _ _ (read_obj_some _ _ _ Hoc)), Hs.
  cbn [String.eqb Ascii.eqb Bool.eqb].
  by apply (assignment_on_null_throws host _ oc).
Qed.

(** X6. [clearSubscriptions] cannot return while the closure variable behind
    [currentProvider] is null (as the constructor leaves it): line 135
    dereferences it. *)
Theorem clearSubscriptions_needs_a_provider this l o st :
  wf st → this = VObj l ∨ this = VProxy l →
  heap st !! l = Some o → slot o = Some VNull →
  ∃ e, (clearSubscriptions host this st).1 = Throw e.
Proof.
  intros Hwf Hthis Ho Hs. unfold clearSubscriptions. rewrite run_bind.
  destruct (get_member host this "currentProvider" st) as [[p|e] s1] eqn:Hp; [|by exists e].
  assert (p = VNull) as ->.
  { eapply (get_member_defined host this l o "currentProvider" VNull st); try done.
    intros h. apply raw_get_own. unfold own_get. by rewrite Hs. }
  by exists TypeError.
Qed.

End Construction.


(** ** Assignments to currentProvider, and the members of the class behind the proxy *)

Section Assignment.
Context (host : Host).

(** X7. When the transport held has no [clearSubscriptions] or no live
    subscription, an assignment that succeeds does not call
    [clearSubscriptions]: it asks the registry to resolve the candidate and
    writes the closure variable with the answer. *)
Theorem assignment_without_live_subscriptions l this candidate st st' cur cs :
  slot_of st l = Some cur →
  member host cur "clearSubscriptions" st = (Ret cs, st) →
  (is_undefined cs = true
   ∨ ∃ subs len, member host cur "subscriptions" st = (Ret subs, st)
                 ∧ member host subs "length" st = (Ret len, st)
                 ∧ gt0 len st = (Ret false, st)) →
  currentProvider_set host l this candidate st = (Ret tt, st') →
  ∃ mid registry resolve v stm,
    log st' = log st ++ mid ++ [EvCall L74_resolve resolve registry [candidate]; EvSlot l v]
    ∧ Forall quiet mid
    ∧ filter (λ e, is_clear e) (drop (length (log st)) (log st')) = []
    ∧ call_external host resolve registry [candidate] stm = (Ret v, stm)
    ∧ slot_of st' l = Some v.
Proof.
  intros Hslot Hcs Hno Hset.
  unfold slot_of in Hslot. destruct (heap st !! l) as [o|] eqn:Ho; [|done]. cbn in Hslot.
  unfold currentProvider_set in Hset.
  rewrite (run_bind_ret _ _ _ _ _ (read_slot_some _ _ _ _ Ho Hslot)) in Hset.
  rewrite (run_bind_ret _ _ _ _ _ Hcs) in Hset.
  assert (Hb : (if is_undefined cs then ret false
                else subs ← member host cur "subscriptions";
                     len ← member host subs "length"; gt0 len) st = (Ret false, st)).
  { destruct Hno as [->|(subs & len & Hsubs & Hlen & Hgt)]; [done|].
    destruct (is_undefined cs); [done|].
    by rewrite (run_bind_ret _ _ _ _ _ Hsubs), (run_bind_ret _ _ _ _ _ Hlen). }
  rewrite (run_bind_ret _ _ _ _ _ Hb) in Hset. cbv beta iota in Hset.
  rewrite run_bind in Hset. change (ret () st) with (Ret (), st) in Hset. cbv beta iota in Hset.
  step Hset pp stb Hpp. step Hset resolve stc Hres. step Hset v std Hcall.
  apply member_state in Hres as ->.
  apply call_collab_inv in Hcall as [-> Hcall].
  destruct (logs_get_member host _ _ _ _ _ Hpp) as (mid & Hmid & Hquiet).
  unfold write_slot in Hset.
  step Hset o' ste Ho'. unfold read_obj in Ho'. cbn [heap logged] in Ho'.
  destruct (heap stb !! l) as [ob|] eqn:Hob; [|discriminate]. injection Ho' as <- <-.
  rewrite !run_bind in Hset. cbn in Hset. injection Hset as <-.
  exists mid, pp, resolve, v, (logged (EvCall L74_resolve resolve pp [candidate]) stb).
  assert (Hlog : log {| heap := <[l:={| props := props ob; slot := Some v; proto := proto ob;
                                       code := code ob |}]> (heap stb);
                        next := next stb;
                        log := (log stb ++ [EvCall L74_resolve resolve pp [candidate]])
                               ++ [EvSlot l v] |}
                 = log st ++ mid ++ [EvCall L74_resolve resolve pp [candidate]; EvSlot l v]).
  { cbn. rewrite Hmid. rewrite <- !app_assoc. reflexivity. }
  split_and!; [exact Hlog|done| |done|].
  - rewrite Hlog, drop_app_length. rewrite filter_app. cbn.
    by rewrite filter_clear_quiet.
  - unfold slot_of. cbn. by rewrite lookup_insert_eq.
Qed.

(** X8. An assignment that fails leaves the closure variable, and the whole
    client object, as it was: the variable is written last, at line 74, once
    the registry has answered. *)
Theorem failed_assignment_keeps_the_provider l this candidate st e st' :
  wf st → is_Some (heap st !! l) →
  currentProvider_set host l this candidate st = (Throw e, st') →
  heap st' !! l = heap st !! l ∧ slot_of st' l = slot_of st l.
Proof.
  intros Hwf Hl H.
  assert (Hfin : ∀ s, preserved (next st) (λ _ : loc, False) st s →
                 heap s !! l = heap st !! l ∧ slot_of s l = slot_of st l).
  { intros s (_ & _ & Hh & _).
    assert (E : heap s !! l = heap st !! l) by (apply Hh; [by apply wf_lookup|tauto]).
    split; [done|]. unfold slot_of. by rewrite E. }
  pose proof (preserved_refl (next st) (λ _, False) st Hwf) as Hp.
  unfold currentProvider_set in H.
  remember (@Throw unit e) as out eqn:Hout.
  adv H Hp cur s1 H1; [|by apply Hfin].
  adv H Hp cs s2 H2; [|by apply Hfin].
  adv H Hp b s3 H3; [|by apply Hfin].
  adv H Hp u s4 H4; [|by apply Hfin].
  adv H Hp pp s5 H5; [|by apply Hfin].
  adv H Hp resolve s6 H6; [|by apply Hfin].
  adv H Hp v s7 H7; [|by apply Hfin].
  unfold write_slot in H. rewrite run_bind in H. unfold read_obj in H. cbv beta in H.
  destruct (heap s7 !! l); [subst out; discriminate|]. injection H as _ <-. by apply Hfin.
Qed.


Lemma web3_prototype_defined name f :
  assoc name web3_prototype = Some f → is_undefined f = false.
Proof.
  unfold web3_prototype. cbn [assoc].
  repeat (destruct (String.eqb name _); [by intros [= <-]|]). done.
Qed.

(** X9. When the factory has a model named like one of the methods of the
    class ([setProvider], [extend], ...), reading that method through the
    proxy throws the "Duplicated method" error: the inherited member collides
    as an own member does. *)
Theorem prototype_method_collides target o name f st st1 :
  wf st → heap st !! target = Some o →
  proto o = ProtoWeb3Object → own_get o name = None →
  assoc name web3_prototype = Some f →
  hasModel host target name st = (Ret true, st1) →
  proxyHandler host target name st = (Throw (ErrorMsg (duplicated name)), st1).
Proof.
  intros Hwf Ho Hproto Hown Hf Hhas.
  assert (Ho1 : heap st1 !! target = Some o).
  { rewrite <- Ho. eapply untouched; [apply frame_hasModel|done|done|by eexists]. }
  rewrite proxyHandler_split, Hhas, run_bind, (member_obj _ _ _ _ _ Ho1).
  unfold raw_get. rewrite Hown, Hproto, proto_get_web3. unfold builtin_get. rewrite Hf.
  by rewrite (web3_prototype_defined _ _ Hf).
Qed.

End Assignment.


(** ** The log is write-only *)

Lemma steady_same {A} (m : M A) :
  (∀ st, ∃ out f, ∀ lg, m (mkState (heap st) (next st) lg) = (out, mkState (f (heap st)).1 (f (heap st)).2 lg)) →
  steady m.
Proof.
  intros Hm st out st' H. destruct (Hm st) as (o & f & Hf).
  exists []. destruct st as [h n lg0]. cbn in *. rewrite Hf in H. injection H as <- <-.
  split; [by rewrite app_nil_r|]. intros lg. unfold relog. cbn. by rewrite app_nil_r, Hf.
Qed.

Lemma steady_ret {A} (a : A) : steady (ret a).
Proof. apply steady_same. intros st. by exists (Ret a), (λ h, (h, next st)). Qed.

Lemma steady_throw {A} e : steady (@throw A e).
Proof. apply steady_same. intros st. by exists (Throw e), (λ h, (h, next st)). Qed.

Lemma steady_get_heap : steady get_heap.
Proof. apply steady_same. intros st. by exists (Ret (heap st)), (λ h, (h, next st)). Qed.

Lemma steady_of_outcome {A} (o : Outcome A) : steady (of_outcome o).
Proof. apply steady_same. intros st. by exists o, (λ h, (h, next st)). Qed.

Lemma steady_alloc o : steady (alloc o).
Proof.
  apply steady_same. intros st.
  by exists (Ret (next st)), (λ h, (<[next st := o]> h, S (next st))).
Qed.

Lemma steady_read_obj l : steady (read_obj l).
Proof.
  apply steady_same. intros st. unfold read_obj. cbn.
  destruct (heap st !! l) as [o|].
  - by exists (Ret o), (λ h, (h, next st)).
  - by exists (Throw NotModelled), (λ h, (h, next st)).
Qed.

Lemma steady_write_obj l o : steady (write_obj l o).
Proof.
  apply steady_same. intros st. by exists (Ret tt), (λ h, (<[l := o]> h, next st)).
Qed.

Lemma steady_emit e : steady (emit e).
Proof.
  intros st out st' H. injection H as <- <-. exists [e]. split; [done|]. by intros lg.
Qed.

Lemma steady_bind {A B} (m : M A) (k : A → M B) :
  steady m → (∀ a, steady (k a)) → steady (m ≫= k).
Proof.
  intros Hm Hk st out st' H.
  apply bind_inv in H as [(a & st1 & H1 & H2)|(e & H1 & ->)].
  - destruct (Hm _ _ _ H1) as (ev1 & E1 & F1).
    destruct (Hk a _ _ _ H2) as (ev2 & E2 & F2).
    exists (ev1 ++ ev2). split; [by rewrite E2, E1, app_assoc|].
    intros lg. rewrite (run_bind_ret _ _ _ _ _ (F1 lg)), F2. by rewrite app_assoc.
  - destruct (Hm _ _ _ H1) as (ev1 & E1 & F1). exists ev1. split; [done|].
    intros lg. by rewrite (run_bind_throw _ _ _ _ _ (F1 lg)).
Qed.

Create HintDb steady.

Ltac steady_go :=
  repeat first
    [ apply steady_ret | apply steady_throw | apply steady_emit | apply steady_get_heap
    | apply steady_of_outcome | apply steady_read_obj | apply steady_write_obj
    | apply steady_alloc
    | solve [auto with steady]
    | apply steady_bind; [|intros ?]
    | match goal with
      | |- steady (match ?x with _ => _ end) => destruct x
      | |- steady (if ?b then _ else _) => destruct b
      end ].

Section Subscriptions.
Context (host : Host).

Lemma steady_lookup_global name : steady (lookup_global host name).
Proof. unfold lookup_global. steady_go. Qed.

Lemma steady_member v name : steady (member host v name).
Proof. unfold member. steady_go. Qed.

Lemma steady_set_prop l name v : steady (set_prop l name v).
Proof. unfold set_prop. steady_go. Qed.

Lemma steady_own_entry v key : steady (own_entry v key).
Proof. unfold own_entry. steady_go. Qed.

Lemma steady_proto_of v : steady (proto_of v).
Proof. unfold proto_of. steady_go. Qed.

Lemma steady_to_key v : steady (to_key v).
Proof. unfold to_key. steady_go. Qed.

Lemma steady_call_external f this args : steady (call_external host f this args).
Proof. unfold call_external. steady_go. Qed.

Hint Resolve steady_lookup_global steady_member steady_set_prop steady_own_entry
  steady_proto_of steady_to_key steady_call_external : steady.

Lemma steady_call_collab site f this args : steady (call_collab host site f this args).
Proof. unfold call_collab. steady_go. Qed.

Hint Resolve steady_call_collab : steady.

Lemma steady_ExtensionMethodModel c method args :
  steady (ExtensionMethodModel host c method args).
Proof. unfold ExtensionMethodModel. steady_go. Qed.

Hint Resolve steady_ExtensionMethodModel : steady.

Lemma steady_new_model cls args : steady (new_model host cls args).
Proof. unfold new_model. steady_go. Qed.

Lemma steady_hasMethodModel this name : steady (hasMethodModel host this name).
Proof. unfold hasMethodModel. steady_go. Qed.

Hint Resolve steady_new_model steady_hasMethodModel : steady.

Lemma steady_createMethodModel this name : steady (createMethodModel host this name).
Proof. unfold createMethodModel. steady_go. Qed.

Hint Resolve steady_createMethodModel : steady.

Lemma steady_call_factory site f this args : steady (call_factory host site f this args).
Proof. unfold call_factory. steady_go. Qed.

Hint Resolve steady_call_factory : steady.

Lemma steady_proxyHandler target name : steady (proxyHandler host target name).
Proof. unfold proxyHandler. steady_go. Qed.

Hint Resolve steady_proxyHandler : steady.

Lemma steady_get_member v name : steady (get_member host v name).
Proof. unfold get_member. steady_go. Qed.

(** A read that changed nothing but the log reads the same later, as long as
    the heap is the same. *)
Lemma read_again {A} (m : M A) st a st1 evs s :
  steady m → m st = (Ret a, st1) →
  heap st1 = heap st → next st1 = next st → log st1 = log st ++ evs →
  heap s = heap st → next s = next st →
  m s = (Ret a, relog (log s ++ evs) s).
Proof.
  intros Hm H Hh Hn Hl Hhs Hns.
  destruct (Hm _ _ _ H) as (evs' & E & F).
  rewrite Hl in E. apply app_inv_head in E as <-.
  specialize (F (log s)).
  assert (Es : relog (log s) st = s).
  { destruct s, st. unfold relog. cbn in *. by subst. }
  rewrite Es in F. rewrite F. f_equal. unfold relog. cbn. by rewrite Hh, Hn, Hhs, Hns.
Qed.

Lemma call_external_heap_only f this args st out s :
  call_external host f this args st = (out, st) → heap s = heap st →
  call_external host f this args s = (out, s).
Proof.
  unfold call_external. intros H Hh.
  destruct f as [| | | | | |l|l|[]]; try (by injection H as <-).
  - rewrite !run_bind in *. unfold read_obj in *. rewrite Hh.
    destruct (heap st !! l) as [o|]; [|by injection H as <-].
    cbn in *. destruct (code o); by injection H as <-.
  - rewrite !run_bind in *. cbn [get_heap] in *. rewrite Hh.
    unfold of_outcome in *. by injection H as <-.
Qed.

(** X10. [clearSubscriptions] on a client whose provider exposes
    [clearSubscriptions]: it asks the provider [hasSubscription()] once and,
    when the answer is truthy, calls the provider's [clearSubscriptions()]
    once; it reads [this.currentProvider] anew before each step, returns
    undefined and changes no object. *)
Theorem clearSubscriptions_asks_then_clears this p cs has r evs st st1 :
  get_member host this "currentProvider" st = (Ret p, st1) →
  heap st1 = heap st → next st1 = next st → log st1 = log st ++ evs →
  member host p "clearSubscriptions" st = (Ret cs, st) → is_undefined cs = false →
  member host p "hasSubscription" st = (Ret has, st) →
  call_external host has p [] st = (Ret r, st) →
  (truthy r = true → ∃ x, call_external host cs p [] st = (Ret x, st)) →
  clearSubscriptions host this st
  = (Ret VUndefined,
     relog (log st ++ evs ++ evs ++ [EvCall L135_hasSubscription has p []]
              ++ (if truthy r then evs ++ [EvCall L136_clearSubscriptions cs p []] else []))
           st).
Proof.
  intros Hread Hh Hn Hl Hcs Hdef Hhas Hr Hclear.
  pose proof (steady_get_member this "currentProvider")
    as Hsteady.
  assert (Hagain : ∀ s, heap s = heap st → next s = next st →
            get_member host this "currentProvider" s = (Ret p, relog (log s ++ evs) s)).
  { intros s Hhs Hns. by eapply read_again. }
  assert (Hmem : ∀ name v s, member host p name st = (Ret v, st) → heap s = heap st →
            member host p name s = (Ret v, s)).
  { intros name v s Hm Hs. by apply (member_heap_only host p name st). }
  unfold clearSubscriptions.
  rewrite (run_bind_ret _ _ _ _ _ (Hagain st eq_refl eq_refl)).
  set (s1 := relog (log st ++ evs) st).
  rewrite (run_bind_ret _ _ _ _ _ (Hmem _ _ s1 Hcs eq_refl)), Hdef.
  rewrite run_bind, (run_bind_ret _ _ _ _ _ (Hagain s1 eq_refl eq_refl)).
  set (s2 := relog (log s1 ++ evs) s1).
  rewrite (run_bind_ret _ _ _ _ _ (Hmem _ _ s2 Hhas eq_refl)).
  unfold call_collab at 1. rewrite !run_bind. cbn [emit].
  set (s3 := mkState (heap s2) (next s2) _).
  rewrite (call_external_heap_only _ _ _ _ _ s3 Hr eq_refl).
  change (ret (truthy r) s3) with (Ret (truthy r), s3). cbv beta iota.
  destruct (truthy r) eqn:Ht.
  - destruct (Hclear eq_refl) as [x Hx].
    rewrite (run_bind_ret _ _ _ _ _ (Hagain s3 eq_refl eq_refl)).
    set (s4 := relog (log s3 ++ evs) s3).
    rewrite (run_bind_ret _ _ _ _ _ (Hmem _ _ s4 Hcs eq_refl)).
    unfold call_collab. rewrite !run_bind. cbn [emit].
    set (s5 := mkState (heap s4) (next s4) _).
    rewrite (call_external_heap_only _ _ _ _ _ s5 Hx eq_refl).
    unfold ret, relog. subst s5 s4 s3 s2 s1. unfold relog. cbn.
    f_equal. f_equal. by rewrite <- !app_assoc.
  - unfold ret, relog. subst s3 s2 s1. unfold relog. cbn.
    f_equal. f_equal. by rewrite <- !app_assoc.
Qed.

End Subscriptions.


(** ** setProvider on a parent and its children *)

Section AsideParts.
Context (host : Host).

Lemma aside_call_collab site f this args :
  aside (EvCall site f this args) → logs aside (call_collab host site f this args).
Proof. intros. unfold call_collab. logs_go. Qed.

Lemma aside_ExtensionMethodModel c method args :
  logs aside (ExtensionMethodModel host c method args).
Proof. unfold ExtensionMethodModel, call_collab. logs_go. Qed.

Hint Resolve aside_ExtensionMethodModel : logs.

Lemma aside_new_model cls args : logs aside (new_model host cls args).
Proof. unfold new_model. logs_go. Qed.

Lemma aside_hasMethodModel this name : logs aside (hasMethodModel host this name).
Proof. unfold hasMethodModel. logs_go. Qed.

Hint Resolve aside_new_model aside_hasMethodModel : logs.

Lemma aside_createMethodModel this name : logs aside (createMethodModel host this name).
Proof. unfold createMethodModel. logs_go. Qed.

Hint Resolve aside_createMethodModel : logs.

Lemma aside_call_factory site f this args :
  aside (EvCall site f this args) → logs aside (call_factory host site f this args).
Proof. intros. unfold call_factory. logs_go. Qed.

Lemma aside_proxyHandler target name : logs aside (proxyHandler host target name).
Proof. unfold proxyHandler, call_factory. logs_go. Qed.

Hint Resolve aside_proxyHandler : logs.

Lemma aside_get_member v name : logs aside (get_member host v name).
Proof. unfold get_member. logs_go. Qed.

Lemma filter_aside mid :
  Forall aside mid → filter (λ e, is_slot_write e || is_propagation e) mid = [].
Proof.
  induction 1 as [|e mid [He1 He2] _ IH]; [done|].
  rewrite filter_cons_False; [done|]. rewrite He1, He2. intros [].
Qed.

End AsideParts.

Lemma trail_refl st : wf st → trail st st.
Proof.
  intros Hwf. split; [by apply preserved_refl|]. exists []. by rewrite app_nil_r.
Qed.

Lemma trail_step {A} (m : M A) st s out s' :
  trail st s → frame (next st) (λ _, False) m → logs aside m →
  m s = (out, s') → trail st s'.
Proof.
  intros [Hp (evs & Hl & Ha)] Hf Hlogs H. split.
  - eapply preserved_trans; [exact Hp|].
    apply (Hf _ _ _ H); [by destruct Hp as (? & _)|by destruct Hp as (_ & ? & _)].
  - destruct (Hlogs _ _ _ H) as (evs' & Hl' & Ha').
    exists (evs ++ evs'). split; [by rewrite Hl', Hl, app_assoc|by apply Forall_app].
Qed.

Lemma trail_kept st s x ox : trail st s → wf st → heap st !! x = Some ox → heap s !! x = Some ox.
Proof.
  intros [Hp _] Hwf Hx. eapply kept; [exact Hp|done| |tauto].
  apply wf_lookup; [done|by eexists].
Qed.

(** One step of a run that returns, keeping the trail. *)
Ltac track H Ht a s Hv Ht' :=
  match type of Ht with
  | trail ?st0 ?s0 =>
      apply bind_inv in H as [(a & s & Hv & H)|(? & _ & ?)]; [|discriminate];
      match type of Hv with
      | ?m s0 = _ =>
          let Hf := fresh in
          let Hl := fresh in
          assert (Hf : frame (next st0) (λ _, False) m)
            by (first [solve [auto with frame] | frame_go]);
          assert (Hl : logs aside m)
            by (first [solve [auto with logs] | unfold call_collab; logs_go]);
          pose proof (trail_step _ _ _ _ _ Ht Hf Hl Hv) as Ht'; clear Hf Hl
      end
  end.

Section Propagation.
Context (host : Host).

Hint Resolve aside_get_member aside_proxyHandler : logs.

(** An assignment that returns has written the closure variable, last, and
    nothing else that existed. *)
Lemma currentProvider_set_inv l this x st st' o :
  wf st → heap st !! l = Some o →
  currentProvider_set host l this x st = (Ret tt, st') →
  ∃ v pp resolve sa sb s,
    trail st sa
    ∧ get_member host this "providersPackage" sa = (Ret pp, sb)
    ∧ trail st sb
    ∧ member host pp "resolve" sb = (Ret resolve, sb)
    ∧ call_external host resolve pp [x] s = (Ret v, s)
    ∧ trail st s
    ∧ st' = mkState (<[l := mkObj (props o) (Some v) (proto o) (code o)]> (heap s)) (next s)
                    (log s ++ [EvSlot l v]).
Proof.
  intros Hwf Ho H. pose proof (trail_refl st Hwf) as Ht0.
  unfold currentProvider_set in H.
  track H Ht0 cur s1 H1 Ht1.
  track H Ht1 cs s2 H2 Ht2.
  track H Ht2 b s3 H3 Ht3.
  track H Ht3 u s4 H4 Ht4.
  track H Ht4 pp s5 H5 Ht5.
  track H Ht5 resolve s6 H6 Ht6.
  track H Ht6 v s7 H7 Ht7.
  pose proof (member_state _ _ _ _ _ _ H6) as ->.
  apply call_collab_inv in H7 as [-> H7].
  unfold write_slot in H.
  rewrite (run_bind_ret _ _ _ _ _ (read_obj_some _ _ _ (trail_kept _ _ _ _ Ht7 Hwf Ho))) in H.
  rewrite !run_bind in H. cbn in H. injection H as <-.
  exists v, pp, resolve, s4, s5, (logged (EvCall L74_resolve resolve pp [x]) s5).
  by split_and!.
Qed.


Lemma filter_aside_app evs rest :
  Forall aside evs →
  filter (λ e, is_slot_write e || is_propagation e) (evs ++ rest)
  = filter (λ e, is_slot_write e || is_propagation e) rest.
Proof. intros H. by rewrite filter_app, (filter_aside _ H). Qed.

(** [setProvider] on a client without extended packages: it writes the
    client's closure variable and nothing else that existed. *)
Lemma leaf_setProvider c oc n p st r st' :
  wf st → heap st !! c = Some oc → is_Some (slot oc) →
  props oc !! "extendedPackages" = Some (VArr []) →
  apply host (S n) (VNative NSetProvider) (VProxy c) [p] st = (Ret r, st') →
  ∃ vc evs,
    wf st' ∧ next st ≤ next st'
    ∧ (∀ x, x < next st → x ≠ c → heap st' !! x = heap st !! x)
    ∧ heap st' !! c = Some (mkObj (props oc) (Some vc) (proto oc) (code oc))
    ∧ log st' = log st ++ evs
    ∧ filter (λ e, is_slot_write e || is_propagation e) evs = [EvSlot c vc].
Proof.
  intros Hwf Hc [w Hw] Hpk H.
  pose proof (wf_lookup _ _ Hwf (mk_is_Some _ _ Hc)) as Hc_lt.
  cbn [apply arg nth] in H. unfold setProvider_body in H. cbv zeta in H.
  apply bind_inv in H as [([] & s1 & Hset & H)|(? & _ & ?)]; [|discriminate].
  unfold set_member in Hset.
  rewrite (run_bind_ret _ _ _ _ _ (read_obj_some _ _ _ Hc)), Hw in Hset.
  cbn [String.eqb Ascii.eqb Bool.eqb] in Hset.
  destruct (currentProvider_set_inv _ _ _ _ _ _ Hwf Hc Hset)
    as (vc & pp & resolve & sa & sb & s & _ & _ & _ & _ & _ & [Hp (ev0 & Hl0 & Ha0)] & ->).
  set (oc1 := mkObj (props oc) (Some vc) (proto oc) (code oc)) in *.
  set (s1 := mkState _ _ _) in H.
  assert (Hwfs : wf s) by (by destruct Hp as (_ & ? & _)).
  assert (Hns : next st ≤ next s) by (by destruct Hp as (? & _)).
  assert (Hwf1 : wf s1).
  { apply wf_insert; [done|lia|done]. }
  assert (Hc1 : heap s1 !! c = Some oc1) by apply lookup_insert_eq.
  pose proof (trail_refl s1 Hwf1) as Ht1.
  track H Ht1 packages s2 Hpack Ht2.
  assert (packages = VArr []) as ->.
  { eapply (get_member_defined host (VProxy c) c oc1 "extendedPackages" (VArr []) s1);
      [by right|done|done| |done|exact Hpack].
    intros h. apply raw_get_own. by rewrite own_get_props. }
  cbn in H. injection H as <- <-.
  destruct Ht2 as [Hp2 (ev2 & Hl2 & Ha2)].
  exists vc, (ev0 ++ [EvSlot c vc] ++ ev2).
  split_and!.
  - by destruct Hp2 as (_ & ? & _).
  - destruct Hp2 as (? & _). cbn in *. lia.
  - intros x Hx Hxc. destruct Hp2 as (_ & _ & Hh2 & _).
    rewrite Hh2 by (cbn; lia || tauto). cbn. rewrite lookup_insert_ne by done.
    destruct Hp as (_ & _ & Hh & _). apply Hh; [done|tauto].
  - eapply kept; [exact Hp2|done|cbn; lia|tauto].
  - rewrite Hl2. cbn. rewrite Hl0. by rewrite <- !app_assoc.
  - rewrite filter_aside_app by done. cbn [app].
    rewrite filter_cons_True by done. by rewrite filter_aside.
Qed.

Lemma leaf_client_kept st s c l :
  wf st → c ≠ l → leaf_client st c →
  (∀ x, x < next st → x ≠ l → heap s !! x = heap st !! x) → leaf_client s c.
Proof.
  intros Hwf Hcl (oc & Hc & Hrest) Hh. exists oc. split; [|done].
  rewrite Hh; [done| |done]. apply wf_lookup; [done|by eexists].
Qed.

(** The loop of lines 123 to 125 over children that are leaves. *)
Lemma propagate_run fuel this l o1 v cs : ∀ s s',
  wf s → this = VObj l ∨ this = VProxy l →
  heap s !! l = Some o1 → slot o1 = Some v → is_undefined v = false →
  Forall (λ c, c ≠ l ∧ leaf_client s c) cs →
  forEach (λ extendedPackage,
      f ← get_member host extendedPackage "setProvider";
      p ← get_member host this "currentProvider";
      emit (EvCall L124_setProvider f extendedPackage [p]);;
      apply host fuel f extendedPackage [p];; ret tt) (VProxy <$> cs) s = (Ret tt, s') →
  ∃ vs evs,
    length vs = length cs ∧ heap s' !! l = Some o1 ∧ log s' = log s ++ evs
    ∧ filter (λ e, is_slot_write e || is_propagation e) evs
      = concat (zip_with (λ c vc, [EvCall L124_setProvider (VNative NSetProvider) (VProxy c) [v];
                                   EvSlot c vc]) cs vs).
Proof.
  induction cs as [|c cs IH]; intros s s' Hwf Hthis Hl Hv Hdef Hcs H.
  - injection H as <-. exists [], []. by rewrite app_nil_r.
  - cbn [fmap list_fmap forEach] in H.
    apply Forall_cons in Hcs as [[Hcl Hleaf] Hcs].
    destruct Hleaf as (oc & Hc & [w Hw] & Hproto & Hpk & Hsp).
    pose proof (wf_lookup _ _ Hwf (mk_is_Some _ _ Hl)) as Hl_lt.
    pose proof (wf_lookup _ _ Hwf (mk_is_Some _ _ Hc)) as Hc_lt.
    apply bind_inv in H as [([] & sE & Hone & H)|(? & _ & ?)]; [|discriminate].
    pose proof (trail_refl s Hwf) as Ht0.
    track Hone Ht0 f sA Hf HtA.
    assert (f = VNative NSetProvider) as ->.
    { eapply (get_member_defined host (VProxy c) c oc "setProvider" (VNative NSetProvider) s);
        [by right|done|done| |done|exact Hf].
      intros h. unfold raw_get. rewrite own_get_props by done.
      rewrite Hsp, Hproto, proto_get_web3. reflexivity. }
    track Hone HtA p sB Hp HtB.
    assert (p = v) as ->.
    { eapply (get_member_defined host this l o1 "currentProvider" v sA);
        [done|by destruct HtA as [(_ & ? & _) _]|by eapply trail_kept| |done|exact Hp].
      intros h. apply raw_get_own. unfold own_get. by rewrite Hv. }
    rewrite run_bind in Hone. cbn [emit] in Hone.
    set (sC := mkState _ _ _) in Hone.
    apply bind_inv in Hone as [(u & sD & Hcall & Hone)|(? & _ & ?)]; [|discriminate].
    injection Hone as <-.
    destruct fuel as [|n]; [discriminate|].
    destruct HtB as [HpB (evB & HlB & HaB)].
    assert (HwfC : wf sC) by (by destruct HpB as (_ & ? & _)).
    assert (HnC : next s ≤ next sC) by (by destruct HpB as (? & _)).
    assert (HcC : heap sC !! c = Some oc) by (eapply kept; [exact HpB|done|done|tauto]).
    assert (HlC : heap sC !! l = Some o1) by (eapply kept; [exact HpB|done|done|tauto]).
    destruct (leaf_setProvider c oc n v sC u sD HwfC HcC (mk_is_Some _ _ Hw) Hpk Hcall)
      as (vc & evD & HwfD & HnD & HhD & HcD & HlD & HfD).
    assert (HlD' : heap sD !! l = Some o1).
    { rewrite HhD; [done|cbn in *; lia|done]. }
    assert (HcsD : Forall (λ c0, c0 ≠ l ∧ leaf_client sD c0) cs).
    { eapply Forall_impl; [exact Hcs|]. intros c0 [Hc0l (oc0 & Hc0 & Hs0 & Hp0 & Hk0 & Hsp0)].
      split; [done|]. destruct (decide (c0 = c)) as [->|Hne].
      - rewrite Hc in Hc0. injection Hc0 as <-. eexists. split; [exact HcD|]. by split_and!.
      - exists oc0. split; [|by split_and!].
        rewrite HhD; [|cbn in *; pose proof (wf_lookup _ _ Hwf (mk_is_Some _ _ Hc0)); lia|done].
        eapply kept; [exact HpB|done|by apply wf_lookup; [|eexists]|tauto]. }
    destruct (IH sD s' HwfD Hthis HlD' Hv Hdef HcsD H) as (vs & evs & Hlen & Hl' & Hlog & Hfil).
    exists (vc :: vs), (evB ++ [EvCall L124_setProvider (VNative NSetProvider) (VProxy c) [v]]
                         ++ evD ++ evs).
    split_and!; [cbn; by rewrite Hlen|done| |].
    + rewrite Hlog, HlD. unfold sC. cbn [log]. rewrite HlB. by rewrite <- !app_assoc.
    + rewrite filter_aside_app by done. cbn [app zip_with concat].
      rewrite filter_cons_True by done. rewrite filter_app, HfD, Hfil. reflexivity.
Qed.

(** X11. [setProvider] on a client whose extended packages are clients without
    extended packages of their own: when it returns, it has written the
    parent's closure variable with what the registry resolved the argument to,
    then called [setProvider] on each child, in the order of
    [extendedPackages], with the provider the parent holds by then (not with
    the argument), and each child has written its own closure variable. *)
Theorem setProvider_updates_the_parent_then_each_child
    fuel this l o q oq rs cs provider st r st' :
  wf st → this = VObj l ∨ this = VProxy l →
  heap st !! l = Some o → is_Some (slot o) →
  props o !! "extendedPackages" = Some (VArr (VProxy <$> cs)) →
  props o !! "providersPackage" = Some (VObj q) →
  heap st !! q = Some oq → own_get oq "resolve" = Some rs →
  (∀ s v, call_external host rs (VObj q) [provider] s = (Ret v, s) → is_undefined v = false) →
  Forall (λ c, c ≠ l ∧ leaf_client st c) cs →
  setProvider host fuel this provider st = (Ret r, st') →
  r = VUndefined
  ∧ ∃ v vs s,
      call_external host rs (VObj q) [provider] s = (Ret v, s)
      ∧ length vs = length cs
      ∧ slot_of st' l = Some v
      ∧ filter (λ e, is_slot_write e || is_propagation e) (drop (length (log st)) (log st'))
        = propagation l v cs vs.
Proof.
  intros Hwf Hthis Hl [w Hw] Hpk Hpp Hq Hrs Hres Hcs H.
  pose proof (wf_lookup _ _ Hwf (mk_is_Some _ _ Hl)) as Hl_lt.
  unfold setProvider in H. cbn [apply arg nth] in H. unfold setProvider_body in H.
  cbv zeta in H.
  apply bind_inv in H as [([] & s1 & Hset & H)|(? & _ & ?)]; [|discriminate].
  assert (Hset' : currentProvider_set host l this provider st = (Ret tt, s1)).
  { unfold set_member in Hset.
    destruct Hthis as [->| ->];
      rewrite (run_bind_ret _ _ _ _ _ (read_obj_some _ _ _ Hl)), Hw in Hset; exact Hset. }
  clear Hset.
  destruct (currentProvider_set_inv _ _ _ _ _ _ Hwf Hl Hset')
    as (v & pp & resolve & sa & sb & s & Hta & Hreadpp & Htb & Hresolve & Hcall
        & [Hp (ev0 & Hl0 & Ha0)] & ->).
  assert (pp = VObj q) as ->.
  { eapply (get_member_defined host this l o "providersPackage" (VObj q) sa);
      [done|by destruct Hta as [(_ & ? & _) _]|by eapply trail_kept| |done|exact Hreadpp].
    intros h. apply raw_get_own. by rewrite own_get_props. }
  rewrite (member_obj host _ _ _ _ (trail_kept _ _ _ _ Htb Hwf Hq)) in Hresolve.
  rewrite (raw_get_own _ _ _ _ _ Hrs) in Hresolve. injection Hresolve as <-.
  pose proof (Hres _ _ Hcall) as Hdef.
  set (o1 := mkObj (props o) (Some v) (proto o) (code o)) in *.
  set (s1 := mkState _ _ _) in H.
  assert (Hwfs : wf s) by (by destruct Hp as (_ & ? & _)).
  assert (Hns : next st ≤ next s) by (by destruct Hp as (? & _)).
  assert (Hwf1 : wf s1) by (apply wf_insert; [done|lia|done]).
  assert (Hl1 : heap s1 !! l = Some o1) by apply lookup_insert_eq.
  assert (Hh1 : ∀ x, x < next st → x ≠ l → heap s1 !! x = heap st !! x).
  { intros x Hx Hxl. cbn. rewrite lookup_insert_ne by done.
    destruct Hp as (_ & _ & Hh & _). apply Hh; [done|tauto]. }
  assert (Hread : ∀ sx sy packages, wf sx → heap sx !! l = Some o1 →
            get_member host this "extendedPackages" sx = (Ret packages, sy) →
            packages = VArr (VProxy <$> cs)).
  { intros sx sy packages Hwfx Hlx Hg.
    eapply (get_member_defined host this l o1 "extendedPackages" _ sx);
      [done|done|done| |done|exact Hg].
    intros h. apply raw_get_own. by rewrite own_get_props. }
  pose proof (trail_refl s1 Hwf1) as Ht1.
  track H Ht1 packages s2 Hpack Ht2.
  rewrite (Hread _ _ _ Hwf1 Hl1 Hpack) in H. clear packages Hpack.
  assert (Hfinish : ∀ sx evs vs,
            length vs = length cs → heap sx !! l = Some o1 →
            log sx = log s1 ++ evs →
            filter (λ e, is_slot_write e || is_propagation e) evs
            = concat (zip_with (λ c vc, [EvCall L124_setProvider (VNative NSetProvider)
                                           (VProxy c) [v]; EvSlot c vc]) cs vs) →
            ∃ v0 vs0 s0,
              call_external host rs (VObj q) [provider] s0 = (Ret v0, s0)
              ∧ length vs0 = length cs ∧ slot_of sx l = Some v0
              ∧ filter (λ e, is_slot_write e || is_propagation e)
                  (drop (length (log st)) (log sx)) = propagation l v0 cs vs0).
  { intros sx evs vs Hlen Hlx Hlog Hfil. exists v, vs, s. split_and!; [done|done| |].
    - unfold slot_of. by rewrite Hlx.
    - rewrite Hlog. unfold s1. cbn [log]. rewrite Hl0, <- !app_assoc, drop_app_length.
      rewrite filter_aside_app by done. cbn [app]. rewrite filter_cons_True by done.
      unfold propagation. by rewrite Hfil. }
  rewrite run_bind in H. cbn [member] in H. cbn [String.eqb Ascii.eqb Bool.eqb] in H.
  change (ret ?a ?b) with (Ret a, b) in H at 1. cbv beta iota in H.
  destruct Ht2 as [Hp2 (ev2 & Hl2 & Ha2)].
  assert (Hwf2 : wf s2) by (by destruct Hp2 as (_ & ? & _)).
  assert (Hl2' : heap s2 !! l = Some o1) by (eapply kept; [exact Hp2|done|cbn; lia|tauto]).
  destruct cs as [|c cs].
  { cbn in H. injection H as <- <-. split; [done|].
    apply (Hfinish s2 ev2 []); [done|done|done|]. cbn. by apply filter_aside. }
  rewrite run_bind in H. cbn [gt0 length fmap list_fmap] in H.
  change (ret ?a ?b) with (Ret a, b) in H at 1. cbv beta iota in H.
  replace (0 <? Z.of_nat (S (length (VProxy <$> cs))))%Z with true in H
    by (symmetry; apply Z.ltb_lt; lia).
  apply bind_inv in H as [([] & s4 & Hloop & H)|(? & _ & ?)]; [|discriminate].
  injection H as <- <-. split; [done|].
  pose proof (trail_refl s2 Hwf2) as Ht2'.
  track Hloop Ht2' packages s3 Hpack Ht3.
  rewrite (Hread _ _ _ Hwf2 Hl2' Hpack) in Hloop. clear packages Hpack.
  destruct Ht3 as [Hp3 (ev3 & Hl3 & Ha3)].
  assert (Hwf3 : wf s3) by (by destruct Hp3 as (_ & ? & _)).
  assert (Hl3' : heap s3 !! l = Some o1) by (eapply kept; [exact Hp3|done| |tauto];
    destruct Hp2 as (? & _); cbn in *; lia).
  assert (Hcs3 : Forall (λ c0, c0 ≠ l ∧ leaf_client s3 c0) (c :: cs)).
  { eapply Forall_impl; [exact Hcs|]. intros c0 [Hc0l Hleaf]. split; [done|].
    apply (leaf_client_kept st s3 c0 l Hwf Hc0l Hleaf).
    intros x Hx Hxl. destruct Hp3 as (_ & _ & Hh3 & _), Hp2 as (Hn2 & _ & Hh2 & _).
    rewrite Hh3 by (cbn in *; lia || tauto). rewrite Hh2 by (cbn in *; lia || tauto).
    by apply Hh1. }
  destruct (propagate_run fuel this l o1 v (c :: cs) s3 s4 Hwf3 Hthis Hl3' eq_refl Hdef Hcs3 Hloop)
    as (vs & evs & Hlen & Hl4 & Hlog4 & Hfil4).
  apply (Hfinish s4 (ev2 ++ ev3 ++ evs) vs); [done|done| |].
  - rewrite Hlog4, Hl3, Hl2. by rewrite <- !app_assoc.
  - by rewrite !filter_aside_app.
Qed.

End Propagation.


(** ** Registration of methods by extend *)

Lemma size_two (h : gmap loc Obj) a b x y :
  h !! a = Some x → h !! b = Some y → a ≠ b → ∃ k, size h = S (S k).
Proof.
  intros Ha Hb Hab.
  pose proof (map_size_delete_Some a h (mk_is_Some _ _ Ha)) as E.
  assert (Hd : delete a h !! b = Some y) by (by rewrite lookup_delete_ne).
  pose proof (map_size_ne_0_lookup_2 (delete a h) b (mk_is_Some _ _ Hd)) as Hne.
  destruct (size h) as [|[|k]]; cbn in E; [lia|lia|by exists k].
Qed.

Section Registration.
Context (host : Host).

(** Lines 166 to 198 for one descriptor: what is in the heap when they are
    done. *)
Lemma declare_inv method st out st' :
  declare_ExtensionMethodModel host method st = (out, st') →
  (globals host "AbstractMethodModel" = None → out = Throw (ReferenceError "AbstractMethodModel"))
  ∧ (∀ cls, out = Ret cls →
       ∃ amm parent s,
         globals host "AbstractMethodModel" = Some amm
         ∧ member host amm "prototype" s = (Ret parent, s)
         ∧ cls = S (next st) ∧ next st' = 5 + next st ∧ log st' = log st
         ∧ heap st' !! cls
           = Some (mkObj {["prototype" := VObj (4 + next st)]} None ProtoFunction
                         (Some (CExtensionMethodModel method)))
         ∧ heap st' !! (4 + next st)
           = Some (mkObj ∅ None (match parent with VObj l => ProtoAt l | _ => ProtoNone end) None)
         ∧ heap st' !! next st
           = Some (plain (<["afterExecution" := VObj (3 + next st)]>
                         (<["beforeExecution" := VObj (2 + next st)]> ∅)))
         ∧ heap st' !! (2 + next st) = Some (closure (CBeforeExecution method))
         ∧ heap st' !! (3 + next st) = Some (closure (CAfterExecution method))).
Proof.
  intros H. unfold declare_ExtensionMethodModel in H.
  run_alloc H. unfold allocated in H.
  run_alloc H. unfold allocated in H. cbn [heap next log] in H.
  run_alloc H. unfold allocated in H. cbn [heap next log] in H.
  run_set_prop H.
  run_alloc H. unfold allocated in H. cbn [heap next log] in H.
  run_set_prop H.
  rewrite run_bind in H. unfold lookup_global in H at 1.
  destruct (globals host "AbstractMethodModel") as [amm|] eqn:Hamm.
  2:{ injection H as <- _. split; [done|]. intros cls. discriminate. }
  split; [done|]. intros cls ->.
  change (ret amm ?s) with (Ret amm, s) in H. cbv beta iota in H.
  apply bind_inv in H as [(parent & s & Hpar & H)|(? & _ & ?)]; [|discriminate].
  pose proof (member_state _ _ _ _ _ _ Hpar) as ->.
  exists amm, parent. eexists. split; [done|]. split; [exact Hpar|].
  destruct parent; try discriminate.
  - rewrite run_bind in H. change (ret ProtoNone ?s) with (Ret ProtoNone, s) in H.
    cbv beta iota in H. run_alloc H. unfold allocated in H. cbn [heap next log] in H.
    run_set_prop H. injection H as <- <-. cbn [heap next log].
    split_and!; try reflexivity; look.
  - rewrite run_bind in H. change (ret (ProtoAt l) ?s) with (Ret (ProtoAt l), s) in H.
    cbv beta iota in H. run_alloc H. unfold allocated in H. cbn [heap next log] in H.
    run_set_prop H. injection H as <- <-. cbn [heap next log].
    split_and!; try reflexivity; look.
Qed.


(** X12. As the module is written [AbstractMethodModel] is not bound: [extend]
    without a namespace and with at least one method stops at line 198 of the
    first method with a ReferenceError, and no object that existed is changed,
    so nothing is registered. *)
Theorem extend_needs_AbstractMethodModel this extension property m ms st :
  wf st →
  globals host "AbstractMethodModel" = None →
  member host extension "property" st = (Ret property, st) → truthy property = false →
  member host extension "methods" st = (Ret (VArr (m :: ms)), st) →
  (extend host this extension st).1 = Throw (ReferenceError "AbstractMethodModel")
  ∧ ∀ x, is_Some (heap st !! x) → heap (extend host this extension st).2 !! x = heap st !! x.
Proof.
  intros Hwf Hamm Hprop Hfalsy Hmeth.
  unfold extend. rewrite (run_bind_ret _ _ _ _ _ Hprop). cbv zeta. rewrite Hfalsy.
  cbn [truthy]. rewrite run_bind. change (ret this st) with (Ret this, st). cbv beta iota.
  rewrite (run_bind_ret _ _ _ _ _ Hmeth). cbn [truthy].
  rewrite run_bind, (run_bind_ret _ _ _ _ _ Hmeth). cbn [forEach].
  rewrite !run_bind. unfold register_method. rewrite run_bind.
  destruct (declare_ExtensionMethodModel host m st) as [out s1] eqn:Hd.
  destruct (declare_inv _ _ _ _ Hd) as [Hout _]. rewrite (Hout Hamm). cbn.
  split; [done|]. intros x Hx.
  eapply untouched; [apply frame_declare|done|exact Hd|done].
Qed.

(** X13. Line 198 replaces the prototype on which lines 170 and 178 have put
    the two hooks: the hooks stay on an object that is no longer the prototype
    of the class, and an instance of the class sees, for every name that
    [AbstractMethodModel.prototype] defines, the member defined there. *)
Theorem model_instances_do_not_get_the_hooks method id p op name v args st cls s1 i s2 :
  wf st →
  globals host "AbstractMethodModel" = Some (VNative (NExternal id)) →
  ext_member host id "prototype" = VObj p →
  heap st !! p = Some op → own_get op name = Some v →
  declare_ExtensionMethodModel host method st = (Ret cls, s1) →
  ExtensionMethodModel host cls method args s1 = (Ret i, s2) →
  member host i name s2 = (Ret v, s2)
  ∧ ∃ first hook,
      own_member s2 first "afterExecution" = Some (VObj hook)
      ∧ (code <$> heap s2 !! hook) = Some (Some (CAfterExecution method))
      ∧ own_member s2 cls "prototype" ≠ Some (VObj first).
Proof.
  intros Hwf Hamm Hproto Hp Hv Hd Hnew.
  pose proof (wf_lookup _ _ Hwf (mk_is_Some _ _ Hp)) as Hp_lt.
  destruct (declare_inv _ _ _ _ Hd) as [_ Hinv].
  destruct (Hinv cls eq_refl)
    as (amm & parent & sx & Hamm' & Hpar & -> & Hn1 & Hl1 & Hcls & Hcreated & Hfirst & _ & Hafter).
  rewrite Hamm in Hamm'. injection Hamm' as <-.
  cbn [member] in Hpar. injection Hpar as <-. rewrite Hproto in Hcreated.
  pose proof (frame_declare host (next st) (λ _, False) method _ _ _ Hd ltac:(lia) Hwf) as Hp1.
  assert (Hp1' : heap s1 !! p = Some op) by (eapply kept; [exact Hp1|done|done|tauto]).
  unfold ExtensionMethodModel in Hnew.
  rewrite (run_bind_ret _ _ _ _ _ (member_obj host _ _ "prototype" _ Hcls)) in Hnew.
  rewrite (raw_get_own host _ _ _ (VObj (4 + next st))) in Hnew by reflexivity.
  rewrite run_bind in Hnew. cbn [proto_of] in Hnew.
  change (ret (ProtoAt ?l) ?s) with (Ret (ProtoAt l), s) in Hnew. cbv beta iota in Hnew.
  run_alloc Hnew. unfold allocated in Hnew.
  rewrite run_bind in Hnew. unfold lookup_global in Hnew at 1. rewrite Hamm in Hnew.
  change (ret ?a ?s) with (Ret a, s) in Hnew at 1. cbv beta iota in Hnew.
  run_member Hnew mc. run_member Hnew mp.
  apply bind_inv in Hnew as [(u & s & Hcall & Hnew)|(? & _ & ?)]; [|discriminate].
  apply call_collab_inv in Hcall as [-> _]. injection Hnew as <- <-.
  unfold logged. cbn [heap next log]. rewrite Hn1. split.
  - erewrite member_obj by look. unfold raw_get. cbn [own_get slot props proto].
    rewrite lookup_empty.
    set (h := <[_ := _]> (heap s1)).
    assert (H1 : h !! (5 + next st) = Some (mkObj ∅ None (ProtoAt (4 + next st)) None)).
    { unfold h. apply lookup_insert_eq. }
    assert (H2 : h !! (4 + next st) = Some (mkObj ∅ None (ProtoAt p) None)).
    { unfold h. rewrite lookup_insert_ne by lia. exact Hcreated. }
    assert (H3 : h !! p = Some op).
    { unfold h. rewrite lookup_insert_ne by lia. exact Hp1'. }
    cbn [heap].
    destruct (size_two h _ _ _ _ H1 H2 ltac:(lia)) as [k ->].
    cbn [proto_get Nat.add] in H2 |- *. rewrite H2. cbn [own_get slot props proto]. rewrite lookup_empty.
    rewrite H3, Hv. reflexivity.
  - exists (next st), (3 + next st). unfold own_member. cbn [heap].
    rewrite !lookup_insert_ne by lia. rewrite Hfirst, Hafter, Hcls. cbn.
    rewrite lookup_insert_eq, lookup_singleton_eq.
    split_and!; [reflexivity|reflexivity|]. intros [= E]. lia.
Qed.

Lemma set_member_table MM om n x st :
  heap st !! MM = Some om → slot om = None →
  set_member host (VObj MM) n x st
  = (Ret tt, mkState (<[MM := mkObj (<[n := x]> (props om)) None (proto om) (code om)]> (heap st))
                     (next st) (log st)).
Proof. apply set_member_plain. Qed.

(** One turn of the loop of line 165, on the receiver's own table. *)
Lemma register_method_post this l o F fo MM om d od n st st' :
  wf st → this = VObj l ∨ this = VProxy l →
  heap st !! l = Some o → own_get o "methodModelFactory" = Some (VObj F) →
  heap st !! F = Some fo → own_get fo "methodModels" = Some (VObj MM) →
  heap st !! MM = Some om → slot om = None → MM ≠ l → MM ≠ F →
  heap st !! d = Some od → d ≠ MM → own_get od "name" = Some (VStr n) →
  register_method host this (VObj d) st = (Ret tt, st') →
  wf st' ∧ next st ≤ next st'
  ∧ (∀ x, x < next st → x ≠ MM → heap st' !! x = heap st !! x)
  ∧ ∃ cls ocls,
      next st ≤ cls ∧ heap st' !! cls = Some ocls
      ∧ code ocls = Some (CExtensionMethodModel (VObj d))
      ∧ heap st' !! MM = Some (mkObj (<[n := VObj cls]> (props om)) None (proto om) (code om)).
Proof.
  intros Hwf Hthis Hl Hfac HF Hmm HMM Hslot HMl HMF Hd HdM Hname H.
  pose proof (wf_lookup _ _ Hwf (mk_is_Some _ _ Hl)) as Hl_lt.
  pose proof (wf_lookup _ _ Hwf (mk_is_Some _ _ HF)) as HF_lt.
  pose proof (wf_lookup _ _ Hwf (mk_is_Some _ _ HMM)) as HM_lt.
  pose proof (wf_lookup _ _ Hwf (mk_is_Some _ _ Hd)) as Hd_lt.
  unfold register_method in H.
  apply bind_inv in H as [(cls & s1 & Hcls & H)|(? & _ & ?)]; [|discriminate].
  destruct (declare_inv _ _ _ _ Hcls) as [_ Hinv].
  destruct (Hinv cls eq_refl) as (amm & parent & sx & _ & _ & -> & Hn1 & _ & Hc1 & _).
  pose proof (frame_declare host (next st) (λ _, False) (VObj d) _ _ _ Hcls ltac:(lia) Hwf) as Hp1.
  assert (Hwf1 : wf s1) by (by destruct Hp1 as (_ & ? & _)).
  pose proof (preserved_refl (next s1) (λ _, False) s1 Hwf1) as Hp.
  advr H Hp factory s2 Hfac2. clear Hs.
  assert (factory = VObj F) as ->.
  { eapply (get_member_defined host this l o "methodModelFactory" (VObj F) s1);
      [done|done|eapply kept; [exact Hp1|done|done|tauto]|by intros; apply raw_get_own|done
      |exact Hfac2]. }
  assert (K : ∀ x ox, heap st !! x = Some ox → x < next st → heap s2 !! x = Some ox).
  { intros x ox Hx Hlt. eapply kept; [exact Hp| |lia|tauto].
    eapply kept; [exact Hp1|done|done|tauto]. }
  rewrite (run_bind_ret _ _ _ _ _ (member_obj host _ _ _ _ (K _ _ HF HF_lt))) in H.
  rewrite (raw_get_own _ _ _ _ _ Hmm) in H.
  rewrite (run_bind_ret _ _ _ _ _ (member_obj host _ _ _ _ (K _ _ Hd Hd_lt))) in H.
  rewrite (raw_get_own _ _ _ _ _ Hname) in H.
  rewrite run_bind in H. cbn [to_key] in H. change (ret n s2) with (Ret n, s2) in H.
  cbv beta iota in H.
  rewrite (set_member_table _ _ _ _ _ (K _ _ HMM HM_lt) Hslot) in H. injection H as <-.
  assert (Hwf2 : wf s2) by (by destruct Hp as (_ & ? & _)).
  assert (Hn2 : next s1 ≤ next s2) by (by destruct Hp as (? & _)).
  split_and!.
  - apply wf_insert; [done| |lia]. apply wf_lookup; [done|]. eexists. by apply K.
  - cbn. lia.
  - intros x Hx HxM. cbn. rewrite lookup_insert_ne by done.
    destruct Hp as (_ & _ & Hh & _). rewrite Hh by (lia || tauto).
    destruct Hp1 as (_ & _ & Hh1 & _). apply Hh1; [done|tauto].
  - eexists (S (next st)), _. split; [lia|]. split_and!.
    + cbn. rewrite lookup_insert_ne by lia. eapply kept; [exact Hp|exact Hc1|lia|tauto].
    + reflexivity.
    + cbn. apply lookup_insert_eq.
Qed.


Lemma register_methods_post this l o F fo MM ms : ∀ om st st',
  wf st → this = VObj l ∨ this = VProxy l →
  heap st !! l = Some o → own_get o "methodModelFactory" = Some (VObj F) →
  heap st !! F = Some fo → own_get fo "methodModels" = Some (VObj MM) →
  heap st !! MM = Some om → slot om = None → MM ≠ l → MM ≠ F →
  Forall (descriptor_in st MM) ms →
  forEach (register_method host this) ms st = (Ret tt, st') →
  wf st' ∧ next st ≤ next st'
  ∧ (∀ x, x < next st → x ≠ MM → heap st' !! x = heap st !! x)
  ∧ ∃ om', heap st' !! MM = Some om' ∧ slot om' = None
      ∧ (∀ k, props om' !! k = props om !! k ∨ registered_by st st' ms om' k)
      ∧ (∀ d od n, VObj d ∈ ms → heap st !! d = Some od → own_get od "name" = Some (VStr n) →
           registered_by st st' ms om' n).
Proof.
  induction ms as [|m rest IH]; intros om st st' Hwf Hthis Hl Hfac HF Hmm HMM Hslot HMl HMF Hds H.
  - injection H as <-. split_and!; [done|lia|done|].
    exists om. split_and!; [done|done|by left|]. intros d od n Hin. by apply elem_of_nil in Hin.
  - cbn [forEach] in H.
    apply bind_inv in H as [([] & s1 & H1 & H)|(? & _ & ?)]; [|discriminate].
    apply Forall_cons in Hds as [(d0 & od0 & n0 & -> & Hd0M & Hd0 & Hn0) Hrest].
    pose proof (wf_lookup _ _ Hwf (mk_is_Some _ _ Hl)) as Hl_lt.
    pose proof (wf_lookup _ _ Hwf (mk_is_Some _ _ HF)) as HF_lt.
    pose proof (wf_lookup _ _ Hwf (mk_is_Some _ _ HMM)) as HM_lt.
    destruct (register_method_post this l o F fo MM om d0 od0 n0 st s1 Hwf Hthis Hl Hfac HF Hmm
                HMM Hslot HMl HMF Hd0 Hd0M Hn0 H1)
      as (Hwf1 & Hn1 & Hfr1 & cls0 & ocls0 & Hcls0 & Hc0 & Hcode0 & HMM1).
    set (om1 := mkObj (<[n0 := VObj cls0]> (props om)) None (proto om) (code om)) in *.
    assert (Hsame : ∀ x ox, heap st !! x = Some ox → x ≠ MM → heap s1 !! x = Some ox).
    { intros x ox Hx HxM. rewrite Hfr1; [done| |done]. apply wf_lookup; [done|by eexists]. }
    assert (Hrest1 : Forall (descriptor_in s1 MM) rest).
    { eapply Forall_impl; [exact Hrest|]. intros m (d & od & n & -> & HdM & Hd & Hn).
      exists d, od, n. split_and!; try done. by apply Hsame. }
    destruct (IH om1 s1 st' Hwf1 Hthis (Hsame _ _ Hl (not_eq_sym HMl)) Hfac
                (Hsame _ _ HF (not_eq_sym HMF)) Hmm HMM1 eq_refl HMl HMF Hrest1 H)
      as (Hwf' & Hn' & Hfr' & om' & HMM' & Hslot' & Hkeys & Hreg).
    assert (Hup : ∀ k, registered_by s1 st' rest om' k → registered_by st st' (VObj d0 :: rest) om' k).
    { intros k (cls & ocls & d & od & Hk & Hge & Hc & Hcode & Hin & Hd & Hn).
      exists cls, ocls, d, od. split_and!; try done; [lia|by right|].
      apply Forall_forall with (x := VObj d) in Hrest; [|done].
      destruct Hrest as (d' & od' & n' & [= <-] & HdM & Hd' & _).
      rewrite <- Hd. symmetry. apply Hfr1; [|done]. apply wf_lookup; [done|by eexists]. }
    assert (Hhead : ∀ k, props om' !! k = props om1 !! k → k = n0 →
              registered_by st st' (VObj d0 :: rest) om' k).
    { intros k Hk ->. exists cls0, ocls0, d0, od0.
      split_and!; try done.
      - rewrite Hk. unfold om1. cbn. apply lookup_insert_eq.
      - rewrite Hfr'; [done| |lia]. apply wf_lookup; [done|by eexists].
      - by left. }
    assert (Hall : ∀ k, props om' !! k = props om !! k
                        ∨ registered_by st st' (VObj d0 :: rest) om' k).
    { intros k. destruct (Hkeys k) as [Hk|Hk]; [|right; by apply Hup].
      destruct (decide (k = n0)) as [->|Hne]; [right; by apply Hhead|].
      left. rewrite Hk. unfold om1. cbn. by rewrite lookup_insert_ne. }
    split_and!; [done|lia| |].
    + intros x Hx HxM. rewrite Hfr' by (lia || done). by apply Hfr1.
    + exists om'. split_and!; [done|done|exact Hall|].
      intros d od n Hin Hd Hn. apply elem_of_cons in Hin as [[= ->]|Hin].
      * rewrite Hd0 in Hd. injection Hd as <-. rewrite Hn0 in Hn. injection Hn as <-.
        destruct (Hkeys n0) as [Hk|Hk]; [by apply Hhead|by apply Hup].
      * apply Hup. eapply Hreg; [done| |done].
        apply Forall_forall with (x := VObj d) in Hrest; [|done].
        destruct Hrest as (d' & od' & n' & [= <-] & HdM & Hd' & _).
        rewrite <- Hd. apply Hfr1; [|done]. apply wf_lookup; [done|by eexists].
Qed.

(** X14. [extend] without a namespace registers on the receiver's own factory:
    when the call returns, every descriptor's name is bound, in the table
    [methodModels] of that factory, to a class synthesised by the call for a
    descriptor of that name; every other entry of the table is as it was, and
    no other object that existed is changed. *)
Theorem extend_registers_on_the_receiver this l o F fo MM om extension property ms st st' :
  wf st → this = VObj l ∨ this = VProxy l →
  heap st !! l = Some o → own_get o "methodModelFactory" = Some (VObj F) →
  heap st !! F = Some fo → own_get fo "methodModels" = Some (VObj MM) →
  heap st !! MM = Some om → slot om = None → MM ≠ l → MM ≠ F →
  member host extension "property" st = (Ret property, st) → truthy property = false →
  member host extension "methods" st = (Ret (VArr ms), st) →
  Forall (descriptor_in st MM) ms →
  extend host this extension st = (Ret VUndefined, st') →
  (∀ x, is_Some (heap st !! x) → x ≠ MM → heap st' !! x = heap st !! x)
  ∧ ∃ om', heap st' !! MM = Some om'
      ∧ (∀ k, props om' !! k = props om !! k ∨ registered_by st st' ms om' k)
      ∧ (∀ d od n, VObj d ∈ ms → heap st !! d = Some od → own_get od "name" = Some (VStr n) →
           registered_by st st' ms om' n).
Proof.
  intros Hwf Hthis Hl Hfac HF Hmm HMM Hslot HMl HMF Hprop Hfalsy Hmeth Hds H.
  unfold extend in H. rewrite (run_bind_ret _ _ _ _ _ Hprop) in H. cbv zeta in H.
  rewrite Hfalsy in H. cbn [truthy] in H. rewrite run_bind in H.
  change (ret this st) with (Ret this, st) in H. cbv beta iota in H.
  rewrite (run_bind_ret _ _ _ _ _ Hmeth) in H. cbn [truthy] in H.
  rewrite run_bind, (run_bind_ret _ _ _ _ _ Hmeth) in H.
  destruct (forEach (register_method host this) ms st) as [[[]|e] s1] eqn:Hloop; [|discriminate].
  injection H as <-.
  destruct (register_methods_post this l o F fo MM ms om st s1 Hwf Hthis Hl Hfac HF Hmm HMM Hslot
              HMl HMF Hds Hloop) as (_ & _ & Hfr & om' & HMM' & _ & Hkeys & Hreg).
  split.
  - intros x Hx HxM. apply Hfr; [by apply wf_lookup|done].
  - exists om'. by split_and!.
Qed.

End Registration.


(** ** extend with a namespace *)

Section Children.
Context (host : Host).

(** Lines 152 to 159, when they return: the child and what the parent holds
    afterwards. *)
Lemma new_namespace_run this l o F fo xs pp mc key st object st' :
  this = VObj l ∨ this = VProxy l →
  wf st → heap st !! l = Some o →
  proto o = ProtoWeb3Object → own_get o "constructor" = None →
  own_get o "methodModelFactory" = Some (VObj F) →
  heap st !! F = Some fo → proto fo = ProtoFactory → own_get fo "constructor" = None →
  own_get o "extendedPackages" = Some (VArr xs) →
  own_get o "providersPackage" = Some pp → is_undefined pp = false →
  own_get o "methodController" = Some mc → is_undefined mc = false →
  String.eqb key "currentProvider" = false → String.eqb key "extendedPackages" = false →
  new_namespace host this (VStr key) st = (Ret object, st') →
  ∃ c oc f' of' mm',
    object = VProxy c ∧ next st ≤ mm' ∧ mm' < f' ∧ f' < c ∧ wf st'
    ∧ heap st' !! c = Some oc ∧ slot oc = Some VNull
    ∧ props oc !! "providersPackage" = Some pp
    ∧ props oc !! "methodController" = Some mc
    ∧ props oc !! "extendedPackages" = Some (VArr [])
    ∧ props oc !! "methodModelFactory" = Some (VObj f')
    ∧ heap st' !! f' = Some of' ∧ own_get of' "methodModels" = Some (VObj mm')
    ∧ heap st' !! mm' = Some (plain ∅)
    ∧ heap st' !! l
      = Some (mkObj (<["extendedPackages" := VArr (xs ++ [VProxy c])]>
                    (<[key := VProxy c]> (props o))) (slot o) (proto o) (code o))
    ∧ (∀ x, x < next st → x ≠ l → heap st' !! x = heap st !! x).
Proof.
  intros Hthis Hwf Hl Hproto Hctor Hfac HF HFproto HFctor Hxs Hpp Hppd Hmc Hmcd Hk1 Hk2 H.
  pose proof (wf_lookup _ _ Hwf (mk_is_Some _ _ Hl)) as Hl_lt.
  pose proof (wf_lookup _ _ Hwf (mk_is_Some _ _ HF)) as HF_lt.
  assert (Hrawc : ∀ h, raw_get host h o "constructor" = VNative NAbstractWeb3Object).
  { intros h. unfold raw_get. by rewrite Hctor, Hproto, proto_get_web3. }
  pose proof (preserved_refl (next st) (λ _, False) st Hwf) as Hp.
  assert (Hread : ∀ name t s sx v,
            preserved (next st) (λ _, False) st s →
            (∀ h, raw_get host h o name = t) → is_undefined t = false →
            get_member host this name s = (Ret v, sx) → v = t).
  { intros name t s sx v Hps Hraw Hdef Hg.
    eapply (get_member_defined host this l o name t s);
      [done|by destruct Hps as (_ & ? & _)|eapply kept; [exact Hps|done|done|tauto]
      |done|done|exact Hg]. }
  unfold new_namespace in H.
  advr H Hp ctor s1 Hc.
  rewrite (Hread _ _ _ _ _ Hs Hrawc eq_refl Hc) in H. clear Hs ctor Hc.
  advr H Hp provider s2 Hv2. clear Hs.
  advr H Hp providersPackage s3 Hv3.
  rewrite (Hread _ pp _ _ _ Hs (λ h, raw_get_own host h o _ _ Hpp) Hppd Hv3) in H.
  clear Hs providersPackage Hv3.
  advr H Hp methodController s4 Hv4.
  rewrite (Hread _ mc _ _ _ Hs (λ h, raw_get_own host h o _ _ Hmc) Hmcd Hv4) in H.
  clear Hs methodController Hv4.
  advr H Hp f1 s5 Hv5.
  rewrite (Hread _ (VObj F) _ _ _ Hs (λ h, raw_get_own host h o _ _ Hfac) eq_refl Hv5) in H.
  clear Hs f1 Hv5.
  assert (HF5 : heap s5 !! F = Some fo) by (eapply kept; eauto).
  rewrite (run_bind_ret _ _ _ _ _ (member_obj _ _ _ _ _ HF5)) in H.
  assert (E : raw_get host (heap s5) fo "constructor" = VNative NMethodModelFactory).
  { unfold raw_get. by rewrite HFctor, HFproto, proto_get_factory. }
  rewrite E in H. clear E.
  advr H Hp f2 s6 Hv6. clear Hs. run_member H utils.
  advr H Hp f3 s7 Hv7. clear Hs. run_member H formatters.
  rewrite (run_bind_ret _ _ _ _ _ (construct_factory_run _ _ _ _)) in H.
  set (mm' := next s7) in *. set (f' := S mm') in *.
  set (of' := mkObj _ None ProtoFactory None) in H.
  set (s8 := mkState _ _ _) in H.
  assert (Hwf7 : wf s7) by (by destruct Hp as (_ & ? & _)).
  assert (Hn7 : next st ≤ next s7) by (by destruct Hp as (? & _)).
  assert (Hwf8 : wf s8).
  { pose proof (wf_insert s7 mm' (plain ∅) (S mm') (log s7) Hwf7 ltac:(lia)
                  ltac:(unfold mm'; lia)) as Hw1.
    exact (wf_insert _ f' of' (S f') _ Hw1 ltac:(lia) ltac:(cbn; lia)). }
  apply bind_inv in H as [(child & s9 & Hchild & H)|(? & _ & ?)]; [|discriminate].
  apply construct_client_inv in Hchild.
  set (s8' := logged _ s8) in Hchild.
  assert (Hwf8' : wf s8') by done.
  destruct (AbstractWeb3Object_members host _ _ _ _ Hchild)
    as (oc & detect & given & http & ipc & ws & sx & sy & -> & Hn9 & _ & Hc9 & Hslot & _ & _
        & Hprops & _).
  pose proof (frame_AbstractWeb3Object host (next s8') (λ _, False) _ _ _ _ Hchild
                ltac:(lia) Hwf8') as Hp9.
  change (next s8') with (S f') in *. cbn [arg nth] in Hprops.
  set (c := S f') in *.
  assert (Hwf9 : wf s9) by (by destruct Hp9 as (_ & ? & _)).
  assert (K9 : ∀ x ox, heap st !! x = Some ox → x < next st → heap s9 !! x = Some ox).
  { intros x ox Hx Hlt. eapply kept; [exact Hp9| |unfold c, f'; lia|tauto].
    cbn. rewrite !lookup_insert_ne by (unfold f'; lia). eapply kept; eauto. }
  assert (Hf9 : heap s9 !! f' = Some of').
  { eapply kept; [exact Hp9| |unfold c; lia|tauto]. cbn. apply lookup_insert_eq. }
  assert (Hm9 : heap s9 !! mm' = Some (plain ∅)).
  { eapply kept; [exact Hp9| |unfold c, f'; lia|tauto]. cbn.
    rewrite lookup_insert_ne by (unfold f'; lia). apply lookup_insert_eq. }
  rewrite run_bind in H. cbn [to_key] in H. change (ret key s9) with (Ret key, s9) in H.
  cbv beta iota in H.
  assert (Hset : set_member host this key (VProxy c) s9
                 = (Ret tt, mkState (<[l := mkObj (<[key := VProxy c]> (props o)) (slot o)
                                                  (proto o) (code o)]> (heap s9))
                                    (next s9) (log s9))).
  { unfold set_member.
    destruct Hthis as [->| ->];
      rewrite (run_bind_ret _ _ _ _ _ (read_obj_some _ _ _ (K9 _ _ Hl Hl_lt)));
      rewrite Hk1; destruct (slot o) eqn:Hso;
      rewrite (set_prop_some _ _ _ _ _ (K9 _ _ Hl Hl_lt)), ?Hso; reflexivity. }
  rewrite (run_bind_ret _ _ _ _ _ Hset) in H. clear Hset.
  set (o1 := mkObj (<[key := VProxy c]> (props o)) (slot o) (proto o) (code o)) in *.
  set (s10 := mkState _ _ _) in H.
  assert (Hc_lt : c < next s9) by (rewrite Hn9; cbn; lia).
  assert (Hwf10 : wf s10) by (apply wf_insert; [done|lia|done]).
  assert (Hl10 : heap s10 !! l = Some o1) by apply lookup_insert_eq.
  apply bind_inv in H as [(packages & s11 & Hpack & H)|(? & _ & ?)]; [|discriminate].
  assert (packages = VArr xs) as ->.
  { eapply (get_member_defined host this l o1 "extendedPackages" (VArr xs) s10);
      [done|done|done| |done|exact Hpack].
    intros h. apply raw_get_own. rewrite own_get_props by done. unfold o1. cbn [props].
    rewrite lookup_insert_ne by (intros ->; by rewrite String.eqb_refl in Hk2).
    by rewrite <- (own_get_props o "extendedPackages"). }
  pose proof (frame_get_member host (next s10) (λ _, False) this "extendedPackages" _ _ _ Hpack
                ltac:(lia) Hwf10) as Hp11.
  assert (Hl11 : heap s11 !! l = Some o1) by (eapply kept; [exact Hp11|done|cbn; lia|tauto]).
  assert (Hfin : set_prop l "extendedPackages" (VArr (xs ++ [VProxy c])) s11
                 = (Ret tt, mkState (<[l := mkObj (<["extendedPackages" := VArr (xs ++ [VProxy c])]>
                                                     (props o1)) (slot o1) (proto o1) (code o1)]>
                                       (heap s11)) (next s11) (log s11)))
    by (by apply set_prop_some).
  assert (Hobj : object = VProxy c
                 ∧ st' = mkState (<[l := mkObj (<["extendedPackages" := VArr (xs ++ [VProxy c])]>
                                                  (props o1)) (slot o1) (proto o1) (code o1)]>
                                    (heap s11)) (next s11) (log s11)).
  { destruct Hthis as [->| ->]; rewrite (run_bind_ret _ _ _ _ _ Hfin) in H;
      by injection H as <- <-. }
  destruct Hobj as [-> ->].
  assert (K11 : ∀ x ox, heap s9 !! x = Some ox → x ≠ l →
                <[l := mkObj (<["extendedPackages" := VArr (xs ++ [VProxy c])]> (props o1))
                             (slot o1) (proto o1) (code o1)]> (heap s11) !! x = Some ox).
  { intros x ox Hx Hxl. rewrite lookup_insert_ne by done.
    eapply kept; [exact Hp11| | |tauto].
    - cbn. by rewrite lookup_insert_ne.
    - cbn. apply wf_lookup; [done|by eexists]. }
  exists c, oc, f', of', mm'. cbn [heap].
  split_and!; try done; try (unfold c, f', mm'; lia).
  - apply wf_insert; [by destruct Hp11 as (_ & ? & _)| |done].
    destruct Hp11 as (? & _). cbn in *. lia.
  - apply K11; [done|unfold c, f', mm'; lia].
  - by rewrite Hprops.
  - by rewrite Hprops.
  - by rewrite Hprops.
  - by rewrite Hprops.
  - apply K11; [done|unfold f', mm'; lia].
  - apply K11; [done|unfold mm'; lia].
  - apply lookup_insert_eq.
  - intros x Hx Hxl. destruct (heap st !! x) as [ox|] eqn:Hox.
    + apply K11; [|done]. by apply K9.
    + rewrite lookup_insert_ne by done.
      destruct Hp11 as (_ & _ & Hh11 & _). rewrite Hh11 by (cbn in *; lia || tauto).
      cbn. rewrite lookup_insert_ne by done.
      destruct Hp9 as (_ & _ & Hh9 & _). rewrite Hh9 by (cbn; unfold c, f', mm'; lia || tauto).
      cbn. rewrite !lookup_insert_ne by (unfold f', mm'; lia).
      destruct Hp as (_ & _ & Hh & _). rewrite Hh by (done || tauto). done.
Qed.


(** X19. [extend] with a namespace, when it returns: one child was
    constructed; it is stored on the parent under the namespace and appended
    to the parent's [extendedPackages]; it has the parent's providers package
    and method controller, no extended packages of its own, and reads null as
    its provider whatever the parent holds; nothing else that existed is
    changed. *)
Theorem extend_with_a_namespace_adds_one_child
    this l o F fo xs pp mc extension key st st' :
  wf st → this = VObj l ∨ this = VProxy l →
  heap st !! l = Some o →
  proto o = ProtoWeb3Object → own_get o "constructor" = None →
  own_get o "methodModelFactory" = Some (VObj F) →
  heap st !! F = Some fo → proto fo = ProtoFactory → own_get fo "constructor" = None →
  own_get o "extendedPackages" = Some (VArr xs) →
  own_get o "providersPackage" = Some pp → is_undefined pp = false →
  own_get o "methodController" = Some mc → is_undefined mc = false →
  member host extension "property" st = (Ret (VStr key), st) →
  key ≠ "" → key ≠ "currentProvider" → key ≠ "extendedPackages" →
  extend host this extension st = (Ret VUndefined, st') →
  ∃ c oc,
    heap st !! c = None
    ∧ own_member st' l key = Some (VProxy c)
    ∧ own_member st' l "extendedPackages" = Some (VArr (xs ++ [VProxy c]))
    ∧ heap st' !! c = Some oc
    ∧ slot oc = Some VNull
    ∧ props oc !! "providersPackage" = Some pp
    ∧ props oc !! "methodController" = Some mc
    ∧ props oc !! "extendedPackages" = Some (VArr [])
    ∧ (∀ x, is_Some (heap st !! x) → x ≠ l → heap st' !! x = heap st !! x).
Proof.
  intros Hwf Hthis Hl Hproto Hctor Hfac HF HFproto HFctor Hxs Hpp Hppd Hmc Hmcd Hprop
         Hk0 Hk1 Hk2 H.
  apply String.eqb_neq in Hk0, Hk1, Hk2.
  pose proof (wf_lookup _ _ Hwf (mk_is_Some _ _ Hl)) as Hl_lt.
  unfold extend in H. rewrite (run_bind_ret _ _ _ _ _ Hprop) in H. cbv zeta in H.
  cbn [truthy] in H. rewrite Hk0 in H. cbn [negb truthy] in H. rewrite Hk0 in H.
  cbn [negb] in H.
  apply bind_inv in H as [(object & s1 & Hns & H)|(? & _ & ?)]; [|discriminate].
  destruct (new_namespace_run this l o F fo xs pp mc key st object s1 Hthis Hwf Hl Hproto Hctor
              Hfac HF HFproto HFctor Hxs Hpp Hppd Hmc Hmcd Hk1 Hk2 Hns)
    as (c & oc & f' & of' & mm' & -> & Hge1 & Hge2 & Hge3 & Hwf1 & Hc & Hslot & Hcpp & Hcmc
        & Hcx & Hcf & Hf' & Hfm & Hm & Hl1 & Hfr).
  pose proof (wf_lookup _ _ Hwf1 (mk_is_Some _ _ Hc)) as Hc_lt.
  pose proof (wf_lookup _ _ Hwf1 (mk_is_Some _ _ Hl1)) as Hl1_lt.
  assert (Hp : preserved (next s1) (λ x, x = mm') s1 st').
  { apply bind_inv in H as [(methods & sx & Hmeth & H)|(? & _ & ?)]; [|discriminate].
    apply member_state in Hmeth as ->.
    apply bind_inv in H as [([] & s2 & Hreg & H)|(? & _ & ?)]; [|discriminate].
    injection H as <-.
    destruct (truthy methods); [|injection Hreg as <-; by apply preserved_refl].
    apply bind_inv in Hreg as [(methods' & sy & Hm' & Hreg)|(? & _ & ?)]; [|discriminate].
    apply member_state in Hm' as ->.
    destruct methods' as [| | | | |ms| | |]; try discriminate.
    eapply (register_methods_inv host c f' mm' oc of' ms s1); try done.
    - rewrite own_get_props by done. exact Hcf.
    - exists (plain ∅). by split.
    - lia.
    - lia. }
  assert (K : ∀ x ox, heap s1 !! x = Some ox → x ≠ mm' → heap st' !! x = Some ox).
  { intros x ox Hx Hxm. eapply kept; [exact Hp|done| |done].
    apply wf_lookup; [done|by eexists]. }
  exists c, oc. split_and!; try done.
  - destruct (heap st !! c) as [ox|] eqn:Hox; [|done].
    pose proof (wf_lookup _ _ Hwf (mk_is_Some _ _ Hox)). lia.
  - unfold own_member. rewrite (K _ _ Hl1 ltac:(lia)). cbn [mbind option_bind].
    rewrite own_get_props by done. cbn [props].
    rewrite lookup_insert_ne by (intros <-; by rewrite String.eqb_refl in Hk2).
    apply lookup_insert_eq.
  - unfold own_member. rewrite (K _ _ Hl1 ltac:(lia)). cbn [mbind option_bind].
    rewrite own_get_props by done. cbn [props]. apply lookup_insert_eq.
  - apply K; [done|lia].
  - intros x Hx Hxl. pose proof (wf_lookup _ _ Hwf Hx) as Hx_lt.
    destruct Hp as (_ & _ & Hh & _). rewrite Hh by (lia || (cbv beta; lia)).
    by apply Hfr.
Qed.

End Children.


(** ** The hooks of a synthesised model *)

Section AfterExecution.
Context (host : Host).

Lemma format_item_eq method id x st s :
  member host method "outputFormatter" st = (Ret (VNative (NExternal id)), st) →
  heap s = heap st →
  format_item host method x s
  = if truthy x
    then (ext_call host id (heap st) method [x],
          logged (EvCall L182_outputFormatter (VNative (NExternal id)) method [x]) s)
    else (Ret x, s).
Proof.
  intros Hfmt Hh. pose proof (member_heap_only host _ _ _ _ s Hfmt Hh) as Hs.
  unfold format_item. rewrite (run_bind_ret _ _ _ _ _ Hs). cbn [truthy andb].
  destruct (truthy x); [|reflexivity].
  rewrite (run_bind_ret _ _ _ _ _ Hs). unfold call_collab. rewrite run_bind. cbn [emit].
  cbn [call_external]. rewrite run_bind. cbn [get_heap heap of_outcome]. unfold of_outcome, logged. by rewrite ?Hh.
Qed.

Lemma format_items_run method id g items : ∀ st s,
  member host method "outputFormatter" st = (Ret (VNative (NExternal id)), st) →
  heap s = heap st →
  (∀ x, x ∈ items → truthy x = true → ext_call host id (heap st) method [x] = Ret (g x)) →
  mapM (format_item host method) items s
  = (Ret (map (λ x, if truthy x then g x else x) items),
     relog (log s ++ formatter_calls (VNative (NExternal id)) method items) s).
Proof.
  induction items as [|x items IH]; intros st s Hfmt Hh Hg.
  - cbn. unfold ret, relog, formatter_calls. cbn. rewrite app_nil_r. by destruct s.
  - cbn [mapM map]. rewrite run_bind, (format_item_eq method id x st s Hfmt Hh).
    unfold formatter_calls.
    destruct (truthy x) eqn:Hx.
    + rewrite filter_cons_True by (cbv beta; rewrite Hx; exact I). rewrite (Hg x) by (done || left).
      rewrite run_bind, (IH st) by (done || (intros; apply Hg; [by right|done])).
      unfold ret, relog, logged, formatter_calls. cbn. by rewrite <- app_assoc.
    + rewrite filter_cons_False by (cbv beta; rewrite Hx; intros []).
      rewrite run_bind, (IH st) by (done || (intros; apply Hg; [by right|done])).
      reflexivity.
Qed.

(** X15. In a scope where [_] is bound, the after-execution function applied
    to a sequence calls the formatter once for every truthy element, in the
    order of the sequence, with the method descriptor as receiver and the
    element as only argument, and does nothing else. *)
Theorem afterExecution_calls_in_order method id g items st :
  is_Some (globals host "_") →
  member host method "outputFormatter" st = (Ret (VNative (NExternal id)), st) →
  (∀ x, x ∈ items → truthy x = true → ext_call host id (heap st) method [x] = Ret (g x)) →
  afterExecution host method (VArr items) st
  = (Ret (VArr (map (λ x, if truthy x then g x else x) items)),
     relog (log st ++ formatter_calls (VNative (NExternal id)) method items) st).
Proof.
  intros [u Hu] Hfmt Hg. unfold afterExecution, lookup_global. rewrite Hu.
  rewrite run_bind. change (ret u st) with (Ret u, st). cbv beta iota.
  by rewrite run_bind, (format_items_run method id g items st st Hfmt eq_refl Hg).
Qed.

(** X16. When the formatter throws for an element, the after-execution
    function throws the same: the elements before it were given to the
    formatter, the elements after it are not. *)
Theorem afterExecution_stops_at_the_first_failure method id g pre x e post st :
  is_Some (globals host "_") →
  member host method "outputFormatter" st = (Ret (VNative (NExternal id)), st) →
  (∀ y, y ∈ pre → truthy y = true → ext_call host id (heap st) method [y] = Ret (g y)) →
  truthy x = true → ext_call host id (heap st) method [x] = Throw e →
  afterExecution host method (VArr (pre ++ x :: post)) st
  = (Throw e,
     relog (log st ++ formatter_calls (VNative (NExternal id)) method (pre ++ [x])) st).
Proof.
  intros [u Hu] Hfmt Hg Hx He. unfold afterExecution, lookup_global. rewrite Hu.
  rewrite run_bind. change (ret u st) with (Ret u, st). cbv beta iota.
  rewrite run_bind.
  assert (Hrun : ∀ s, heap s = heap st →
            mapM (format_item host method) (pre ++ x :: post) s
            = (Throw e, relog (log s ++ formatter_calls (VNative (NExternal id)) method
                                        (pre ++ [x])) s)).
  { clear Hu. induction pre as [|y pre IH]; intros s Hh.
    - cbn [app mapM]. rewrite run_bind, (format_item_eq method id x st s Hfmt Hh), Hx, He.
      unfold formatter_calls. cbn [app]. rewrite filter_cons_True by (cbv beta; rewrite Hx; exact I).
      reflexivity.
    - cbn [app mapM]. rewrite run_bind, (format_item_eq method id y st s Hfmt Hh).
      unfold formatter_calls. cbn [app].
      destruct (truthy y) eqn:Hy.
      + rewrite filter_cons_True by (cbv beta; rewrite Hy; exact I). rewrite (Hg y) by (done || left).
        rewrite run_bind, IH by (done || (intros; apply Hg; [by right|done])).
        unfold relog, logged, formatter_calls. cbn. by rewrite <- app_assoc.
      + rewrite filter_cons_False by (cbv beta; rewrite Hy; intros []).
        rewrite run_bind, IH by (done || (intros; apply Hg; [by right|done])).
        reflexivity. }
  by rewrite Hrun.
Qed.

(** X17. On a response that is not a sequence the after-execution function
    reads the identifier [result], which nothing declares: with an output
    formatter it throws a ReferenceError and the formatter is not called;
    without one the response is returned as it is. *)
Theorem afterExecution_of_a_scalar method response fmt st :
  is_Some (globals host "_") → globals host "result" = None →
  (∀ items, response ≠ VArr items) →
  member host method "outputFormatter" st = (Ret fmt, st) →
  afterExecution host method response st
  = (if truthy fmt then Throw (ReferenceError "result") else Ret response, st).
Proof.
  intros [u Hu] Hres Hscalar Hfmt. unfold afterExecution, lookup_global. rewrite Hu.
  rewrite run_bind. change (ret u st) with (Ret u, st). cbv beta iota.
  destruct response; try (by destruct (Hscalar xs));
    rewrite (run_bind_ret _ _ _ _ _ Hfmt); destruct (truthy fmt); by rewrite ?Hres.
Qed.

End AfterExecution.

Lemma reach_le fs : reach fs ≤ length fs.
Proof.
  induction fs as [|f fs IH]; [done|]. cbn. destruct (reach fs), (truthy f); lia.
Qed.

Lemma reach_snoc fs f :
  reach (fs ++ [f]) = if truthy f then S (length fs) else reach fs.
Proof.
  induction fs as [|f0 fs IH]; cbn.
  - by destruct (truthy f).
  - rewrite IH. pose proof (reach_le fs).
    destruct (truthy f); [done|]. reflexivity.
Qed.

Lemma nth_store i key v ps :
  nth i (store key v ps) VUndefined = if decide (i = key) then v else nth i ps VUndefined.
Proof.
  unfold store. destruct (decide (key < length ps)) as [Hlt|Hge].
  - destruct (decide (i = key)) as [->|Hne].
    + apply nth_lookup_Some with (d := VUndefined). by apply list_lookup_insert_eq.
    + rewrite !nth_lookup. by rewrite list_lookup_insert_ne.
  - destruct (decide (i = key)) as [->|Hne].
    + rewrite app_assoc, app_nth2; rewrite ?length_app, ?length_replicate; [|lia].
      replace (key - (length ps + (key - length ps))) with 0 by lia. reflexivity.
    + destruct (decide (i < length ps)) as [Hi|Hi].
      * by rewrite app_nth1.
      * rewrite app_nth2 by lia. rewrite (nth_overflow ps) by lia.
        destruct (decide (i - length ps < key - length ps)) as [Hj|Hj].
        -- rewrite app_nth1 by (rewrite length_replicate; lia).
           rewrite nth_lookup, lookup_replicate_2; [done|lia].
        -- rewrite app_nth2 by (rewrite length_replicate; lia).
           rewrite length_replicate. apply nth_overflow. cbn. lia.
Qed.

Lemma length_store key v ps : length (store key v ps) = length ps `max` S key.
Proof.
  unfold store. destruct (decide (key < length ps)).
  - rewrite length_insert. lia.
  - rewrite !length_app, length_replicate. cbn. lia.
Qed.

Section BeforeExecutionHook.
Context (host : Host).

Lemma forEach_key_app {A} (f : A → nat → Value → M A) xs ys key acc st :
  forEach_key f key (xs ++ ys) acc st
  = (acc' ← forEach_key f key xs acc; forEach_key f (key + length xs) ys acc') st.
Proof.
  revert key acc st. induction xs as [|x xs IH]; intros key acc st.
  - cbn. rewrite run_bind. unfold ret. by rewrite Nat.add_0_r.
  - cbn [app forEach_key length]. rewrite run_bind_assoc, !run_bind.
    destruct (f acc key x st) as [[a|e] s1]; [|done].
    rewrite IH. by replace (S key + length xs) with (key + S (length xs)) by lia.
Qed.

Lemma formatters_run web3Package g ps fs : ∀ st,
  (∀ i f, fs !! i = Some f → truthy f = true →
     ∃ id, f = VNative (NExternal id)
           ∧ ext_call host id (heap st) VUndefined [nth i ps VUndefined; web3Package]
             = Ret (g i)) →
  ∃ r st',
    forEach_key (format_parameter host web3Package) 0 fs (VArr ps) st = (Ret (VArr r), st')
    ∧ heap st' = heap st
    ∧ length r = length ps `max` reach fs
    ∧ ∀ i, nth i r VUndefined
           = if truthy (nth i fs VUndefined) then g i else nth i ps VUndefined.
Proof.
  induction fs as [|f fs IH] using rev_ind; intros st Hg.
  - exists ps, st. split_and!; [done|done|cbn; lia|]. intros i. by destruct i.
  - destruct (IH st) as (r & s1 & Hrun & Hh & Hlen & Hnth).
    { intros i f0 Hi. apply Hg. by apply lookup_app_l_Some. }
    rewrite forEach_key_app, (run_bind_ret _ _ _ _ _ Hrun). cbn [forEach_key plus].
    rewrite run_bind. unfold format_parameter at 1.
    assert (Hother : ∀ i, i ≠ length fs →
              truthy (nth i (fs ++ [f]) VUndefined) = truthy (nth i fs VUndefined)).
    { intros i Hi. destruct (decide (i < length fs)).
      - by rewrite app_nth1.
      - rewrite !nth_overflow; [done|lia|rewrite length_app; cbn; lia]. }
    assert (Hat : nth (length fs) (fs ++ [f]) VUndefined = f).
    { rewrite app_nth2 by lia. by rewrite Nat.sub_diag. }
    destruct (truthy f) eqn:Hf.
    + destruct (Hg (length fs) f) as (id & -> & Hcall); [|done|].
      { rewrite lookup_app_r by lia. by rewrite Nat.sub_diag. }
      unfold call_collab. rewrite !run_bind. cbn [emit call_external].
      rewrite run_bind. cbn [get_heap heap of_outcome].
      assert (Hread : nth (length fs) r VUndefined = nth (length fs) ps VUndefined).
      { rewrite Hnth. by rewrite nth_overflow by lia. }
      rewrite Hread, Hh, Hcall. cbn.
      eexists _, _. split; [reflexivity|]. cbn [heap]. split_and!; [done| |].
      * rewrite length_store, Hlen, reach_snoc. cbn [truthy].
        pose proof (reach_le fs). lia.
      * intros i. rewrite nth_store. destruct (decide (i = length fs)) as [->|Hi].
        -- by rewrite Hat.
        -- by rewrite Hother, Hnth.
    + change (ret (VArr r) s1) with (Ret (VArr r), s1). cbv beta iota.
      exists r, s1. split_and!; [done|done| |].
      * by rewrite Hlen, reach_snoc, Hf.
      * intros i. destruct (decide (i = length fs)) as [->|Hi].
        -- rewrite Hat, Hf, Hnth. by rewrite nth_overflow by lia.
        -- by rewrite Hother, Hnth.
Qed.

(** X18. The before-execution function replaces, in the array [parameters],
    every position that has a truthy input formatter by what that formatter
    makes of the value at that position (undefined past the end of the array)
    and of the package; the other positions are kept, and the array grows when
    a truthy formatter lies past its end. *)
Theorem beforeExecution_formats_in_place method web3Package g ps fs st :
  member host method "inputFormatters" st = (Ret (VArr fs), st) →
  (∀ i f, fs !! i = Some f → truthy f = true →
     ∃ id, f = VNative (NExternal id)
           ∧ ext_call host id (heap st) VUndefined [nth i ps VUndefined; web3Package]
             = Ret (g i)) →
  ∃ r st',
    beforeExecution host method (VArr ps) web3Package st = (Ret (VArr r), st')
    ∧ heap st' = heap st
    ∧ length r = length ps `max` reach fs
    ∧ ∀ i, nth i r VUndefined
           = if truthy (nth i fs VUndefined) then g i else nth i ps VUndefined.
Proof.
  intros Hfs Hg. unfold beforeExecution. rewrite (run_bind_ret _ _ _ _ _ Hfs).
  by apply formatters_run.
Qed.

End BeforeExecutionHook.


(** ** The properties at work *)

Section Instances.
Import Scenario Runs Cases.

Lemma wf_st0 : wf st0.
Proof. apply (bool_decide_unpack (wf st0)). vm_compute. exact I. Qed.

(** X1, at new AbstractWeb3Object(T1, registry, controller, factory,
    batchPackage). *)
Lemma construction_asks_detect_once_witness :
  ∃ detect given s,
    VProxy parent = VProxy (next st0)
    ∧ heap st0 !! next st0 = None
    ∧ log (AbstractWeb3Object module_scope full_args st0).2
      = log st0 ++ [EvCall L52_detect detect (arg 1 full_args) []]
    ∧ call_external module_scope detect (arg 1 full_args) [] s = (Ret given, s)
    ∧ own_member (AbstractWeb3Object module_scope full_args st0).2 (next st0) "givenProvider"
      = Some given
    ∧ (∀ x, is_Some (heap st0 !! x)
        → heap (AbstractWeb3Object module_scope full_args st0).2 !! x = heap st0 !! x).
Proof.
  apply (construction_asks_detect_once module_scope full_args st0 (VProxy parent)
           (AbstractWeb3Object module_scope full_args st0).2 wf_st0).
  vm_compute. reflexivity.
Defined.

Lemma wf_constructed host : wf (constructed host).
Proof.
  unfold constructed.
  destruct (AbstractWeb3Object host full_args st0) as [out st'] eqn:H.
  by destruct (frame_AbstractWeb3Object host 0 (λ _, False) _ _ _ _ H ltac:(lia) wf_st0)
    as (_ & ? & _).
Qed.

(** X2, at new AbstractWeb3Object(T1, registry, controller, factory,
    batchPackage). *)
Lemma constructed_client_members_witness :
  let st' := constructed module_scope in
  own_member st' parent "extendedPackages" = Some (VArr [])
  ∧ own_member st' parent "providersPackage" = Some (VObj registry)
  ∧ own_member st' parent "providers" = Some (VObj (S parent))
  ∧ heap st' !! S parent
    = Some (plain (<["HttpProvider" := VNative (NExternal 10)]>
                  (<["IpcProvider" := VNative (NExternal 11)]>
                  (<["WebsocketProvider" := VNative (NExternal 12)]> ∅))))
  ∧ own_member st' parent "BatchRequest" = Some (VObj (S (S parent)))
  ∧ heap st' !! S (S parent) = Some (closure (CBatchRequest (arg 4 full_args)))
  ∧ own_member st' parent "methodModelFactory" = Some (arg 3 full_args)
  ∧ own_member st' parent "methodController" = Some (arg 2 full_args)
  ∧ own_member st' parent "currentProvider" = Some VNull.
Proof.
  apply (constructed_client_members module_scope full_args st0 (VProxy parent)
           (constructed module_scope) registry
           (default (plain ∅) (heap st0 !! registry))
           (VNative (NExternal 10)) (VNative (NExternal 11)) (VNative (NExternal 12)));
    try (vm_compute; reflexivity).
  vm_compute. lia.
Defined.

(** X3, at new AbstractWeb3Object(T1, null, controller, factory). *)
Lemma construction_without_providers_package_witness :
  (AbstractWeb3Object module_scope [VObj T1; VNull; VObj controller; VObj factory] st0).1
  = Throw TypeError
  ∧ log (AbstractWeb3Object module_scope [VObj T1; VNull; VObj controller; VObj factory] st0).2
    = log st0.
Proof.
  apply (construction_without_providers_package module_scope
           [VObj T1; VNull; VObj controller; VObj factory] st0).
  reflexivity.
Defined.

(** X4, at new AbstractWeb3Object(T1, registry, controller) and the read of
    [setProvider]. *)
Lemma client_without_factory_is_unusable_witness :
  let st' := (AbstractWeb3Object module_scope bare_args st0).2 in
  get_member module_scope (VProxy parent) "setProvider" st' = (Throw TypeError, st').
Proof.
  apply (client_without_factory_is_unusable module_scope bare_args st0 (VProxy parent)
           (AbstractWeb3Object module_scope bare_args st0).2).
  - vm_compute. reflexivity.
  - reflexivity.
Defined.

(** X5, at the constructed client and the transport T2. *)
Lemma constructed_client_rejects_every_provider_witness :
  let st' := constructed module_scope in
  set_member module_scope (VProxy parent) "currentProvider" (VObj T2) st' = (Throw TypeError, st')
  ∧ setProvider module_scope 1 (VProxy parent) (VObj T2) st' = (Throw TypeError, st').
Proof.
  apply (constructed_client_rejects_every_provider module_scope full_args st0 (VProxy parent)
           (constructed module_scope)).
  vm_compute. reflexivity.
Defined.

(** X6, at the constructed client. *)
Lemma clearSubscriptions_needs_a_provider_witness :
  ∃ e, (clearSubscriptions module_scope (VProxy parent) (constructed module_scope)).1 = Throw e.
Proof.
  apply (clearSubscriptions_needs_a_provider module_scope (VProxy parent) parent
           (default (plain ∅) (heap (constructed module_scope) !! parent))).
  - apply wf_constructed.
  - by right.
  - vm_compute. reflexivity.
  - vm_compute. reflexivity.
Defined.

(** X7, at a client that holds T2 (no subscription) and is assigned T1. *)
Lemma assignment_without_live_subscriptions_witness :
  let st := holding parent (VObj T2) (constructed module_scope) in
  let st' := (currentProvider_set module_scope parent (VProxy parent) (VObj T1) st).2 in
  ∃ mid registry resolve v stm,
    log st' = log st ++ mid ++ [EvCall L74_resolve resolve registry [VObj T1]; EvSlot parent v]
    ∧ Forall quiet mid
    ∧ filter (λ e, is_clear e) (drop (length (log st)) (log st')) = []
    ∧ call_external module_scope resolve registry [VObj T1] stm = (Ret v, stm)
    ∧ slot_of st' parent = Some v.
Proof.
  intros st st'.
  apply (assignment_without_live_subscriptions module_scope parent (VProxy parent) (VObj T1)
           st st' (VObj T2) (VNative (NExternal clearSubs))).
  - vm_compute. reflexivity.
  - vm_compute. reflexivity.
  - right. exists (VArr []), (VNum 0). split_and!; vm_compute; reflexivity.
  - vm_compute. reflexivity.
Defined.

(** X8, at a client that holds T1, when the accessor is invoked on a receiver
    without a providers package: the subscriptions of T1 are cleared, the
    assignment fails, and the client still holds T1. *)
Lemma failed_assignment_keeps_the_provider_witness :
  let st := holding parent (VObj T1) (constructed module_scope) in
  let r := currentProvider_set module_scope parent (VObj window) (VObj T2) st in
  r.1 = Throw TypeError
  ∧ filter (λ e, is_clear e) (log r.2)
    = [EvCall L71_clearSubscriptions (VNative (NExternal clearSubs)) (VObj T1) []]
  ∧ heap r.2 !! parent = heap st !! parent
  ∧ slot_of r.2 parent = slot_of st parent.
Proof.
  intros st r.
  split; [vm_compute; reflexivity|]. split; [vm_compute; reflexivity|].
  apply (failed_assignment_keeps_the_provider module_scope parent (VObj window) (VObj T2)
           st TypeError r.2).
  - apply (bool_decide_unpack (wf st)). vm_compute. exact I.
  - vm_compute. eauto.
  - vm_compute. reflexivity.
Defined.

(** X10, at a client that holds T1; [read] is what a read of [currentProvider]
    through the proxy adds to the log. *)
Lemma clearSubscriptions_asks_then_clears_witness :
  let st := holding parent (VObj T1) (constructed module_scope) in
  let read := EvCall L216_hasMethodModel (VNative NHasMethodModel) (VObj factory)
                [VStr "currentProvider"] in
  clearSubscriptions module_scope (VProxy parent) st
  = (Ret VUndefined,
     relog (log st ++ [read; read;
                       EvCall L135_hasSubscription (VNative (NExternal hasSubscription))
                         (VObj T1) [];
                       read;
                       EvCall L136_clearSubscriptions (VNative (NExternal clearSubs))
                         (VObj T1) []]) st).
Proof.
  intros st read.
  apply (clearSubscriptions_asks_then_clears module_scope (VProxy parent) (VObj T1)
           (VNative (NExternal clearSubs)) (VNative (NExternal hasSubscription)) (VBool true)
           [read] st (get_member module_scope (VProxy parent) "currentProvider" st).2).
  - vm_compute. reflexivity.
  - vm_compute. reflexivity.
  - vm_compute. reflexivity.
  - vm_compute. reflexivity.
  - vm_compute. reflexivity.
  - reflexivity.
  - vm_compute. reflexivity.
  - vm_compute. reflexivity.
  - intros _. exists VUndefined. vm_compute. reflexivity.
Defined.

(** X9, at a factory with a model named [extend]. *)
Lemma prototype_method_collides_witness :
  let st := with_model_named_extend module_scope in
  proxyHandler module_scope parent "extend" st
  = (Throw (ErrorMsg (duplicated "extend")), (hasModel module_scope parent "extend" st).2).
Proof.
  intros st.
  apply (prototype_method_collides module_scope parent
           (default (plain ∅) (heap st !! parent)) "extend" (VNative NExtend) st).
  - apply (bool_decide_unpack (wf st)). vm_compute. exact I.
  - vm_compute. reflexivity.
  - vm_compute. reflexivity.
  - vm_compute. reflexivity.
  - vm_compute. reflexivity.
  - vm_compute. reflexivity.
Defined.

(** X12, at client.extend({methods: [blockNumber]}) in the scope of the module
    as it is written. *)
Lemma extend_needs_AbstractMethodModel_witness :
  let st := constructed module_scope in
  (extend module_scope (VProxy parent) (VObj extPlain) st).1
  = Throw (ReferenceError "AbstractMethodModel")
  ∧ ∀ x, is_Some (heap st !! x) →
         heap (extend module_scope (VProxy parent) (VObj extPlain) st).2 !! x = heap st !! x.
Proof.
  apply (extend_needs_AbstractMethodModel module_scope (VProxy parent) (VObj extPlain)
           VUndefined (VObj blockNumber) [] (constructed module_scope)).
  - apply wf_constructed.
  - reflexivity.
  - vm_compute. reflexivity.
  - reflexivity.
  - vm_compute. reflexivity.
Defined.

(** X14, at client.extend({methods: [blockNumber]}) where
    [AbstractMethodModel] is bound: the name is registered and the model of
    net_version is kept. *)
Lemma extend_registers_on_the_receiver_witness :
  let st := constructed patched_scope in
  let st' := (extend patched_scope (VProxy parent) (VObj extPlain) st).2 in
  ∃ om', heap st' !! models = Some om'
    ∧ registered_by st st' [VObj blockNumber] om' "eth_blockNumber"
    ∧ props om' !! "net_version" = Some (VNative (NExternal VersionModel)).
Proof.
  intros st st'.
  destruct (extend_registers_on_the_receiver patched_scope (VProxy parent) parent
              (default (plain ∅) (heap st !! parent)) factory
              (default (plain ∅) (heap st !! factory)) models
              (default (plain ∅) (heap st !! models)) (VObj extPlain) VUndefined
              [VObj blockNumber] st st')
    as (_ & om' & Hom & Hkeys & Hreg).
  - apply wf_constructed.
  - by right.
  - vm_compute. reflexivity.
  - vm_compute. reflexivity.
  - vm_compute. reflexivity.
  - vm_compute. reflexivity.
  - vm_compute. reflexivity.
  - vm_compute. reflexivity.
  - vm_compute. lia.
  - vm_compute. lia.
  - vm_compute. reflexivity.
  - reflexivity.
  - vm_compute. reflexivity.
  - constructor; [|constructor].
    exists blockNumber, (default (plain ∅) (heap st !! blockNumber)), "eth_blockNumber".
    split_and!; [reflexivity|vm_compute; lia|vm_compute; reflexivity|vm_compute; reflexivity].
  - vm_compute. reflexivity.
  - exists om'. split; [exact Hom|]. split.
    + apply (Hreg blockNumber (default (plain ∅) (heap st !! blockNumber))).
      * apply list_elem_of_singleton. reflexivity.
      * vm_compute. reflexivity.
      * vm_compute. reflexivity.
    + destruct (Hkeys "net_version") as [->|(cls & ocls & d & od & _ & _ & _ & _ & Hin & Hd & Hn)].
      * vm_compute. reflexivity.
      * apply list_elem_of_singleton in Hin. injection Hin as ->.
        vm_compute in Hd. injection Hd as <-. vm_compute in Hn. discriminate.
Defined.

(** X13, at the class synthesised for gasPrice and an instance of it. *)
Lemma model_instances_do_not_get_the_hooks_witness :
  let r1 := declare_ExtensionMethodModel patched_scope (VObj gasPrice) st0 in
  let r2 := ExtensionMethodModel patched_scope (S first_free) (VObj gasPrice)
              [VObj utils; VObj formatters] r1.2 in
  r1.1 = Ret (S first_free)
  ∧ member patched_scope (VObj (first_free + 5)) "afterExecution" r2.2
    = (Ret (VNative (NExternal inheritedAfter)), r2.2).
Proof.
  intros r1 r2. split; [vm_compute; reflexivity|].
  apply (model_instances_do_not_get_the_hooks patched_scope (VObj gasPrice) AbstractMethodModel
           modelProto (default (plain ∅) (heap st0 !! modelProto)) "afterExecution"
           (VNative (NExternal inheritedAfter)) [VObj utils; VObj formatters] st0
           (S first_free) r1.2 (VObj (first_free + 5)) r2.2).
  - apply wf_st0.
  - reflexivity.
  - reflexivity.
  - vm_compute. reflexivity.
  - vm_compute. reflexivity.
  - vm_compute. reflexivity.
  - vm_compute. reflexivity.
Defined.

(** X15, at the response ['0x1', null, '0x2'] with hexToInt. *)
Lemma afterExecution_calls_in_order_witness :
  afterExecution patched_scope (VObj gasPrice) (VArr [VStr "0x1"; VNull; VStr "0x2"]) st0
  = (Ret (VArr [VNum 1; VNull; VNum 2]),
     relog [EvCall L182_outputFormatter (VNative (NExternal hexToInt)) (VObj gasPrice)
              [VStr "0x1"];
            EvCall L182_outputFormatter (VNative (NExternal hexToInt)) (VObj gasPrice)
              [VStr "0x2"]] st0).
Proof.
  apply (afterExecution_calls_in_order patched_scope (VObj gasPrice) hexToInt
           (λ x, match hex_to_int x with Ret v => v | Throw _ => VUndefined end)
           [VStr "0x1"; VNull; VStr "0x2"] st0).
  - vm_compute. eauto.
  - vm_compute. reflexivity.
  - intros x Hx Ht. apply list_elem_of_In in Hx.
    destruct Hx as [<-|[<-|[<-|[]]]]; try discriminate Ht; vm_compute; reflexivity.
Defined.

(** X16, at the response ['0x1', 'latest', '0x2'] with hexToInt, which rejects
    'latest'. *)
Lemma afterExecution_stops_at_the_first_failure_witness :
  afterExecution patched_scope (VObj gasPrice)
    (VArr [VStr "0x1"; VStr "latest"; VStr "0x2"]) st0
  = (Throw (Thrown (VStr "latest")),
     relog [EvCall L182_outputFormatter (VNative (NExternal hexToInt)) (VObj gasPrice)
              [VStr "0x1"];
            EvCall L182_outputFormatter (VNative (NExternal hexToInt)) (VObj gasPrice)
              [VStr "latest"]] st0).
Proof.
  apply (afterExecution_stops_at_the_first_failure patched_scope (VObj gasPrice) hexToInt
           (λ x, match hex_to_int x with Ret v => v | Throw _ => VUndefined end)
           [VStr "0x1"] (VStr "latest") (Thrown (VStr "latest")) [VStr "0x2"] st0).
  - vm_compute. eauto.
  - vm_compute. reflexivity.
  - intros x Hx _. apply list_elem_of_In in Hx.
    destruct Hx as [<-|[]]; vm_compute; reflexivity.
  - reflexivity.
  - vm_compute. reflexivity.
Defined.

(** X17, at the response '0x5' with hexToInt. *)
Lemma afterExecution_of_a_scalar_witness :
  afterExecution patched_scope (VObj gasPrice) (VStr "0x5") st0
  = (Throw (ReferenceError "result"), st0).
Proof.
  apply (afterExecution_of_a_scalar patched_scope (VObj gasPrice) (VStr "0x5")
           (VNative (NExternal hexToInt)) st0).
  - vm_compute. eauto.
  - reflexivity.
  - discriminate.
  - vm_compute. reflexivity.
Defined.

(** X18, at the parameters ['0x10', 'latest'] with the input formatters
    [hexToInt, null, isHex]: the array grows to three elements. *)
Lemma beforeExecution_formats_in_place_witness :
  ∃ r st',
    beforeExecution module_scope (VObj ethCall) (VArr [VStr "0x10"; VStr "latest"])
      (VObj window) st_call = (Ret (VArr r), st')
    ∧ heap st' = heap st_call
    ∧ length r = 3
    ∧ ∀ i, nth i r VUndefined
           = if truthy (nth i [VNative (NExternal hexToInt); VNull; VNative (NExternal isHex)]
                          VUndefined)
             then nth i [VNum 16; VUndefined; VBool false] VUndefined
             else nth i [VStr "0x10"; VStr "latest"] VUndefined.
Proof.
  apply (beforeExecution_formats_in_place module_scope (VObj ethCall) (VObj window)
           (λ i, nth i [VNum 16; VUndefined; VBool false] VUndefined)
           [VStr "0x10"; VStr "latest"]
           [VNative (NExternal hexToInt); VNull; VNative (NExternal isHex)] st_call).
  - vm_compute. reflexivity.
  - intros [|[|[|i]]] f Hi Hf; cbn in Hi; try discriminate; injection Hi as <-;
      try discriminate; eexists; (split; [reflexivity|vm_compute; reflexivity]).
Defined.

(** X11, at a parent with the children A and B, all three holding T1, and the
    transport T2. *)
Lemma setProvider_updates_the_parent_then_each_child_witness :
  let st := holding childB (VObj T1) (holding childA (VObj T1) (holding parent (VObj T1)
              (parent_with_A_B module_scope st0).2)) in
  let st' := (setProvider module_scope 1 (VProxy parent) (VObj T2) st).2 in
  VUndefined = VUndefined
  ∧ ∃ v vs s,
      call_external module_scope (VNative (NExternal resolve)) (VObj registry) [VObj T2] s
      = (Ret v, s)
      ∧ length vs = length [childA; childB]
      ∧ slot_of st' parent = Some v
      ∧ filter (λ e, is_slot_write e || is_propagation e) (drop (length (log st)) (log st'))
        = propagation parent v [childA; childB] vs.
Proof.
  intros st st'.
  apply (setProvider_updates_the_parent_then_each_child module_scope 1 (VProxy parent) parent
           (default (plain ∅) (heap st !! parent)) registry
           (default (plain ∅) (heap st !! registry)) (VNative (NExternal resolve))
           [childA; childB] (VObj T2) st VUndefined st').
  - apply (bool_decide_unpack (wf st)). vm_compute. exact I.
  - by right.
  - vm_compute. reflexivity.
  - vm_compute. eauto.
  - vm_compute. reflexivity.
  - vm_compute. reflexivity.
  - vm_compute. reflexivity.
  - vm_compute. reflexivity.
  - intros s v H. cbn in H. injection H as <-. reflexivity.
  - repeat constructor; try (vm_compute; lia);
      (eexists; split; [vm_compute; reflexivity|];
       split_and!; [vm_compute; eauto|reflexivity..]).
  - vm_compute. reflexivity.
Defined.

(** X19, at client.extend({property: 'x', methods: [gasPrice]}) on a client
    that holds T1. *)
Lemma extend_with_a_namespace_adds_one_child_witness :
  let st := holding parent (VObj T1) (AbstractWeb3Object patched_scope full_args st0).2 in
  let st' := (extend patched_scope (VProxy parent) (VObj extX) st).2 in
  slot_of st' parent = Some (VObj T1)
  ∧ ∃ c oc,
    heap st !! c = None
    ∧ own_member st' parent "x" = Some (VProxy c)
    ∧ own_member st' parent "extendedPackages" = Some (VArr ([] ++ [VProxy c]))
    ∧ heap st' !! c = Some oc
    ∧ slot oc = Some VNull
    ∧ props oc !! "providersPackage" = Some (VObj registry)
    ∧ props oc !! "methodController" = Some (VObj controller)
    ∧ props oc !! "extendedPackages" = Some (VArr [])
    ∧ (∀ x, is_Some (heap st !! x) → x ≠ parent → heap st' !! x = heap st !! x).
Proof.
  intros st st'. split; [vm_compute; reflexivity|].
  apply (extend_with_a_namespace_adds_one_child patched_scope (VProxy parent) parent
           (default (plain ∅) (heap st !! parent)) factory
           (default (plain ∅) (heap st !! factory)) [] (VObj registry) (VObj controller)
           (VObj extX) "x" st st').
  - apply (bool_decide_unpack (wf st)). vm_compute. exact I.
  - by right.
  - vm_compute. reflexivity.
  - vm_compute. reflexivity.
  - vm_compute. reflexivity.
  - vm_compute. reflexivity.
  - vm_compute. reflexivity.
  - vm_compute. reflexivity.
  - vm_compute. reflexivity.
  - vm_compute. reflexivity.
  - vm_compute. reflexivity.
  - reflexivity.
  - vm_compute. reflexivity.
  - reflexivity.
  - vm_compute. reflexivity.
  - discriminate.
  - discriminate.
  - discriminate.
  - vm_compute. reflexivity.
Defined.

End Instances.
